(** * xlsx_to_sql: the spreadsheet-to-SQL converter of cci_sql_xlsx_converter

    A shallow embedding of [src/cci_sql_xlsx_converter/xlsx_to_sql.py].

    The script is one function.  It reads a workbook, and for each worksheet
    emits a CREATE TABLE statement built from the header row, one INSERT
    statement per non-empty data row, and an entry of the new mapping
    document; it then warns about mapping entries no worksheet used and
    writes the SQL script and the mapping document.

    Layout of this file:
    - Python values as the script handles them (scalars read from cells,
      JSON-shaped values read from comments and from the description);
    - dictionaries as association lists in insertion order;
    - an exception-and-output monad for [raise], [print] and the calls that
      save the result;
    - the workbook as the script sees it through openpyxl;
    - the script itself, phase by phase, in source order;
    - the properties. *)

From Stdlib Require Import String Ascii ZArith List Lia Bool.
From Stdlib Require Import Floats DecimalString.
Import ListNotations.
Local Open Scope string_scope.
Local Open Scope Z_scope.

(* ===================================================================== *)
(** * Text *)
(* ===================================================================== *)

(** A [string] is a sequence of characters with code points below 256. *)

Definition nl : string := String "010"%char EmptyString.   (* \n *)
Definition tab : string := String "009"%char EmptyString.  (* \t *)
Definition dq : string := String "034"%char EmptyString.   (* the double quote *)

(** [s[:n]] and [s[n:]]. *)
Fixpoint str_take (n : nat) (s : string) : string :=
  match n, s with
  | S n', String c s' => String c (str_take n' s')
  | _, _ => EmptyString
  end.

Fixpoint str_drop (n : nat) (s : string) : string :=
  match n, s with
  | S n', String _ s' => str_drop n' s'
  | _, _ => s
  end.

(** [a in b] for two [str]: [a] occurs in [b] as a contiguous run. *)
Fixpoint str_contains (a b : string) : bool :=
  String.prefix a b ||
  match b with
  | EmptyString => false
  | String _ b' => str_contains a b'
  end.

(** [sep.join(l)]. *)
Fixpoint str_join (sep : string) (l : list string) : string :=
  match l with
  | [] => ""
  | [x] => x
  | x :: r => x ++ sep ++ str_join sep r
  end.

(** [''.join(l)]. *)
Fixpoint str_concat (l : list string) : string :=
  match l with
  | [] => ""
  | x :: r => x ++ str_concat r
  end.

(** [str(z)] for an [int]. *)
Definition str_of_Z (z : Z) : string := NilZero.string_of_int (Z.to_int z).

(** [str(n)] for a length. *)
Definition str_of_nat (n : nat) : string := str_of_Z (Z.of_nat n).

(* ===================================================================== *)
(** * Python values *)
(* ===================================================================== *)

(** What openpyxl hands back as a cell's [value]: [None], a [bool], an
    [int], a [float] or a [str].  (Date and time cells are outside this
    model.)  The same scalars are the leaves of decoded JSON. *)
Inductive scalar : Type :=
| PNone
| PBool (b : bool)
| PInt (z : Z)
| PFloat (f : float)
| PStr (s : string).

(** What [json.loads] returns, and what the mapping documents are made of.
    A [dict] keeps its keys in insertion order. *)
#[warnings="-register-all"]
Inductive pyvalue : Type :=
| Scalar (a : scalar)
| PList (l : list pyvalue)
| PDict (d : list (string * pyvalue)).

Definition VStr (s : string) : pyvalue := Scalar (PStr s).
Definition VInt (z : Z) : pyvalue := Scalar (PInt z).
Definition VBool (b : bool) : pyvalue := Scalar (PBool b).

(** Exceptions the script can end with.  [XLSXParseError] is the script's own
    class; the others are raised by the interpreter and its libraries.
    [Other] stands for an exception raised inside a call to the outside
    ([open], [write], [yaml.dump], [send2trash], [os.startfile]), by the
    name of its class. *)
Inductive exn : Type :=
| XLSXParseError (msg : string)
| JSONDecodeError
| KeyError (key : string)
| TypeError
| AttributeError
| ValueError
| OverflowError
| Other (class_name : string).

Definition result (A : Type) : Type := (exn + A)%type.

(** The built-ins whose output the script only passes along: the JSON decoder
    ([None] when it raises [JSONDecodeError]), [repr] of a [float] and [repr]
    of a [str]. *)
Class PyBuiltins : Type := {
  json_loads : string -> option pyvalue;
  float_repr : float -> string;
  str_repr : string -> string
}.

(** ** Truth value *)

Definition truthy (a : scalar) : bool :=
  match a with
  | PNone => false
  | PBool b => b
  | PInt z => negb (z =? 0)
  | PFloat f => negb (PrimFloat.eqb f 0%float)
  | PStr s => negb (String.eqb s "")
  end.

Definition truthy_value (v : pyvalue) : bool :=
  match v with
  | Scalar a => truthy a
  | PList l => match l with [] => false | _ => true end
  | PDict d => match d with [] => false | _ => true end
  end.

(** ** Equality ([==]) on scalars *)

Definition Z_of_bool (b : bool) : Z := if b then 1 else 0.

(** An [int] and a [float] are compared exactly. *)
Definition float_eq_Z (f : float) (z : Z) : bool :=
  match Prim2SF f with
  | S754_zero _ => z =? 0
  | S754_finite s m e =>
      let mz := if s then Z.neg m else Z.pos m in
      if 0 <=? e then z =? mz * 2 ^ e
      else (mz mod 2 ^ (- e) =? 0) && (z =? mz / 2 ^ (- e))
  | _ => false
  end.

Definition py_eq (a b : scalar) : bool :=
  match a, b with
  | PNone, PNone => true
  | PStr s, PStr t => String.eqb s t
  | PBool x, PBool y => Bool.eqb x y
  | PBool x, PInt y => Z_of_bool x =? y
  | PInt x, PBool y => x =? Z_of_bool y
  | PInt x, PInt y => x =? y
  | PFloat x, PFloat y => PrimFloat.eqb x y
  | PFloat x, PInt y => float_eq_Z x y
  | PInt x, PFloat y => float_eq_Z y x
  | PFloat x, PBool y => float_eq_Z x (Z_of_bool y)
  | PBool x, PFloat y => float_eq_Z y (Z_of_bool x)
  | _, _ => false
  end.

(** [v == s] for a decoded value [v] and a [str] [s]. *)
Definition value_eq_str (v : pyvalue) (s : string) : bool :=
  match v with
  | Scalar (PStr t) => String.eqb t s
  | _ => false
  end.

(** ** [str] and [repr] *)

Section Printing.
Context {py : PyBuiltins}.

Definition py_str (a : scalar) : string :=
  match a with
  | PNone => "None"
  | PBool b => if b then "True" else "False"
  | PInt z => str_of_Z z
  | PFloat f => float_repr f
  | PStr s => s
  end.

Definition py_repr (a : scalar) : string :=
  match a with
  | PStr s => str_repr s
  | _ => py_str a
  end.

Fixpoint value_repr (v : pyvalue) : string :=
  match v with
  | Scalar a => py_repr a
  | PList l => "[" ++ str_join ", " (map value_repr l) ++ "]"
  | PDict d =>
      "{" ++ str_join ", "
               (map (fun kv => str_repr (fst kv) ++ ": " ++ value_repr (snd kv)) d)
          ++ "}"
  end.

(** [str(v)], which is what an f-string field [{v}] inserts. *)
Definition value_str (v : pyvalue) : string :=
  match v with
  | Scalar a => py_str a
  | _ => value_repr v
  end.
End Printing.

(** [str(type(a))]. *)
Definition type_str (a : scalar) : string :=
  "<class '" ++
  match a with
  | PNone => "NoneType"
  | PBool _ => "bool"
  | PInt _ => "int"
  | PFloat _ => "float"
  | PStr _ => "str"
  end ++ "'>".

(** ** [int] *)

(** A [str] is modelled by its code points, which are taken to be below
    256.  What [int] skips around the digits: the white space of ASCII (tab,
    line feed, vertical tab, form feed, carriage return, space) and, of the
    other characters, those [str.isspace] holds of, which below 256 are
    U+0085 and U+00A0.  The separators U+001C to U+001F are not skipped. *)
Definition is_space (c : ascii) : bool :=
  let n := nat_of_ascii c in
  ((9 <=? n) && (n <=? 13) || (n =? 32) || (n =? 133) || (n =? 160))%nat.

(** [sys.get_int_max_str_digits()], which the script leaves at the
    interpreter's default: [int] raises ValueError on a text with more
    digits. *)
Definition int_max_str_digits : nat := 4300.

Definition digit_of (c : ascii) : option Z :=
  let n := nat_of_ascii c in
  if ((48 <=? n) && (n <=? 57))%nat then Some (Z.of_nat (n - 48)) else None.

Fixpoint lstrip (s : string) : string :=
  match s with
  | String c s' => if is_space c then lstrip s' else s
  | EmptyString => s
  end.

Fixpoint rstrip (s : string) : string :=
  match s with
  | EmptyString => EmptyString
  | String c s' =>
      match rstrip s' with
      | EmptyString => if is_space c then EmptyString else String c EmptyString
      | r => String c r
      end
  end.

(** Digits with single underscores between them. *)
Fixpoint parse_digits (acc : Z) (after_digit : bool) (s : string) : option Z :=
  match s with
  | EmptyString => if after_digit then Some acc else None
  | String c s' =>
      match digit_of c with
      | Some d => parse_digits (10 * acc + d) true s'
      | None =>
          if (Ascii.eqb c "_" && after_digit)%bool
          then parse_digits acc false s'
          else None
      end
  end.

(** How many digits a text has; underscores and the sign do not count. *)
Fixpoint count_digits (s : string) : nat :=
  match s with
  | EmptyString => 0%nat
  | String c s' =>
      match digit_of c with
      | Some _ => S (count_digits s')
      | None => count_digits s'
      end
  end.

(** [int(s)] for a [str], base 10: surrounding white space, an optional
    sign, digits; [None] when it raises ValueError. *)
Definition int_of_str (s : string) : option Z :=
  let body := lstrip (rstrip s) in
  let '(negative, digits) :=
    match body with
    | String c r =>
        if Ascii.eqb c "-" then (true, r)
        else if Ascii.eqb c "+" then (false, r)
        else (false, body)
    | EmptyString => (false, body)
    end in
  if (int_max_str_digits <? count_digits digits)%nat then None
  else option_map (fun v => if negative then - v else v)
                  (parse_digits 0 false digits).

(** [int(f)] for a [float]: the integral part, towards zero. *)
Definition int_of_float (f : float) : result Z :=
  match Prim2SF f with
  | S754_zero _ => inr 0
  | S754_infinity _ => inl OverflowError
  | S754_nan => inl ValueError
  | S754_finite s m e =>
      let mag := if 0 <=? e then Z.shiftl (Z.pos m) e else Z.shiftr (Z.pos m) (- e) in
      inr (if s then - mag else mag)
  end.

Definition py_int (a : scalar) : result Z :=
  match a with
  | PNone => inl TypeError
  | PBool b => inr (Z_of_bool b)
  | PInt z => inr z
  | PFloat f => int_of_float f
  | PStr s => match int_of_str s with Some z => inr z | None => inl ValueError end
  end.

(** [l.append(x)]. *)
Definition append {A : Type} (l : list A) (x : A) : list A := app l [x].

(* ===================================================================== *)
(** * Dictionaries *)
(* ===================================================================== *)

(** A [dict] with [str] keys: an association list in insertion order.  The
    dictionaries of the script come from [json.loads], from [{}] and from item
    assignment, so a key occurs once. *)
Definition dict (V : Type) : Type := list (string * V).

Section Dict.
Context {V : Type}.

(** [d.get(k)] *)
Fixpoint dict_get (k : string) (d : dict V) : option V :=
  match d with
  | [] => None
  | (k', v) :: r => if String.eqb k k' then Some v else dict_get k r
  end.

(** [k in d] *)
Definition dict_mem (k : string) (d : dict V) : bool :=
  match dict_get k d with Some _ => true | None => false end.

(** [d[k] = v]: an existing key keeps its place, a new key goes last. *)
Fixpoint dict_set (k : string) (v : V) (d : dict V) : dict V :=
  match d with
  | [] => [(k, v)]
  | (k', v') :: r =>
      if String.eqb k k' then (k', v) :: r else (k', v') :: dict_set k v r
  end.

(** [del d[k]] when [k] is there. *)
Fixpoint dict_remove (k : string) (d : dict V) : dict V :=
  match d with
  | [] => []
  | (k', v') :: r =>
      if String.eqb k k' then r else (k', v') :: dict_remove k r
  end.

(** [d.keys()] *)
Definition dict_keys (d : dict V) : list string := map fst d.
End Dict.

(** [v[k]] for a [str] key: only a [dict] can be indexed by a [str]. *)
Definition value_getitem (v : pyvalue) (k : string) : result pyvalue :=
  match v with
  | PDict d => match dict_get k d with Some x => inr x | None => inl (KeyError k) end
  | _ => inl TypeError
  end.

(** [v[k] = x] for a [str] key. *)
Definition value_setitem (v : pyvalue) (k : string) (x : pyvalue) : result pyvalue :=
  match v with
  | PDict d => inr (PDict (dict_set k x d))
  | _ => inl TypeError
  end.

(** [s in v] for a [str] [s]: an element of a [list], a key of a [dict], a
    run of characters of a [str]; nothing else can be searched. *)
Definition value_contains (v : pyvalue) (s : string) : result bool :=
  match v with
  | PList l => inr (existsb (fun x => value_eq_str x s) l)
  | PDict d => inr (dict_mem s d)
  | Scalar (PStr t) => inr (str_contains s t)
  | Scalar _ => inl TypeError
  end.

(* ===================================================================== *)
(** * Effects: exceptions, standard output, files *)
(* ===================================================================== *)

(** What a run asks of the outside, in order: a line on standard output,
    the writing of the SQL file (the [with] block of lines 207-208) and of
    the mapping file (lines 211-212), [send2trash.send2trash], [os.startfile],
    [os.system]. *)
Inductive event : Type :=
| Print (text : string)
| WriteSQL (path : string) (text : string)
| WriteYAML (path : string) (document : dict pyvalue)
| SendToTrash (path : string)
| StartFile (path : string)
| System (command : string).

(** A computation gives the events it caused and either the exception that
    ended it or its value. *)
Definition M (A : Type) : Type := (list event * result A)%type.

Definition ret {A} (a : A) : M A := ([], inr a).
Definition raise {A} (e : exn) : M A := ([], inl e).
Definition emit (ev : event) : M unit := ([ev], inr tt).
Definition lift {A} (r : result A) : M A := ([], r).

(** What the calls to the outside raise: [None] for a call that returns.
    [open] raises when the directory of the path is missing or the file
    cannot be written, [write] and [yaml.dump] when the text cannot be
    stored, [send2trash] and [os.startfile] when the file cannot be moved
    or opened.  Standard output is taken to accept every line. *)
Definition outside : Type := event -> option exn.

(** A call to the outside: it is made, and it returns or raises. *)
Definition call (env : outside) (ev : event) : M unit :=
  ([ev], match env ev with Some e => inl e | None => inr tt end).

Definition bind {A B} (m : M A) (k : A -> M B) : M B :=
  match m with
  | (evs, inl e) => (evs, inl e)
  | (evs, inr a) => let (evs', r) := k a in (app evs evs', r)
  end.

Definition rbind {A B} (r : result A) (k : A -> result B) : result B :=
  match r with
  | inl e => inl e
  | inr a => k a
  end.

Definition events {A} (m : M A) : list event := fst m.
Definition outcome {A} (m : M A) : result A := snd m.

Declare Scope py_scope.
Delimit Scope py_scope with py.
Notation "x <- m ;; k" := (bind m (fun x => k))
  (at level 61, m at next level, right associativity) : py_scope.
Notation "' p <- m ;; k" := (bind m (fun x => match x with p => k end))
  (at level 61, p pattern, m at next level, right associativity) : py_scope.
Notation "m ;; k" := (bind m (fun _ => k))
  (at level 61, right associativity) : py_scope.
Notation "x <~ r ;; k" := (rbind r (fun x => k))
  (at level 61, r at next level, right associativity) : py_scope.
Notation "' p <~ r ;; k" := (rbind r (fun x => match x with p => k end))
  (at level 61, p pattern, r at next level, right associativity) : py_scope.
Local Open Scope py_scope.

(* ===================================================================== *)
(** * The workbook *)
(* ===================================================================== *)

(** A cell: its value and the text of its comment, if it has one. *)
Record cell : Type := { value : scalar; comment : option string }.

Definition empty_cell : cell := {| value := PNone; comment := None |}.

(** A worksheet: its title and its rows of cells, row 1 first, each row from
    column 1.  [sheet.cell(row, column)] outside the stored cells is an empty
    cell, so a short row is a row that ends in empty cells. *)
Record worksheet : Type := { title : string; rows : list (list cell) }.

(** A workbook: [properties.description] ([None] when it has none) and the
    worksheets in order. *)
Record workbook : Type := {
  description : option string;
  worksheets : list worksheet
}.

(** The parsed command line, and [platform.system()]. *)
Record config : Type := {
  LOG_TABLE_NAMES : bool;
  LOG_RECORDS : bool;
  LOG_FIELDS : bool;
  DISPLAY_WARNINGS : bool;
  OPEN_FILE : bool;
  DELETE_XLSX : bool;
  INPUT_FILE : string;
  OUTPUT_SQL_FILE : string;
  OUTPUT_YAML_FILE : string;
  platform_system : string
}.

(* ===================================================================== *)
(** * The script *)
(* ===================================================================== *)

Definition COMMENT_PREFIX : string := "AUTOGENERATED, DO NOT EDIT!" ++ nl.

Definition DEFAULT_METADATA : pyvalue :=
  PDict [("type", VStr "VARCHAR(255)"); ("not_null", VBool false); ("pk", VInt 0)].

Definition TABLES_KEY : string :=
  "__cci_sql_xlsx_converter_tables_without_mapping_data__".

(** A field as the header scan leaves it: [fields[i]] with
    [field_metadata[i]].  The script keeps the two in parallel lists that it
    extends together. *)
Definition field : Type := (scalar * pyvalue)%type.

(** The variables the worksheet loop updates.  The entry stored in
    [mapping_new] is the very object held by [mapping_original], so the
    assignment to its ['fields'] shows in both. *)
Record state : Type := {
  sql_script : string;
  mapping_original : dict pyvalue;
  table_mappings_preserved : dict bool;
  mapping_new : dict pyvalue
}.

Section Script.
Context {py : PyBuiltins}.
Variable cfg : config.

(** ** Logging functions *)

Definition log_table_name (text : string) : M unit :=
  if LOG_TABLE_NAMES cfg then emit (Print text) else ret tt.
Definition log_record (text : string) : M unit :=
  if LOG_RECORDS cfg then emit (Print text) else ret tt.
Definition log_field (text : string) : M unit :=
  if LOG_FIELDS cfg then emit (Print text) else ret tt.
Definition log_warning (text : string) : M unit :=
  if DISPLAY_WARNINGS cfg then emit (Print text) else ret tt.

(** ** Parse YAML mapping data (lines 67-72) *)

(** [mapping_original.pop(TABLES_KEY, None)]. *)
Definition pop_tables_key (v : pyvalue) : result (pyvalue * dict pyvalue) :=
  match v with
  | PDict d =>
      match dict_get TABLES_KEY d with
      | Some x => inr (x, dict_remove TABLES_KEY d)
      | None => inr (Scalar PNone, d)
      end
  | PList _ => inl TypeError
  | Scalar _ => inl AttributeError
  end.

Definition load_mapping (wb : workbook) : M (pyvalue * dict pyvalue) :=
  text <- match description wb with
          | Some s => ret s
          | None => raise TypeError
          end ;;
  loaded <- match json_loads text with
            | Some v => ret v
            | None => raise JSONDecodeError
            end ;;
  ' (tables_without_mapping_data, mapping_original) <- lift (pop_tables_key loaded) ;;
  match tables_without_mapping_data with
  | Scalar PNone =>
      raise (XLSXParseError
        "Mapping data does not contain list of tables without mapping data (this list must be present even if empty)")
  | _ => ret (tables_without_mapping_data, mapping_original)
  end.

(** ** Collect list of fields in this table (lines 90-119) *)

(** Extract field metadata. *)
Definition extract_metadata (c : cell) : M pyvalue :=
  match comment c with
  | Some comment_text =>
      let prefix := str_take (String.length COMMENT_PREFIX) comment_text in
      let suffix := str_drop (String.length COMMENT_PREFIX) comment_text in
      if negb (String.eqb prefix COMMENT_PREFIX)
      then raise (XLSXParseError
                    ("Comment verification failed: '" ++ comment_text ++ "'"))
      else match json_loads suffix with
           | Some metadata => ret metadata
           | None => raise JSONDecodeError
           end
  | None =>
      log_warning ("WARNING: No comment found for field " ++ py_str (value c)
                   ++ ". Using default type: VARCHAR(255), not primary key.") ;;
      ret DEFAULT_METADATA
  end.

(** The [while cell.value] loop along row 1.  It gives the fields and the
    value of the cell it stopped at. *)
Fixpoint collect_fields (header : list cell) : M (list field * scalar) :=
  match header with
  | [] => ret ([], PNone)
  | c :: header' =>
      if truthy (value c) then
        let field_name := value c in
        metadata <- extract_metadata c ;;
        log_field ("Detected field: " ++ py_str field_name
                   ++ " with metadata " ++ value_str metadata) ;;
        ' (fields, final) <- collect_fields header' ;;
        ret ((field_name, metadata) :: fields, final)
      else ret ([], value c)
  end.

(** ** Create the table (lines 121-153) *)

(** Add the fields: the loop body of lines 127-144. *)
Definition add_field (table_name : string) (f : field)
    (acc : option scalar * list scalar * string)
  : result (option scalar * list scalar * string) :=
  let '(primary_key_field, mapping_fields, sql) := acc in
  let '(field_name, metadata) := f in
  pk <~ value_getitem metadata "pk" ;;
  primary_key_field <~
    (if truthy_value pk then
       match primary_key_field with
       | Some _ => inl (XLSXParseError
                    ("Table " ++ table_name ++ ": multiple primary key fields detected!"))
       | None => inr (Some field_name)
       end
     else inr primary_key_field) ;;
  let is_primary_key :=
    match primary_key_field with
    | Some p => py_eq p field_name
    | None => false
    end in
  let sql :=
    if is_primary_key then sql ++ tab ++ py_str field_name
    else sql ++ tab ++ dq ++ py_str field_name ++ dq in
  let mapping_fields :=
    if is_primary_key then mapping_fields else append mapping_fields field_name in
  type <~ value_getitem metadata "type" ;;
  let sql := sql ++ " " ++ value_str type in
  not_null <~ value_getitem metadata "not_null" ;;
  let sql := if truthy_value not_null then sql ++ " NOT NULL" else sql in
  let sql := sql ++ "," ++ nl in
  inr (primary_key_field, mapping_fields, sql).

Fixpoint add_fields (table_name : string) (fields : list field)
    (acc : option scalar * list scalar * string)
  : result (option scalar * list scalar * string) :=
  match fields with
  | [] => inr acc
  | f :: fields' =>
      acc <~ add_field table_name f acc ;;
      add_fields table_name fields' acc
  end.

(** Gives [mapping_fields] and the script with the statement appended. *)
Definition create_table (table_name : string) (fields : list field) (sql : string)
  : result (list scalar * string) :=
  let sql := sql ++ "CREATE TABLE " ++ dq ++ table_name ++ dq ++ " (" ++ nl in
  ' (primary_key_field, mapping_fields, sql) <~
    add_fields table_name fields (None, [], sql) ;;
  sql <~ match primary_key_field with
         | Some p => inr (sql ++ "  PRIMARY KEY (" ++ py_str p ++ ")" ++ nl)
         | None => inl (XLSXParseError
                     ("Table " ++ table_name ++ ": no primary key field detected!"))
         end ;;
  inr (mapping_fields, sql ++ ");" ++ nl).

(** ** Insert records into the table (lines 155-184) *)

(** Lines 165-173 for one cell. *)
Definition convert_value (metadata : pyvalue) (raw : scalar) : result scalar :=
  let v := match raw with PNone => PStr "" | _ => raw end in
  target_type <~ value_getitem metadata "type" ;;
  if value_eq_str target_type "INTEGER"
  then z <~ py_int v ;; inr (PInt z)
  else inr (PStr (py_str v)).

(** The [values] of a row: one per field, read at the field's column. *)
Fixpoint row_values (fields : list field) (column_index : nat) (row_obj : list cell)
  : result (list scalar) :=
  match fields with
  | [] => inr []
  | (_, metadata) :: fields' =>
      v <~ convert_value metadata (value (nth column_index row_obj empty_cell)) ;;
      values <~ row_values fields' (S column_index) row_obj ;;
      inr (v :: values)
  end.

(** Lines 180-181: a [str] goes between single quotes as it is, anything
    else is formatted. *)
Definition value_literal (v : scalar) : string :=
  match v with
  | PStr s => "'" ++ s ++ "'"
  | _ => py_str v
  end.

(** Lines 178-181. *)
Fixpoint add_values (values : list scalar) (column : nat) (sql : string) : string :=
  match values with
  | [] => sql
  | v :: values' =>
      let sql := if (0 <? column)%nat then sql ++ "," else sql in
      let sql := sql ++ value_literal v in
      add_values values' (S column) sql
  end.

(** The rows after the header. *)
Fixpoint insert_records (table_name : string) (fields : list field)
    (data : list (list cell)) (sql : string) : M string :=
  match data with
  | [] => ret sql
  | row_obj :: data' =>
      if negb (existsb (fun c => truthy (value c)) row_obj)
      then insert_records table_name fields data' sql
      else
        values <- lift (row_values fields 0 row_obj) ;;
        let sql := sql ++ "INSERT INTO " ++ dq ++ table_name ++ dq ++ " VALUES(" in
        let sql := add_values values 0 sql in
        let sql := sql ++ ");" ++ nl in
        log_record ("Record in table " ++ table_name ++ ": "
                    ++ value_repr (PList (map Scalar values))) ;;
        insert_records table_name fields data' sql
  end.

(** ** Build new mapping data (lines 186-196) *)

Definition build_mapping (tables_without_mapping_data : pyvalue)
    (table_name : string) (mapping_fields : list scalar) (st : state) : M state :=
  let block_name := "Insert " ++ table_name in
  let fields_value := PList (map Scalar mapping_fields) in
  match dict_get block_name (mapping_original st) with
  | Some entry =>
      entry <- lift (value_setitem entry "fields" fields_value) ;;
      ret {| sql_script := sql_script st;
             mapping_original := dict_set block_name entry (mapping_original st);
             table_mappings_preserved :=
               dict_set block_name true (table_mappings_preserved st);
             mapping_new := dict_set block_name entry (mapping_new st) |}
  | None =>
      listed <- lift (value_contains tables_without_mapping_data table_name) ;;
      if listed then ret st
      else
        log_warning ("WARNING: Mapping data for table " ++ table_name
                     ++ " not found. Adding default data.") ;;
        ret {| sql_script := sql_script st;
               mapping_original := mapping_original st;
               table_mappings_preserved := table_mappings_preserved st;
               mapping_new :=
                 dict_set block_name
                   (PDict [("table", VStr table_name); ("fields", fields_value)])
                   (mapping_new st) |}
  end.

(** ** One worksheet (the body of the loop of line 86) *)

Definition header_row (sheet : worksheet) : list cell := hd [] (rows sheet).
Definition data_rows (sheet : worksheet) : list (list cell) := tl (rows sheet).

Definition with_sql (st : state) (sql : string) : state :=
  {| sql_script := sql;
     mapping_original := mapping_original st;
     table_mappings_preserved := table_mappings_preserved st;
     mapping_new := mapping_new st |}.

Definition process_sheet (tables_without_mapping_data : pyvalue)
    (sheet : worksheet) (st : state) : M state :=
  let table_name := title sheet in
  log_table_name ("Extracting table: " ++ table_name) ;;
  ' (fields, final) <- collect_fields (header_row sheet) ;;
  log_field ("Detected " ++ str_of_nat (List.length fields)
             ++ " fields. The final, empty cell's value's type was: "
             ++ type_str final) ;;
  ' (mapping_fields, sql) <- lift (create_table table_name fields (sql_script st)) ;;
  sql <- insert_records table_name fields (data_rows sheet) sql ;;
  build_mapping tables_without_mapping_data table_name mapping_fields
                (with_sql st sql).

Fixpoint process_sheets (tables_without_mapping_data : pyvalue)
    (sheets : list worksheet) (st : state) : M state :=
  match sheets with
  | [] => ret st
  | sheet :: sheets' =>
      st <- process_sheet tables_without_mapping_data sheet st ;;
      process_sheets tables_without_mapping_data sheets' st
  end.

(** ** Warn about unused mapping data (lines 201-204) *)

Definition unused_warning (block_name : string) (entry : pyvalue) : string :=
  "WARNING: Mapping data for block " ++ block_name
  ++ " not found. It will not be included in the SQL file." ++ nl
  ++ "If you deleted the corresponding table, ignore this. If you changed the table's name, you'll have to restore the following mapping data (excluding fields):"
  ++ nl ++ value_str entry ++ nl.

Fixpoint warn_unused (st : state) (block_names : list string) : M unit :=
  match block_names with
  | [] => ret tt
  | block_name :: block_names' =>
      preserved <- match dict_get block_name (table_mappings_preserved st) with
                   | Some b => ret b
                   | None => raise (KeyError block_name)
                   end ;;
      (if negb preserved then
         entry <- match dict_get block_name (mapping_original st) with
                  | Some e => ret e
                  | None => raise (KeyError block_name)
                  end ;;
         log_warning (unused_warning block_name entry)
       else ret tt) ;;
      warn_unused st block_names'
  end.

(** ** The run up to the point where the files are written (lines 64-204) *)

Definition initial_state (mapping : dict pyvalue) : state :=
  {| sql_script := "BEGIN TRANSACTION;" ++ nl;
     mapping_original := mapping;
     table_mappings_preserved := map (fun block_name => (block_name, false))
                                     (dict_keys mapping);
     mapping_new := [] |}.

Definition convert (wb : workbook) : M (string * dict pyvalue) :=
  ' (tables_without_mapping_data, mapping) <- load_mapping wb ;;
  st <- process_sheets tables_without_mapping_data (worksheets wb)
                       (initial_state mapping) ;;
  let sql := sql_script st ++ "COMMIT;" ++ nl in
  warn_unused st (dict_keys (mapping_original st)) ;;
  ret (sql, mapping_new st).

(** ** Save the files, delete the XLSX file, open the SQL file
       (lines 206-223) *)

Variable env : outside.

Definition save (sql : string) (mapping_new : dict pyvalue) : M unit :=
  call env (WriteSQL (OUTPUT_SQL_FILE cfg) sql) ;;
  call env (WriteYAML (OUTPUT_YAML_FILE cfg) mapping_new) ;;
  (if DELETE_XLSX cfg then call env (SendToTrash (INPUT_FILE cfg)) else ret tt) ;;
  if OPEN_FILE cfg then
    if String.eqb (platform_system cfg) "Windows"
    then call env (StartFile (OUTPUT_SQL_FILE cfg))
    else call env (System ("open " ++ OUTPUT_SQL_FILE cfg))
  else ret tt.

(** ** The whole script (lines 64-223) *)

Definition xlsx_to_sql (wb : workbook) : M unit :=
  ' (sql, mapping_new) <- convert wb ;;
  save sql mapping_new.
End Script.

(* ===================================================================== *)
(** * What the script is meant to do, in the words of its specification *)
(* ===================================================================== *)

(** The block of the mapping document that belongs to a table. *)
Definition block_key (table_name : string) : string := "Insert " ++ table_name.

(** The exceptions of lines 131 and 150. *)
Definition multiple_primary_keys (table_name : string) : exn :=
  XLSXParseError ("Table " ++ table_name ++ ": multiple primary key fields detected!").
Definition no_primary_key (table_name : string) : exn :=
  XLSXParseError ("Table " ++ table_name ++ ": no primary key field detected!").

(** A field's [pk] flag: its metadata has a truthy ["pk"]. *)
Definition pk_flag (f : field) : bool :=
  match value_getitem (snd f) "pk" with
  | inr v => truthy_value v
  | inl _ => false
  end.

Definition not_null_flag (f : field) : bool :=
  match value_getitem (snd f) "not_null" with
  | inr v => truthy_value v
  | inl _ => false
  end.

(** A field's metadata has the shape of the data model: an object with
    ["type"], ["not_null"] and ["pk"]. *)
Definition has_metadata (f : field) : bool :=
  match snd f with
  | PDict d => dict_mem "pk" d && dict_mem "type" d && dict_mem "not_null" d
  | _ => false
  end.

(** How many fields carry the flag. *)
Definition pk_count (fields : list field) : nat := List.length (filter pk_flag fields).

(** The first flagged field's name. *)
Definition primary_key_of (fields : list field) : option scalar :=
  option_map fst (find pk_flag fields).

(** The names of the fields that are not flagged, in header order. *)
Definition non_pk_names (fields : list field) : list scalar :=
  map fst (filter (fun f => negb (pk_flag f)) fields).

(** The cells of a header row up to the first falsy one, and that one's value
    ([None] past the end of the row). *)
Fixpoint truthy_prefix (header : list cell) : list cell :=
  match header with
  | [] => []
  | c :: header' => if truthy (value c) then c :: truthy_prefix header' else []
  end.

Fixpoint first_falsy (header : list cell) : scalar :=
  match header with
  | [] => PNone
  | c :: header' => if truthy (value c) then first_falsy header' else value c
  end.

(** The first cell of a worksheet's header row. *)
Definition first_header_cell (sheet : worksheet) : cell :=
  hd empty_cell (header_row sheet).

(** From the primary-key field on, the only field whose name equals ([==])
    the primary key's name is the primary-key field itself. *)
Fixpoint from_pk (fields : list field) : list field :=
  match fields with
  | [] => []
  | f :: fields' => if pk_flag f then fields else from_pk fields'
  end.

Definition pk_name_is_its_own (fields : list field) : bool :=
  match primary_key_of fields with
  | Some p => forallb (fun g => Bool.eqb (py_eq p (fst g)) (pk_flag g)) (from_pk fields)
  | None => true
  end.

(** An absent cell counts as the empty string. *)
Definition absent_as_empty (raw : scalar) : scalar :=
  match raw with PNone => PStr "" | _ => raw end.

(** A cell that is absent or holds the empty string. *)
Definition is_blank (c : cell) : bool :=
  match value c with
  | PNone => true
  | PStr s => String.eqb s ""
  | _ => false
  end.

Section Statements.
Context {py : PyBuiltins}.

(** The declared type as it is written into the statement. *)
Definition type_text (f : field) : string :=
  match value_getitem (snd f) "type" with
  | inr v => value_str v
  | inl _ => ""
  end.

(** One column line: the primary-key field's name bare, any other name
    between double quotes, then the type and the nullability. *)
Definition column_line (f : field) : string :=
  tab ++ (if pk_flag f then py_str (fst f) else dq ++ py_str (fst f) ++ dq)
  ++ " " ++ type_text f
  ++ (if not_null_flag f then " NOT NULL" else "")
  ++ "," ++ nl.

(** The CREATE TABLE statement of a table. *)
Definition table_ddl (table_name : string) (fields : list field) : string :=
  "CREATE TABLE " ++ dq ++ table_name ++ dq ++ " (" ++ nl
  ++ str_concat (map column_line fields)
  ++ "  PRIMARY KEY ("
  ++ match primary_key_of fields with Some p => py_str p | None => "" end
  ++ ")" ++ nl
  ++ ");" ++ nl.

(** The literal of one cell under the field's declared type: a bare
    integer when the type is exactly INTEGER, the text between single
    quotes otherwise; an absent cell counts as the empty string. *)
Definition sql_literal (f : field) (raw : scalar) : result string :=
  let v := absent_as_empty raw in
  target_type <~ value_getitem (snd f) "type" ;;
  if value_eq_str target_type "INTEGER"
  then z <~ py_int v ;; inr (str_of_Z z)
  else inr ("'" ++ py_str v ++ "'").

(** The literals of a row, field by field from the given column. *)
Fixpoint row_literals (fields : list field) (column_index : nat) (row_obj : list cell)
  : result (list string) :=
  match fields with
  | [] => inr []
  | f :: fields' =>
      lit <~ sql_literal f (value (nth column_index row_obj empty_cell)) ;;
      lits <~ row_literals fields' (S column_index) row_obj ;;
      inr (lit :: lits)
  end.

(** The INSERT statement of a row. *)
Definition insert_statement (table_name : string) (literals : list string) : string :=
  "INSERT INTO " ++ dq ++ table_name ++ dq ++ " VALUES("
  ++ str_join "," literals ++ ");" ++ nl.
End Statements.

(** The value of a finite float [(-1)^s * m * 2^e] as a fraction. *)
Definition float_numerator (s : bool) (m : positive) (e : Z) : Z :=
  (if s then Z.neg m else Z.pos m) * 2 ^ Z.max e 0.
Definition float_denominator (e : Z) : Z := 2 ^ Z.max (- e) 0.

(** The characters [int] skips around a number, by code point: tab, line
    feed, vertical tab, form feed, carriage return, space, U+0085, U+00A0. *)
Definition int_white_codes : list nat := [9; 10; 11; 12; 13; 32; 133; 160]%nat.

Fixpoint white_text (s : string) : Prop :=
  match s with
  | EmptyString => True
  | String c s' => In (nat_of_ascii c) int_white_codes /\ white_text s'
  end.

(** The text of a run of digits, and the number it writes in base ten. *)
Fixpoint digit_text (ds : list nat) : string :=
  match ds with
  | [] => EmptyString
  | d :: ds' => String (ascii_of_nat (48 + d)) (digit_text ds')
  end.

Definition decimal_from (acc : Z) (ds : list nat) : Z :=
  fold_left (fun acc d => 10 * acc + Z.of_nat d) ds acc.
Definition decimal (ds : list nat) : Z := decimal_from 0 ds.

(** A group of digits: at least one, each below ten. *)
Definition digit_group (g : list nat) : Prop :=
  g <> [] /\ Forall (fun d => (d < 10)%nat) g.

(** Further groups, each after one underscore. *)
Definition more_groups (more : list (list nat)) : string :=
  str_concat (map (fun h => "_" ++ digit_text h) more).

(** [s] is a number as [int] reads one, of value [z]: white space, an
    optional sign, groups of digits with one underscore between them, white
    space; at most 4300 digits in all. *)
Definition int_literal (s : string) (z : Z) : Prop :=
  exists ws1 negative sign g more ws2,
    s = ws1 ++ sign ++ digit_text g ++ more_groups more ++ ws2 /\
    white_text ws1 /\ white_text ws2 /\
    (sign = "" /\ negative = false \/ sign = "+" /\ negative = false
     \/ sign = "-" /\ negative = true) /\
    Forall digit_group (g :: more) /\
    (List.length (g ++ concat more) <= 4300)%nat /\
    z = (if negative then - decimal (g ++ concat more)
         else decimal (g ++ concat more)).

(** What [int] makes of a cell's value: a [bool] counts as 0 or 1, an [int]
    is itself, a finite [float] loses its fractional part, a [str] is read
    as a number. *)
Inductive int_converts : scalar -> Z -> Prop :=
| converts_bool b : int_converts (PBool b) (if b then 1 else 0)
| converts_int z : int_converts (PInt z) z
| converts_zero x s : Prim2SF x = S754_zero s -> int_converts (PFloat x) 0
| converts_finite x s m e :
    Prim2SF x = S754_finite s m e ->
    int_converts (PFloat x) (Z.quot (float_numerator s m e) (float_denominator e))
| converts_text s z : int_literal s z -> int_converts (PStr s) z.

(** The exception [int] raises on what it cannot convert. *)
Definition int_error (a : scalar) : exn :=
  match a with
  | PNone => TypeError
  | PFloat x =>
      match Prim2SF x with
      | S754_infinity _ => OverflowError
      | _ => ValueError
      end
  | _ => ValueError
  end.

(** Whether an event writes one of the two output files. *)
Definition writes_output (ev : event) : bool :=
  match ev with
  | WriteSQL _ _ | WriteYAML _ _ => true
  | _ => false
  end.

(** The flags of [table_mappings_preserved] are kept for the keys of
    [mapping_original], in the same order. *)
Definition keys_agree (st : state) : Prop :=
  dict_keys (table_mappings_preserved st) = dict_keys (mapping_original st).

(** The [fields] attribute written for a table. *)
Definition fields_value (mapping_fields : list scalar) : pyvalue :=
  PList (map Scalar mapping_fields).

(** The entry made for a table the original document does not know. *)
Definition default_entry (table_name : string) (mapping_fields : list scalar) : pyvalue :=
  PDict [("table", VStr table_name); ("fields", fields_value mapping_fields)].

(** A computation that writes neither output file. *)
Definition writes_nothing {A : Type} (m : M A) : Prop :=
  existsb writes_output (events m) = false.

(* ===================================================================== *)
(** * Sample data *)
(* ===================================================================== *)

Module Sample.

Definition quoted (s : string) : string := dq ++ s ++ dq.

(** The comment of an INTEGER primary-key column, as the companion script
    writes it. *)
Definition id_payload : string :=
  "{" ++ quoted "type" ++ ": " ++ quoted "INTEGER" ++ ", "
  ++ quoted "not_null" ++ ": false, " ++ quoted "pk" ++ ": 1}".
Definition id_metadata : pyvalue :=
  PDict [("type", VStr "INTEGER"); ("not_null", VBool false); ("pk", VInt 1)].

(** The comment of an INTEGER column that is not the primary key. *)
Definition int_payload : string :=
  "{" ++ quoted "type" ++ ": " ++ quoted "INTEGER" ++ ", "
  ++ quoted "not_null" ++ ": false, " ++ quoted "pk" ++ ": 0}".
Definition int_metadata : pyvalue :=
  PDict [("type", VStr "INTEGER"); ("not_null", VBool false); ("pk", VInt 0)].

(** The comment of a NOT NULL text column. *)
Definition name_payload : string :=
  "{" ++ quoted "type" ++ ": " ++ quoted "VARCHAR(255)" ++ ", "
  ++ quoted "not_null" ++ ": true, " ++ quoted "pk" ++ ": 0}".
Definition name_metadata : pyvalue :=
  PDict [("type", VStr "VARCHAR(255)"); ("not_null", VBool true); ("pk", VInt 0)].

(** Descriptions: a mapping document with an entry for Account and one for
    Contact, and the same document as a run writes it back. *)
Definition account_entry : pyvalue :=
  PDict [("sf_object", VStr "Account"); ("table", VStr "Account");
         ("fields", PList [VStr "Old"])].
Definition contact_entry : pyvalue :=
  PDict [("sf_object", VStr "Contact"); ("table", VStr "Contact");
         ("fields", PList [VStr "LastName"])].

Definition original_text : string :=
  "{" ++ quoted "Insert Account" ++ ": {" ++ quoted "sf_object" ++ ": "
  ++ quoted "Account" ++ ", " ++ quoted "table" ++ ": " ++ quoted "Account"
  ++ ", " ++ quoted "fields" ++ ": [" ++ quoted "Old" ++ "]}, "
  ++ quoted "Insert Contact" ++ ": {" ++ quoted "sf_object" ++ ": "
  ++ quoted "Contact" ++ ", " ++ quoted "table" ++ ": " ++ quoted "Contact"
  ++ ", " ++ quoted "fields" ++ ": [" ++ quoted "LastName" ++ "]}, "
  ++ quoted TABLES_KEY ++ ": []}".
Definition original_document : pyvalue :=
  PDict [("Insert Account", account_entry); ("Insert Contact", contact_entry);
         (TABLES_KEY, PList [])].

Definition reconciled_entry : pyvalue :=
  PDict [("sf_object", VStr "Account"); ("table", VStr "Account");
         ("fields", PList [VStr "Name"])].
Definition reconciled_text : string :=
  "{" ++ quoted "Insert Account" ++ ": {" ++ quoted "sf_object" ++ ": "
  ++ quoted "Account" ++ ", " ++ quoted "table" ++ ": " ++ quoted "Account"
  ++ ", " ++ quoted "fields" ++ ": [" ++ quoted "Name" ++ "]}}".
Definition reconciled_document : pyvalue :=
  PDict [("Insert Account", reconciled_entry)].
Definition reconciled_with_list_text : string :=
  "{" ++ quoted "Insert Account" ++ ": {" ++ quoted "sf_object" ++ ": "
  ++ quoted "Account" ++ ", " ++ quoted "table" ++ ": " ++ quoted "Account"
  ++ ", " ++ quoted "fields" ++ ": [" ++ quoted "Name" ++ "]}, "
  ++ quoted TABLES_KEY ++ ": []}".
Definition reconciled_with_list : pyvalue :=
  PDict [("Insert Account", reconciled_entry); (TABLES_KEY, PList [])].

(** The decoder on the texts above; [repr] of a [str] without quotes or
    escapes in it; [repr] of the floats used below. *)
Definition decode (s : string) : option pyvalue :=
  if String.eqb s id_payload then Some id_metadata
  else if String.eqb s int_payload then Some int_metadata
  else if String.eqb s name_payload then Some name_metadata
  else if String.eqb s original_text then Some original_document
  else if String.eqb s reconciled_text then Some reconciled_document
  else if String.eqb s reconciled_with_list_text then Some reconciled_with_list
  else None.

Definition builtins : PyBuiltins :=
  {| json_loads := decode;
     float_repr := fun f => if PrimFloat.eqb f 0x1.d99999999999ap+1%float
                            then "3.7" else "";
     str_repr := fun s => "'" ++ s ++ "'" |}.

(** An outside where every call returns. *)
Definition calm : outside := fun _ => None.

(** The command line with no option given, and with [--suppress-warnings]. *)
Definition defaults : config :=
  {| LOG_TABLE_NAMES := false; LOG_RECORDS := false; LOG_FIELDS := false;
     DISPLAY_WARNINGS := true; OPEN_FILE := false; DELETE_XLSX := true;
     INPUT_FILE := "./generated.xlsx";
     OUTPUT_SQL_FILE := "./datasets/sample.sql";
     OUTPUT_YAML_FILE := "./datasets/mapping.yml";
     platform_system := "Linux" |}.

Definition quiet : config :=
  {| LOG_TABLE_NAMES := false; LOG_RECORDS := false; LOG_FIELDS := false;
     DISPLAY_WARNINGS := false; OPEN_FILE := false; DELETE_XLSX := true;
     INPUT_FILE := "./generated.xlsx";
     OUTPUT_SQL_FILE := "./datasets/sample.sql";
     OUTPUT_YAML_FILE := "./datasets/mapping.yml";
     platform_system := "Linux" |}.

Definition plain (v : scalar) : cell := {| value := v; comment := None |}.
Definition noted (v : scalar) (payload : string) : cell :=
  {| value := v; comment := Some (COMMENT_PREFIX ++ payload) |}.

(** The Account worksheet: Id (pk, INTEGER), Name (VARCHAR(255)); one
    record. *)
Definition account : worksheet :=
  {| title := "Account";
     rows := [ [noted (PStr "Id") id_payload; plain (PStr "Name")];
               [plain (PInt 1); plain (PStr "Acme")] ] |}.

Definition account_fields : list field :=
  [(PStr "Id", id_metadata); (PStr "Name", DEFAULT_METADATA)].

Definition account_workbook : workbook :=
  {| description := Some original_text; worksheets := [account] |}.

(** The mapping the first run loads from [original_text], and the document
    it produces. *)
Definition original_mapping : dict pyvalue :=
  [("Insert Account", account_entry); ("Insert Contact", contact_entry)].
Definition reconciled_mapping : dict pyvalue :=
  [("Insert Account", reconciled_entry)].

(** The same worksheets with the document of the first run as description,
    as written and with the list of tables put back. *)
Definition account_again : workbook :=
  {| description := Some reconciled_text; worksheets := [account] |}.
Definition account_again_with_list : workbook :=
  {| description := Some reconciled_with_list_text; worksheets := [account] |}.

(** A worksheet with no header, one with two flagged fields, one with a
    second column named like its primary key. *)
Definition headless : worksheet :=
  {| title := "Empty"; rows := [ [plain PNone; plain (PStr "Name")] ] |}.

Definition account_then_headless : workbook :=
  {| description := Some original_text; worksheets := [account; headless] |}.

Definition two_keys : worksheet :=
  {| title := "Pair";
     rows := [ [noted (PStr "Id") id_payload; noted (PStr "Other") id_payload;
                plain (PStr "Name")] ] |}.

Definition two_keys_fields : list field :=
  [(PStr "Id", id_metadata); (PStr "Other", id_metadata);
   (PStr "Name", DEFAULT_METADATA)].

Definition no_key : worksheet :=
  {| title := "Loose"; rows := [ [plain (PStr "Name")] ] |}.
Definition no_key_fields : list field := [(PStr "Name", DEFAULT_METADATA)].

Definition twice_id : worksheet :=
  {| title := "Account";
     rows := [ [noted (PStr "Id") id_payload; plain (PStr "Id")] ] |}.
Definition twice_id_fields : list field :=
  [(PStr "Id", id_metadata); (PStr "Id", DEFAULT_METADATA)].
Definition twice_id_workbook : workbook :=
  {| description := Some original_text; worksheets := [twice_id] |}.

(** The same two columns the other way round. *)
Definition id_twice : worksheet :=
  {| title := "Account";
     rows := [ [plain (PStr "Id"); noted (PStr "Id") id_payload] ] |}.
Definition id_twice_fields : list field :=
  [(PStr "Id", DEFAULT_METADATA); (PStr "Id", id_metadata)].
Definition id_twice_workbook : workbook :=
  {| description := Some original_text; worksheets := [id_twice] |}.

(** A table of two INTEGER columns, and data rows: one whose second cell is
    absent, one whose cells lie outside the table's columns, an absent one. *)
Definition ages_fields : list field :=
  [(PStr "Id", id_metadata); (PStr "Age", int_metadata)].
Definition ages_row : list cell := [plain (PInt 1); plain PNone].

Definition names_fields : list field :=
  [(PStr "Id", id_metadata); (PStr "Name", name_metadata)].
Definition names_row : list cell := [plain (PInt 7); plain PNone].
Definition stray_row : list cell := [plain PNone; plain PNone; plain (PStr "x")].

(** A table whose two columns are text. *)
Definition code_metadata : pyvalue :=
  PDict [("type", VStr "VARCHAR(18)"); ("not_null", VBool true); ("pk", VInt 1)].
Definition text_fields : list field :=
  [(PStr "Code", code_metadata); (PStr "Name", DEFAULT_METADATA)].
Definition blank_row : list cell := [plain PNone; plain (PStr ""); plain PNone].

(** No table listed as lacking mapping data; the loop's state before the
    first worksheet when the original document has no entry. *)
Definition no_tables : pyvalue := PList [].
Definition start : state := initial_state [].

End Sample.

(* ===================================================================== *)
(** * Further statements *)
(* ===================================================================== *)

(** The exception of line 72. *)
Definition missing_tables_list : exn :=
  XLSXParseError
    "Mapping data does not contain list of tables without mapping data (this list must be present even if empty)".

(** The exception of line 107. *)
Definition comment_verification_failed (comment_text : string) : exn :=
  XLSXParseError ("Comment verification failed: '" ++ comment_text ++ "'").

(** An event that is a line on standard output. *)
Definition is_print (ev : event) : bool :=
  match ev with
  | Print _ => true
  | _ => false
  end.

(** No logging option given, and warnings suppressed. *)
Definition all_quiet (cfg : config) : bool :=
  negb (LOG_TABLE_NAMES cfg) && negb (LOG_RECORDS cfg)
  && negb (LOG_FIELDS cfg) && negb (DISPLAY_WARNINGS cfg).

(** A row the insert loop keeps: one of its cells is truthy. *)
Definition retained (row_obj : list cell) : bool :=
  existsb (fun c => truthy (value c)) row_obj.

(** A header cell without a comment, as a column typed in by hand has it. *)
Definition uncommented (c : cell) : bool :=
  match comment c with
  | None => true
  | Some _ => false
  end.

(** A row of empty cells, to lengthen a short row. *)
Definition padding (n : nat) : list cell := repeat empty_cell n.


Section FurtherStatements.
Context {py : PyBuiltins}.
Variable cfg : config.

(** The literals of the rows, row by row. *)
Fixpoint rows_literals (fields : list field) (data : list (list cell))
  : result (list (list string)) :=
  match data with
  | [] => inr []
  | row_obj :: data' =>
      literals <~ row_literals fields 0 row_obj ;;
      rest <~ rows_literals fields data' ;;
      inr (literals :: rest)
  end.

(** What a worksheet on its own adds to a script: its CREATE TABLE
    statement and its INSERT statements. *)
Definition sheet_script (sheet : worksheet) : result string :=
  ' (fields, _) <~ outcome (collect_fields cfg (header_row sheet)) ;;
  ' (_, ddl) <~ create_table (title sheet) fields "" ;;
  outcome (insert_records cfg (title sheet) fields (data_rows sheet) ddl).

(** What the worksheets add to a script, in their order. *)
Fixpoint sheets_script (sheets : list worksheet) : result string :=
  match sheets with
  | [] => inr ""
  | sheet :: sheets' =>
      s <~ sheet_script sheet ;;
      rest <~ sheets_script sheets' ;;
      inr (s ++ rest)
  end.

(** The warning of line 112. *)
Definition no_comment_warning (field_name : scalar) : string :=
  "WARNING: No comment found for field " ++ py_str field_name
  ++ ". Using default type: VARCHAR(255), not primary key.".

(** The warning of line 195. *)
Definition default_data_warning (table_name : string) : string :=
  "WARNING: Mapping data for table " ++ table_name
  ++ " not found. Adding default data.".

(** The calls of the saving steps of lines 206-223, in their order. *)
Definition saving_events (sql : string) (document : dict pyvalue) : list event :=
  WriteSQL (OUTPUT_SQL_FILE cfg) sql
  :: WriteYAML (OUTPUT_YAML_FILE cfg) document
  :: app (if DELETE_XLSX cfg then [SendToTrash (INPUT_FILE cfg)] else [])
         (if OPEN_FILE cfg then
            if String.eqb (platform_system cfg) "Windows"
            then [StartFile (OUTPUT_SQL_FILE cfg)]
            else [System ("open " ++ OUTPUT_SQL_FILE cfg)]
          else []).
End FurtherStatements.

(** Of calls to make in order, those made: up to the first that raises, that
    one included; and the exception that ends them, if one does. *)
Fixpoint until_raise (env : outside) (calls : list event) : list event :=
  match calls with
  | [] => []
  | ev :: calls' =>
      ev :: match env ev with
            | Some _ => []
            | None => until_raise env calls'
            end
  end.

Fixpoint first_raise (env : outside) (calls : list event) : option exn :=
  match calls with
  | [] => None
  | ev :: calls' =>
      match env ev with
      | Some e => Some e
      | None => first_raise env calls'
      end
  end.



Module Cases.

(** A description that is an object without the list of tables, and one
    whose list is null. *)
Definition bare_text : string :=
  "{" ++ Sample.quoted "Insert Account" ++ ": {" ++ Sample.quoted "table" ++ ": "
  ++ Sample.quoted "Account" ++ "}}".
Definition bare_document : dict pyvalue :=
  [("Insert Account", PDict [("table", VStr "Account")])].

Definition listing_text : string :=
  "{" ++ Sample.quoted TABLES_KEY ++ ": [" ++ Sample.quoted "Account" ++ "]}".
Definition listing_document : dict pyvalue :=
  [(TABLES_KEY, PList [VStr "Account"])].

Definition empty_list_text : string := "{" ++ Sample.quoted TABLES_KEY ++ ": []}".
Definition empty_list_document : dict pyvalue := [(TABLES_KEY, PList [])].

Definition decode (s : string) : option pyvalue :=
  if String.eqb s bare_text then Some (PDict bare_document)
  else if String.eqb s listing_text then Some (PDict listing_document)
  else if String.eqb s empty_list_text then Some (PDict empty_list_document)
  else Sample.decode s.

Definition builtins : PyBuiltins :=
  {| json_loads := decode;
     float_repr := fun _ => "";
     str_repr := fun s => "'" ++ s ++ "'" |}.

Definition bare_workbook : workbook :=
  {| description := Some bare_text; worksheets := [Sample.account] |}.

(** Account, with Account listed as a table without mapping data, and with
    nothing listed. *)
Definition listed_workbook : workbook :=
  {| description := Some listing_text; worksheets := [Sample.account] |}.
Definition unlisted_workbook : workbook :=
  {| description := Some empty_list_text; worksheets := [Sample.account] |}.

(** A comment that was edited by hand. *)
Definition edited_cell : cell :=
  {| value := PStr "Id"; comment := Some "pk, INTEGER" |}.

(** An outside where the mapping file cannot be written. *)
Definition no_mapping_file : outside :=
  fun ev =>
    match ev with
    | WriteYAML _ _ => Some (Other "PermissionError")
    | _ => None
    end.

(** A workbook with a worksheet typed in by hand. *)
Definition loose_workbook : workbook :=
  {| description := Some Sample.original_text;
     worksheets := [Sample.account; Sample.no_key] |}.

(** The document of the run over [unlisted_workbook]. *)
Definition default_document : dict pyvalue :=
  [("Insert Account", default_entry "Account" [PStr "Name"])].

End Cases.

(* ===================================================================== *)
(** * Properties *)
(* ===================================================================== *)
Section Basics.
Context {py : PyBuiltins}.
Variable cfg : config.

(** ** Text *)

Lemma append_assoc (a b c : string) : (a ++ b) ++ c = a ++ (b ++ c).
Proof. induction a as [|ch a IH]; simpl; [reflexivity | now rewrite IH]. Qed.

Lemma append_empty_r (a : string) : a ++ "" = a.
Proof. induction a as [|ch a IH]; simpl; [reflexivity | now rewrite IH]. Qed.

Lemma append_inv_l (a b c : string) : a ++ b = a ++ c -> b = c.
Proof. induction a as [|ch a IH]; simpl; intros H; [assumption | injection H; auto]. Qed.

(** ** The monad *)

Lemma outcome_bind {A B} (m : M A) (k : A -> M B) :
  outcome (bind m k) =
  match outcome m with inl e => inl e | inr a => outcome (k a) end.
Proof.
  destruct m as [evs [e|a]]; simpl; [reflexivity|].
  destruct (k a) as [evs' r]; reflexivity.
Qed.

Lemma events_bind {A B} (m : M A) (k : A -> M B) :
  events (bind m k) =
  match outcome m with
  | inl _ => events m
  | inr a => app (events m) (events (k a))
  end.
Proof.
  destruct m as [evs [e|a]]; simpl; [reflexivity|].
  destruct (k a) as [evs' r]; reflexivity.
Qed.

Lemma outcome_lift {A} (r : result A) : outcome (lift r) = r.
Proof. reflexivity. Qed.

Lemma outcome_log_table_name s : outcome (log_table_name cfg s) = inr tt.
Proof. unfold log_table_name; destruct (LOG_TABLE_NAMES cfg); reflexivity. Qed.
Lemma outcome_log_record s : outcome (log_record cfg s) = inr tt.
Proof. unfold log_record; destruct (LOG_RECORDS cfg); reflexivity. Qed.
Lemma outcome_log_field s : outcome (log_field cfg s) = inr tt.
Proof. unfold log_field; destruct (LOG_FIELDS cfg); reflexivity. Qed.
Lemma outcome_log_warning s : outcome (log_warning cfg s) = inr tt.
Proof. unfold log_warning; destruct (DISPLAY_WARNINGS cfg); reflexivity. Qed.

End Basics.

(* --------------------------------------------------------------------- *)
(** ** Creating the table: the primary key *)
(* --------------------------------------------------------------------- *)

Section PrimaryKey.
Context {py : PyBuiltins}.
Variable cfg : config.

Lemma has_metadata_items (f : field) :
  has_metadata f = true ->
  exists pk type not_null,
    value_getitem (snd f) "pk" = inr pk /\
    value_getitem (snd f) "type" = inr type /\
    value_getitem (snd f) "not_null" = inr not_null.
Proof.
  destruct f as [name md]; unfold has_metadata; simpl.
  destruct md as [a|l|d]; try discriminate.
  unfold dict_mem; simpl.
  destruct (dict_get "pk" d) as [pk|]; [|discriminate].
  destruct (dict_get "type" d) as [ty|]; [|discriminate].
  destruct (dict_get "not_null" d) as [nn|]; [|discriminate].
  intros _. now exists pk, ty, nn.
Qed.

(** A flagged field met after the primary key is known raises at once,
    whatever else its metadata holds. *)
Lemma add_field_second_key t f p mf sql :
  pk_flag f = true ->
  add_field t f (Some p, mf, sql) = inl (multiple_primary_keys t).
Proof.
  destruct f as [name md]; unfold pk_flag, add_field; simpl.
  destruct (value_getitem md "pk") as [e|v]; [discriminate|].
  simpl. intros ->. reflexivity.
Qed.

Lemma add_field_first_key t f mf sql :
  has_metadata f = true -> pk_flag f = true ->
  exists mf' sql', add_field t f (None, mf, sql) = inr (Some (fst f), mf', sql').
Proof.
  intros Hm Hp. destruct (has_metadata_items f Hm) as (pk & ty & nn & H1 & H2 & H3).
  destruct f as [name md]; unfold pk_flag, add_field in *; simpl in *.
  rewrite H1 in *; simpl. rewrite Hp, H2; simpl. rewrite H3; simpl.
  eauto.
Qed.

Lemma add_field_unflagged t f p mf sql :
  has_metadata f = true -> pk_flag f = false ->
  exists mf' sql', add_field t f (p, mf, sql) = inr (p, mf', sql').
Proof.
  intros Hm Hp. destruct (has_metadata_items f Hm) as (pk & ty & nn & H1 & H2 & H3).
  destruct f as [name md]; unfold pk_flag, add_field in *; simpl in *.
  rewrite H1 in *; simpl. rewrite Hp, H2; simpl. rewrite H3; simpl.
  eauto.
Qed.

Lemma add_fields_cons t f fields acc :
  add_fields t (f :: fields) acc =
  rbind (add_field t f acc) (add_fields t fields).
Proof. reflexivity. Qed.

Lemma add_fields_app t pre post acc :
  add_fields t (pre ++ post)%list acc =
  rbind (add_fields t pre acc) (add_fields t post).
Proof.
  revert acc; induction pre as [|f pre IH]; intros acc; simpl; [reflexivity|].
  destruct (add_field t f acc) as [e|acc']; simpl; [reflexivity | apply IH].
Qed.

Lemma pk_count_cons f fields :
  pk_count (f :: fields) = ((if pk_flag f then 1 else 0) + pk_count fields)%nat.
Proof. unfold pk_count; simpl; destruct (pk_flag f); reflexivity. Qed.

(** Without a flagged field the primary key stays what it was. *)
Lemma add_fields_no_key t fields p mf sql :
  forallb has_metadata fields = true -> pk_count fields = 0%nat ->
  exists mf' sql', add_fields t fields (p, mf, sql) = inr (p, mf', sql').
Proof.
  revert mf sql; induction fields as [|f fields IH]; intros mf sql Hm Hc.
  - simpl; eauto.
  - simpl in Hm; apply andb_prop in Hm as [Hf Hm].
    rewrite pk_count_cons in Hc.
    destruct (pk_flag f) eqn:Hp; [discriminate|]. simpl in Hc.
    destruct (add_field_unflagged t f p mf sql Hf Hp) as (mf1 & sql1 & E).
    rewrite add_fields_cons, E; simpl. apply IH; assumption.
Qed.

(** With one flagged field the primary key is found. *)
Lemma add_fields_one_key t fields mf sql :
  forallb has_metadata fields = true -> pk_count fields = 1%nat ->
  exists p mf' sql', add_fields t fields (None, mf, sql) = inr (Some p, mf', sql').
Proof.
  revert mf sql; induction fields as [|f fields IH]; intros mf sql Hm Hc.
  - discriminate.
  - simpl in Hm; apply andb_prop in Hm as [Hf Hm].
    rewrite pk_count_cons in Hc.
    destruct (pk_flag f) eqn:Hp; simpl in Hc.
    + destruct (add_field_first_key t f mf sql Hf Hp) as (mf1 & sql1 & E).
      rewrite add_fields_cons, E; simpl.
      destruct (add_fields_no_key t fields (Some (fst f)) mf1 sql1 Hm)
        as (mf2 & sql2 & E2); [lia|]. eauto.
    + destruct (add_field_unflagged t f None mf sql Hf Hp) as (mf1 & sql1 & E).
      rewrite add_fields_cons, E; simpl. apply IH; assumption.
Qed.

(** What a successful field loop tells about the flags. *)
Lemma add_field_inv t f p mf sql p' mf' sql' :
  add_field t f (p, mf, sql) = inr (p', mf', sql') ->
  (pk_flag f = false /\ p' = p) \/
  (pk_flag f = true /\ p = None /\ p' = Some (fst f)).
Proof.
  destruct f as [name md]; unfold pk_flag, add_field; simpl.
  destruct (value_getitem md "pk") as [e|v]; simpl; [discriminate|].
  destruct (truthy_value v); simpl.
  - destruct p; simpl; [discriminate|].
    destruct (value_getitem md "type"); simpl; [discriminate|].
    destruct (value_getitem md "not_null"); simpl; [discriminate|].
    intros H; injection H as <- _ _. right; auto.
  - destruct (value_getitem md "type"); simpl; [discriminate|].
    destruct (value_getitem md "not_null"); simpl; [discriminate|].
    intros H; injection H as <- _ _. left; auto.
Qed.

Lemma add_fields_inv t fields p mf sql p' mf' sql' :
  add_fields t fields (p, mf, sql) = inr (p', mf', sql') ->
  (pk_count fields = 0%nat /\ p' = p) \/
  (pk_count fields = 1%nat /\ p = None /\ p' = primary_key_of fields).
Proof.
  revert p mf sql; induction fields as [|f fields IH]; intros p mf sql H.
  - simpl in H; injection H as <- _ _. left; auto.
  - rewrite add_fields_cons in H.
    destruct (add_field t f (p, mf, sql)) as [e|[[p1 mf1] sql1]] eqn:E;
      simpl in H; [discriminate|].
    rewrite pk_count_cons. unfold primary_key_of; simpl.
    apply add_field_inv in E. apply IH in H.
    destruct E as [[Hf ->]|(Hf & -> & ->)]; rewrite Hf; simpl.
    + destruct H as [[Hc ->]|(Hc & -> & ->)]; [left | right]; auto.
    + destruct H as [[Hc ->]|(Hc & Hn & _)]; [right; auto | discriminate].
Qed.

Lemma create_table_inv t fields sql mf sql' :
  create_table t fields sql = inr (mf, sql') ->
  pk_count fields = 1%nat.
Proof.
  unfold create_table.
  destruct (add_fields _ _ _) as [e|[[p1 mf1] sql1]] eqn:E; simpl; [discriminate|].
  destruct p1 as [p1|]; simpl; [|discriminate]. intros _.
  apply add_fields_inv in E. destruct E as [[_ E]|[E _]]; [discriminate | exact E].
Qed.

Lemma create_table_no_key t fields sql :
  forallb has_metadata fields = true -> pk_count fields = 0%nat ->
  create_table t fields sql = inl (no_primary_key t).
Proof.
  intros Hm Hc. unfold create_table.
  destruct (add_fields_no_key t fields None []
              (sql ++ "CREATE TABLE " ++ dq ++ t ++ dq ++ " (" ++ nl) Hm Hc)
    as (mf & sql1 & E).
  rewrite E; reflexivity.
Qed.

Lemma create_table_second_key t pre f post sql :
  forallb has_metadata pre = true -> pk_count pre = 1%nat -> pk_flag f = true ->
  create_table t (pre ++ f :: post) sql = inl (multiple_primary_keys t).
Proof.
  intros Hm Hc Hf. unfold create_table.
  destruct (add_fields_one_key t pre []
              (sql ++ "CREATE TABLE " ++ dq ++ t ++ dq ++ " (" ++ nl) Hm Hc)
    as (p & mf & sql1 & E).
  rewrite add_fields_app, E. cbn [rbind].
  rewrite add_fields_cons, add_field_second_key by assumption. reflexivity.
Qed.

(** The outcome of a worksheet once its header has been read. *)
Lemma process_sheet_outcome twm sheet st fields final :
  outcome (collect_fields cfg (header_row sheet)) = inr (fields, final) ->
  outcome (process_sheet cfg twm sheet st) =
  match create_table (title sheet) fields (sql_script st) with
  | inl e => inl e
  | inr (mapping_fields, sql) =>
      match outcome (insert_records cfg (title sheet) fields (data_rows sheet) sql) with
      | inl e => inl e
      | inr sql' =>
          outcome (build_mapping cfg twm (title sheet) mapping_fields (with_sql st sql'))
      end
  end.
Proof.
  intros H. unfold process_sheet.
  rewrite outcome_bind, outcome_log_table_name, outcome_bind, H.
  rewrite outcome_bind, outcome_log_field, outcome_bind, outcome_lift.
  destruct (create_table _ _ _) as [e|[mf sql]]; [reflexivity|].
  rewrite outcome_bind. reflexivity.
Qed.
End PrimaryKey.

(* --------------------------------------------------------------------- *)
(** ** Reading the header *)
(* --------------------------------------------------------------------- *)

Section Header.
Context {py : PyBuiltins}.
Variable cfg : config.

Lemma collect_fields_cons c header :
  collect_fields cfg (c :: header) =
  if truthy (value c) then
    metadata <- extract_metadata cfg c ;;
    log_field cfg ("Detected field: " ++ py_str (value c)
                   ++ " with metadata " ++ value_str metadata) ;;
    ' (fields, final) <- collect_fields cfg header ;;
    ret ((value c, metadata) :: fields, final)
  else ret ([], value c).
Proof. reflexivity. Qed.

(** The names collected are the values of the cells before the first falsy
    one, and the scan stops at that one. *)
Lemma collect_fields_names header fields final :
  outcome (collect_fields cfg header) = inr (fields, final) ->
  map fst fields = map value (truthy_prefix header) /\ final = first_falsy header.
Proof.
  revert fields final; induction header as [|c header IH]; intros fields final H.
  - simpl in H. injection H as <- <-. split; reflexivity.
  - rewrite collect_fields_cons in H. simpl.
    destruct (truthy (value c)) eqn:T.
    + rewrite outcome_bind in H.
      destruct (outcome (extract_metadata cfg c)) as [e|md]; [discriminate|].
      rewrite outcome_bind, outcome_log_field, outcome_bind in H.
      destruct (outcome (collect_fields cfg header)) as [e|[fs fin]]; [discriminate|].
      simpl in H. injection H as <- <-.
      destruct (IH fs fin eq_refl) as [E1 E2]. simpl. rewrite E1.
      split; [reflexivity | exact E2].
    + simpl in H. injection H as <- <-. split; reflexivity.
Qed.

Lemma collect_fields_headless sheet :
  truthy (value (first_header_cell sheet)) = false ->
  collect_fields cfg (header_row sheet) = ret ([], value (first_header_cell sheet)).
Proof.
  unfold first_header_cell. destruct (header_row sheet) as [|c header]; simpl.
  - reflexivity.
  - intros ->. reflexivity.
Qed.

Lemma collect_fields_first sheet f fields final :
  outcome (collect_fields cfg (header_row sheet)) = inr (f :: fields, final) ->
  truthy (value (first_header_cell sheet)) = true.
Proof.
  unfold first_header_cell. destruct (header_row sheet) as [|c header]; simpl.
  - discriminate.
  - destruct (truthy (value c)); [reflexivity | discriminate].
Qed.
End Header.

(* --------------------------------------------------------------------- *)
(** ** What a successful run went through *)
(* --------------------------------------------------------------------- *)

Section Inversion.
Context {py : PyBuiltins}.
Variable cfg : config.

Lemma process_sheet_ok twm sheet st st' :
  outcome (process_sheet cfg twm sheet st) = inr st' ->
  exists fields final mapping_fields sql sql',
    outcome (collect_fields cfg (header_row sheet)) = inr (fields, final) /\
    create_table (title sheet) fields (sql_script st) = inr (mapping_fields, sql) /\
    outcome (insert_records cfg (title sheet) fields (data_rows sheet) sql) = inr sql' /\
    outcome (build_mapping cfg twm (title sheet) mapping_fields (with_sql st sql'))
    = inr st'.
Proof.
  intros H.
  destruct (outcome (collect_fields cfg (header_row sheet))) as [e|[fields final]] eqn:C.
  - unfold process_sheet in H.
    rewrite outcome_bind, outcome_log_table_name, outcome_bind, C in H. discriminate.
  - rewrite (process_sheet_outcome cfg twm sheet st fields final C) in H.
    destruct (create_table _ _ _) as [e|[mf sql]] eqn:T; [discriminate|].
    destruct (outcome (insert_records _ _ _ _ _)) as [e|sql'] eqn:I; [discriminate|].
    exists fields, final, mf, sql, sql'. auto.
Qed.

Lemma process_sheets_cons twm sheet sheets st :
  process_sheets cfg twm (sheet :: sheets) st =
  bind (process_sheet cfg twm sheet st) (process_sheets cfg twm sheets).
Proof. reflexivity. Qed.

Lemma process_sheets_ok_cons twm sheet sheets st st' :
  outcome (process_sheets cfg twm (sheet :: sheets) st) = inr st' ->
  exists st1, outcome (process_sheet cfg twm sheet st) = inr st1 /\
              outcome (process_sheets cfg twm sheets st1) = inr st'.
Proof.
  rewrite process_sheets_cons, outcome_bind.
  destruct (outcome (process_sheet cfg twm sheet st)) as [e|st1]; [discriminate|].
  intros H; exists st1; auto.
Qed.

(** Every worksheet of a successful loop was processed successfully. *)
Lemma process_sheets_each twm sheets st st' :
  outcome (process_sheets cfg twm sheets st) = inr st' ->
  Forall (fun sheet => exists st1 st2,
            outcome (process_sheet cfg twm sheet st1) = inr st2) sheets.
Proof.
  revert st; induction sheets as [|sheet sheets IH]; intros st H.
  - constructor.
  - apply process_sheets_ok_cons in H as (st1 & H1 & H2).
    constructor; [eauto | eapply IH; eauto].
Qed.

Lemma process_sheets_app_outcome twm before after st :
  outcome (process_sheets cfg twm (before ++ after)%list st) =
  match outcome (process_sheets cfg twm before st) with
  | inl e => inl e
  | inr st1 => outcome (process_sheets cfg twm after st1)
  end.
Proof.
  revert st; induction before as [|sheet before IH]; intros st; [reflexivity|].
  simpl app. rewrite !process_sheets_cons, !outcome_bind.
  destruct (outcome (process_sheet cfg twm sheet st)) as [e|st1]; [reflexivity|].
  apply IH.
Qed.

(** An exception in the worksheet loop ends the run. *)
Lemma convert_fails wb twm mapping e :
  outcome (load_mapping wb) = inr (twm, mapping) ->
  outcome (process_sheets cfg twm (worksheets wb) (initial_state mapping)) = inl e ->
  outcome (convert cfg wb) = inl e.
Proof.
  intros L P. unfold convert. now rewrite outcome_bind, L, outcome_bind, P.
Qed.

Lemma convert_ok wb sql document :
  outcome (convert cfg wb) = inr (sql, document) ->
  exists twm mapping st,
    outcome (load_mapping wb) = inr (twm, mapping) /\
    outcome (process_sheets cfg twm (worksheets wb) (initial_state mapping)) = inr st /\
    outcome (warn_unused cfg st (dict_keys (mapping_original st))) = inr tt /\
    sql = sql_script st ++ "COMMIT;" ++ nl /\
    document = mapping_new st.
Proof.
  unfold convert. rewrite outcome_bind.
  destruct (outcome (load_mapping wb)) as [e|[twm mapping]] eqn:L; [discriminate|].
  rewrite outcome_bind.
  destruct (outcome (process_sheets _ _ _ _)) as [e|st] eqn:P; [discriminate|].
  rewrite outcome_bind.
  destruct (outcome (warn_unused _ _ _)) as [e|[]] eqn:W; [discriminate|].
  simpl. intros H; injection H as <- <-.
  exists twm, mapping, st. repeat split; assumption || reflexivity.
Qed.
End Inversion.

(* --------------------------------------------------------------------- *)
(** ** The primary key of a table *)
(* --------------------------------------------------------------------- *)

Section PrimaryKeyClaims.
Context {py : PyBuiltins}.
Variable cfg : config.

(** C1.  Once the header of a worksheet has been read, with metadata of the
    shape of the data model: when no field is flagged [pk], processing the
    worksheet ends with the XLSXParseError "no primary key field detected";
    when a second flagged field follows a first, it ends with the
    XLSXParseError "multiple primary key fields detected", raised at that
    second field, whatever that field's other metadata and whatever fields
    come after it; and a worksheet that is processed to the end has exactly
    one flagged field. *)
Theorem primary_key_validation twm sheet st fields final :
  outcome (collect_fields cfg (header_row sheet)) = inr (fields, final) ->
  (forallb has_metadata fields = true -> pk_count fields = 0%nat ->
   outcome (process_sheet cfg twm sheet st) = inl (no_primary_key (title sheet)))
  /\
  (forall pre f post,
      fields = (pre ++ f :: post)%list ->
      forallb has_metadata pre = true -> pk_count pre = 1%nat -> pk_flag f = true ->
      outcome (process_sheet cfg twm sheet st)
      = inl (multiple_primary_keys (title sheet)))
  /\
  (forall st', outcome (process_sheet cfg twm sheet st) = inr st' ->
               pk_count fields = 1%nat).
Proof.
  intros H. rewrite (process_sheet_outcome cfg twm sheet st fields final H).
  split; [|split].
  - intros Hm Hc. now rewrite create_table_no_key.
  - intros pre f post -> Hm Hc Hf. now rewrite create_table_second_key.
  - intros st'. destruct (create_table _ _ _) as [e|[mf sql]] eqn:T; [discriminate|].
    intros _. eapply create_table_inv; eassumption.
Qed.

(** C10.  A worksheet whose first header cell is falsy yields no field, and
    processing it ends with the XLSXParseError "no primary key field
    detected"; so does the run, once the worksheets before it have been
    processed; hence every worksheet of a successful run has a first field;
    and the names collected from a header are the values of its cells up to
    the first falsy one. *)
Theorem header_ends_at_first_falsy_cell :
  (forall twm sheet st,
      truthy (value (first_header_cell sheet)) = false ->
      collect_fields cfg (header_row sheet)
      = ret ([], value (first_header_cell sheet)) /\
      outcome (process_sheet cfg twm sheet st) = inl (no_primary_key (title sheet)))
  /\
  (forall wb twm mapping before sheet after st,
      outcome (load_mapping wb) = inr (twm, mapping) ->
      worksheets wb = (before ++ sheet :: after)%list ->
      outcome (process_sheets cfg twm before (initial_state mapping)) = inr st ->
      truthy (value (first_header_cell sheet)) = false ->
      outcome (convert cfg wb) = inl (no_primary_key (title sheet)))
  /\
  (forall wb r,
      outcome (convert cfg wb) = inr r ->
      Forall (fun sheet =>
                truthy (value (first_header_cell sheet)) = true /\
                exists f fields final,
                  outcome (collect_fields cfg (header_row sheet))
                  = inr (f :: fields, final))
             (worksheets wb))
  /\
  (forall header fields final,
      outcome (collect_fields cfg header) = inr (fields, final) ->
      map fst fields = map value (truthy_prefix header) /\
      final = first_falsy header).
Proof.
  assert (A : forall twm sheet st,
             truthy (value (first_header_cell sheet)) = false ->
             collect_fields cfg (header_row sheet)
             = ret ([], value (first_header_cell sheet)) /\
             outcome (process_sheet cfg twm sheet st)
             = inl (no_primary_key (title sheet))).
  { intros twm sheet st T. pose proof (collect_fields_headless cfg sheet T) as C.
    split; [exact C|].
    rewrite (process_sheet_outcome cfg twm sheet st [] (value (first_header_cell sheet)))
      by (rewrite C; reflexivity).
    reflexivity. }
  split; [exact A|]. split; [|split].
  - intros wb twm mapping before sheet after st L W P T.
    apply (convert_fails cfg wb twm mapping _ L).
    rewrite W, process_sheets_app_outcome, P, process_sheets_cons, outcome_bind.
    now rewrite (proj2 (A twm sheet st T)).
  - intros wb [sql document] H.
    apply convert_ok in H as (twm & mapping & st & _ & P & _).
    apply process_sheets_each in P.
    eapply Forall_impl; [|exact P]. intros sheet (st1 & st2 & S).
    apply process_sheet_ok in S as (fields & final & mf & sql1 & sql2 & C & T & _).
    destruct fields as [|f fields].
    + discriminate T.
    + split; [eapply collect_fields_first; eassumption | eauto].
  - apply collect_fields_names.
Qed.
End PrimaryKeyClaims.

Lemma primary_key_validation_witness :
  outcome (process_sheet (py := Sample.builtins) Sample.defaults Sample.no_tables
             Sample.no_key Sample.start) = inl (no_primary_key "Loose")
  /\ outcome (process_sheet (py := Sample.builtins) Sample.defaults Sample.no_tables
                Sample.two_keys Sample.start) = inl (multiple_primary_keys "Pair")
  /\ pk_count Sample.account_fields = 1%nat.
Proof.
  split; [|split].
  - apply (proj1 (primary_key_validation (py := Sample.builtins) Sample.defaults
                    Sample.no_tables Sample.no_key Sample.start
                    Sample.no_key_fields PNone eq_refl));
      reflexivity.
  - apply (proj1 (proj2 (primary_key_validation (py := Sample.builtins) Sample.defaults
                    Sample.no_tables Sample.two_keys Sample.start
                    Sample.two_keys_fields PNone eq_refl))
             [(PStr "Id", Sample.id_metadata)] (PStr "Other", Sample.id_metadata)
             [(PStr "Name", DEFAULT_METADATA)]);
      reflexivity.
  - eapply (proj2 (proj2 (primary_key_validation (py := Sample.builtins) Sample.defaults
                    Sample.no_tables Sample.account Sample.start
                    Sample.account_fields PNone eq_refl))).
    vm_compute. reflexivity.
Defined.

Lemma header_ends_at_first_falsy_cell_witness :
  outcome (process_sheet (py := Sample.builtins) Sample.defaults Sample.no_tables
             Sample.headless Sample.start) = inl (no_primary_key "Empty")
  /\ outcome (convert (py := Sample.builtins) Sample.defaults
                Sample.account_then_headless) = inl (no_primary_key "Empty")
  /\ Forall (fun sheet =>
               truthy (value (first_header_cell sheet)) = true /\
               exists f fields final,
                 outcome (collect_fields (py := Sample.builtins) Sample.defaults
                            (header_row sheet)) = inr (f :: fields, final))
            (worksheets Sample.account_workbook)
  /\ map fst Sample.account_fields
     = map value (truthy_prefix (header_row Sample.account)).
Proof.
  destruct (header_ends_at_first_falsy_cell (py := Sample.builtins) Sample.defaults)
    as (A & R & B & C).
  split; [|split; [|split]].
  - apply A. reflexivity.
  - eapply (R Sample.account_then_headless (PList []) Sample.original_mapping
              [Sample.account] Sample.headless []).
    + vm_compute. reflexivity.
    + reflexivity.
    + vm_compute. reflexivity.
    + reflexivity.
  - eapply B. vm_compute. reflexivity.
  - apply (C (header_row Sample.account) Sample.account_fields PNone). reflexivity.
Defined.

(* --------------------------------------------------------------------- *)
(** ** The output files *)
(* --------------------------------------------------------------------- *)

Section Outputs.
Context {py : PyBuiltins}.
Variable cfg : config.

Lemma writes_nothing_bind {A B} (m : M A) (k : A -> M B) :
  writes_nothing m -> (forall a, writes_nothing (k a)) -> writes_nothing (bind m k).
Proof.
  unfold writes_nothing. intros Hm Hk. rewrite events_bind.
  destruct (outcome m) as [e|a]; [exact Hm|].
  rewrite existsb_app, Hm, Hk. reflexivity.
Qed.

Lemma writes_nothing_lift {A} (r : result A) : writes_nothing (lift r).
Proof. reflexivity. Qed.

Lemma writes_nothing_ret {A} (a : A) : writes_nothing (ret a).
Proof. reflexivity. Qed.

Lemma writes_nothing_raise {A} (e : exn) : writes_nothing (raise e : M A).
Proof. reflexivity. Qed.

Lemma writes_nothing_log_table_name s : writes_nothing (log_table_name cfg s).
Proof. unfold log_table_name; destruct (LOG_TABLE_NAMES cfg); reflexivity. Qed.
Lemma writes_nothing_log_record s : writes_nothing (log_record cfg s).
Proof. unfold log_record; destruct (LOG_RECORDS cfg); reflexivity. Qed.
Lemma writes_nothing_log_field s : writes_nothing (log_field cfg s).
Proof. unfold log_field; destruct (LOG_FIELDS cfg); reflexivity. Qed.
Lemma writes_nothing_log_warning s : writes_nothing (log_warning cfg s).
Proof. unfold log_warning; destruct (DISPLAY_WARNINGS cfg); reflexivity. Qed.

Ltac quiet_with tac :=
  repeat first
    [ tac | apply writes_nothing_ret | apply writes_nothing_raise
    | apply writes_nothing_lift | apply writes_nothing_log_table_name
    | apply writes_nothing_log_record | apply writes_nothing_log_field
    | apply writes_nothing_log_warning
    | assumption
    | match goal with
      | |- writes_nothing (match ?x with _ => _ end) => destruct x
      | |- writes_nothing (if ?x then _ else _) => destruct x
      end
    | apply writes_nothing_bind; [|intros] ].
Ltac quiet := quiet_with fail.

Lemma writes_nothing_load_mapping wb : writes_nothing (load_mapping wb).
Proof.
  unfold load_mapping. quiet.
Qed.

Lemma writes_nothing_extract_metadata c : writes_nothing (extract_metadata cfg c).
Proof.
  unfold extract_metadata. quiet.
Qed.

Lemma writes_nothing_collect_fields header : writes_nothing (collect_fields cfg header).
Proof.
  induction header as [|c header IH]; [quiet|].
  rewrite collect_fields_cons. destruct (truthy (value c)); [|quiet].
  apply writes_nothing_bind; [apply writes_nothing_extract_metadata | intros].
  quiet.
Qed.

Lemma insert_records_cons t fields row_obj data sql :
  insert_records cfg t fields (row_obj :: data) sql =
  if negb (existsb (fun c => truthy (value c)) row_obj)
  then insert_records cfg t fields data sql
  else
    values <- lift (row_values fields 0 row_obj) ;;
    log_record cfg ("Record in table " ++ t ++ ": "
                    ++ value_repr (PList (map Scalar values))) ;;
    insert_records cfg t fields data
      (add_values values 0 (sql ++ "INSERT INTO " ++ dq ++ t ++ dq ++ " VALUES(")
       ++ ");" ++ nl).
Proof. reflexivity. Qed.

Lemma writes_nothing_insert_records t fields data sql :
  writes_nothing (insert_records cfg t fields data sql).
Proof.
  revert sql; induction data as [|row data IH]; intros sql; [quiet|].
  rewrite insert_records_cons. quiet; apply IH.
Qed.

Lemma writes_nothing_build_mapping twm t mf st :
  writes_nothing (build_mapping cfg twm t mf st).
Proof.
  unfold build_mapping. quiet.
Qed.

Lemma writes_nothing_process_sheet twm sheet st :
  writes_nothing (process_sheet cfg twm sheet st).
Proof.
  unfold process_sheet.
  quiet_with ltac:(first [ apply writes_nothing_collect_fields
                         | apply writes_nothing_insert_records
                         | apply writes_nothing_build_mapping ]).
Qed.

Lemma writes_nothing_process_sheets twm sheets st :
  writes_nothing (process_sheets cfg twm sheets st).
Proof.
  revert st; induction sheets as [|sheet sheets IH]; intros st; [quiet|].
  rewrite process_sheets_cons.
  apply writes_nothing_bind; [apply writes_nothing_process_sheet | intros; apply IH].
Qed.

Lemma warn_unused_cons st block_name block_names :
  warn_unused cfg st (block_name :: block_names) =
  preserved <- match dict_get block_name (table_mappings_preserved st) with
               | Some b => ret b
               | None => raise (KeyError block_name)
               end ;;
  (if negb preserved then
     entry <- match dict_get block_name (mapping_original st) with
              | Some e => ret e
              | None => raise (KeyError block_name)
              end ;;
     log_warning cfg (unused_warning block_name entry)
   else ret tt) ;;
  warn_unused cfg st block_names.
Proof. reflexivity. Qed.

Lemma writes_nothing_warn_unused st keys : writes_nothing (warn_unused cfg st keys).
Proof.
  induction keys as [|k keys IH]; [quiet|].
  rewrite warn_unused_cons. quiet.
Qed.

(** Up to the point where the files are saved, nothing is written. *)
Lemma writes_nothing_convert wb : writes_nothing (convert cfg wb).
Proof.
  unfold convert.
  apply writes_nothing_bind; [apply writes_nothing_load_mapping | intros [twm mapping]].
  apply writes_nothing_bind; [apply writes_nothing_process_sheets | intros st].
  apply writes_nothing_bind; [apply writes_nothing_warn_unused | intros]. quiet.
Qed.

(** The saving steps: the calls are made in order up to the first that
    raises. *)
Variable env : outside.

Lemma call_bind_events {A} ev (k : unit -> M A) :
  events (bind (call env ev) k)
  = ev :: match env ev with Some _ => [] | None => events (k tt) end.
Proof. unfold call, bind. destruct (env ev); [reflexivity|]. now destruct (k tt). Qed.

Lemma call_bind_outcome {A} ev (k : unit -> M A) :
  outcome (bind (call env ev) k)
  = match env ev with Some e => inl e | None => outcome (k tt) end.
Proof. unfold call, bind. destruct (env ev); [reflexivity|]. now destruct (k tt). Qed.

Lemma call_events ev : events (call env ev) = [ev].
Proof. reflexivity. Qed.

Lemma call_outcome ev :
  outcome (call env ev) = match env ev with Some e => inl e | None => inr tt end.
Proof. reflexivity. Qed.

Lemma save_events sql document :
  events (save cfg env sql document) = until_raise env (saving_events cfg sql document).
Proof.
  unfold save, saving_events. rewrite call_bind_events. cbn [until_raise]. f_equal.
  destruct (env (WriteSQL _ _)); [reflexivity|].
  rewrite call_bind_events. cbn [until_raise]. f_equal.
  destruct (env (WriteYAML _ _)); [reflexivity|].
  destruct (DELETE_XLSX cfg); cbn [app].
  - rewrite call_bind_events. cbn [until_raise]. f_equal.
    destruct (env (SendToTrash _)); [reflexivity|].
    destruct (OPEN_FILE cfg); [|reflexivity].
    destruct (String.eqb _ _); rewrite call_events; cbn [until_raise];
      destruct (env _); reflexivity.
  - rewrite events_bind. cbn [outcome ret snd events fst app].
    destruct (OPEN_FILE cfg); [|reflexivity].
    destruct (String.eqb _ _); rewrite call_events; cbn [until_raise];
      destruct (env _); reflexivity.
Qed.

Lemma save_outcome sql document :
  outcome (save cfg env sql document)
  = match first_raise env (saving_events cfg sql document) with
    | Some e => inl e
    | None => inr tt
    end.
Proof.
  unfold save, saving_events. rewrite call_bind_outcome. cbn [first_raise].
  destruct (env (WriteSQL _ _)); [reflexivity|].
  rewrite call_bind_outcome. cbn [first_raise].
  destruct (env (WriteYAML _ _)); [reflexivity|].
  destruct (DELETE_XLSX cfg); cbn [app].
  - rewrite call_bind_outcome. cbn [first_raise].
    destruct (env (SendToTrash _)); [reflexivity|].
    destruct (OPEN_FILE cfg); [|reflexivity].
    destruct (String.eqb _ _); rewrite call_outcome; cbn [first_raise];
      destruct (env _); reflexivity.
  - rewrite outcome_bind. cbn [outcome ret snd].
    destruct (OPEN_FILE cfg); [|reflexivity].
    destruct (String.eqb _ _); rewrite call_outcome; cbn [first_raise];
      destruct (env _); reflexivity.
Qed.

Lemma first_raise_in calls e :
  first_raise env calls = Some e -> exists ev, In ev calls /\ env ev = Some e.
Proof.
  induction calls as [|ev calls IH]; [discriminate|].
  cbn [first_raise]. destruct (env ev) as [e'|] eqn:E.
  - intros [= <-]. exists ev. split; [now left | exact E].
  - intros H. destruct (IH H) as (ev' & I & E'). exists ev'. split; [now right | exact E'].
Qed.

Lemma first_raise_none calls :
  first_raise env calls = None <-> forall ev, In ev calls -> env ev = None.
Proof.
  induction calls as [|ev calls IH]; [now split|].
  cbn [first_raise]. destruct (env ev) as [e|] eqn:E.
  - split; [discriminate|]. intros H. rewrite (H ev (or_introl eq_refl)) in E.
    discriminate E.
  - rewrite IH. split.
    + intros H ev' [<-|I]; [exact E | now apply H].
    + intros H ev' I. apply H. now right.
Qed.

Lemma until_raise_all calls :
  first_raise env calls = None -> until_raise env calls = calls.
Proof.
  induction calls as [|ev calls IH]; [reflexivity|].
  cbn [first_raise until_raise]. destruct (env ev); [discriminate|].
  intros H. now rewrite IH.
Qed.

Lemma xlsx_to_sql_outcome wb :
  outcome (xlsx_to_sql cfg env wb) =
  match outcome (convert cfg wb) with
  | inl e => inl e
  | inr (sql, document) =>
      match first_raise env (saving_events cfg sql document) with
      | Some e => inl e
      | None => inr tt
      end
  end.
Proof.
  unfold xlsx_to_sql. rewrite outcome_bind.
  destruct (outcome (convert cfg wb)) as [e|[sql document]]; [reflexivity|].
  apply save_outcome.
Qed.

Lemma xlsx_to_sql_events wb :
  events (xlsx_to_sql cfg env wb) =
  match outcome (convert cfg wb) with
  | inl e => events (convert cfg wb)
  | inr (sql, document) =>
      app (events (convert cfg wb))
          (until_raise env (saving_events cfg sql document))
  end.
Proof.
  unfold xlsx_to_sql. rewrite events_bind.
  destruct (outcome (convert cfg wb)) as [e|[sql document]]; [reflexivity|].
  f_equal. apply save_events.
Qed.

(** C8.  When the run up to the saving steps raises - and every exception of
    the header, of the primary key, of the conversion of a cell and of the
    mapping document is raised there - the run ends with that exception and
    no event of the run writes the SQL file or the mapping file.  An
    exception that ends a run is raised there or by a call of the saving
    steps - so in an outside where no call raises, a run that ends with an
    exception has written nothing - and an output file is written only once
    every worksheet has been processed. *)
Theorem no_output_on_error wb :
  (forall e,
      outcome (convert cfg wb) = inl e ->
      outcome (xlsx_to_sql cfg env wb) = inl e
      /\ existsb writes_output (events (xlsx_to_sql cfg env wb)) = false)
  /\ (forall e,
         outcome (xlsx_to_sql cfg env wb) = inl e ->
         outcome (convert cfg wb) = inl e
         /\ existsb writes_output (events (xlsx_to_sql cfg env wb)) = false
         \/ exists sql document ev,
              outcome (convert cfg wb) = inr (sql, document) /\
              In ev (saving_events cfg sql document) /\ env ev = Some e)
  /\ ((forall ev, env ev = None) ->
      forall e,
        outcome (xlsx_to_sql cfg env wb) = inl e ->
        existsb writes_output (events (xlsx_to_sql cfg env wb)) = false
        /\ outcome (convert cfg wb) = inl e)
  /\ (existsb writes_output (events (xlsx_to_sql cfg env wb)) = true ->
      exists sql document, outcome (convert cfg wb) = inr (sql, document)).
Proof.
  rewrite xlsx_to_sql_outcome, xlsx_to_sql_events.
  pose proof (writes_nothing_convert wb) as W.
  destruct (outcome (convert cfg wb)) as [e'|[sql document]] eqn:C.
  - split; [|split; [|split]].
    + intros e [= <-]. split; [reflexivity | exact W].
    + intros e [= <-]. left. split; [reflexivity | exact W].
    + intros _ e [= <-]. split; [exact W | reflexivity].
    + intros H. unfold writes_nothing in W. congruence.
  - split; [|split; [|split]].
    + discriminate.
    + intros e H. right.
      destruct (first_raise env (saving_events cfg sql document)) as [e'|] eqn:F;
        [|discriminate].
      injection H as ->. apply first_raise_in in F as (ev & I & E).
      now exists sql, document, ev.
    + intros N e H.
      destruct (first_raise env (saving_events cfg sql document)) as [e'|] eqn:F;
        [|discriminate].
      apply first_raise_in in F as (ev & _ & E). rewrite N in E. discriminate E.
    + intros _. now exists sql, document.
Qed.
End Outputs.

Lemma no_output_on_error_witness :
  outcome (xlsx_to_sql (py := Sample.builtins) Sample.defaults Sample.calm
             Sample.account_again)
  = inl (XLSXParseError
           "Mapping data does not contain list of tables without mapping data (this list must be present even if empty)")
  /\ existsb writes_output
       (events (xlsx_to_sql (py := Sample.builtins) Sample.defaults Sample.calm
                  Sample.account_again))
     = false.
Proof.
  apply (proj1 (no_output_on_error (py := Sample.builtins) Sample.defaults Sample.calm
                  Sample.account_again)).
  vm_compute. reflexivity.
Defined.

(* --------------------------------------------------------------------- *)
(** ** The CREATE TABLE statement *)
(* --------------------------------------------------------------------- *)

Section CreateTable.
Context {py : PyBuiltins}.
Variable cfg : config.

(** One turn of the field loop appends the field's column line, provided the
    name test of line 136 agrees with the field's flag. *)
Lemma add_field_line t f p mf sql p' mf' sql' :
  add_field t f (p, mf, sql) = inr (p', mf', sql') ->
  match p' with Some q => py_eq q (fst f) | None => false end = pk_flag f ->
  sql' = sql ++ column_line f /\
  mf' = (if pk_flag f then mf else append mf (fst f)).
Proof.
  destruct f as [name md].
  unfold add_field, column_line, pk_flag, not_null_flag, type_text; simpl.
  destruct (value_getitem md "pk") as [e|pk]; simpl; [discriminate|].
  destruct (truthy_value pk) eqn:Tpk; [destruct p as [q|]|]; simpl;
    try discriminate;
    (destruct (value_getitem md "type") as [e|ty]; simpl; [discriminate|]);
    (destruct (value_getitem md "not_null") as [e|nn]; simpl; [discriminate|]);
    intros H; injection H as <- <- <-; intros ->;
    destruct (truthy_value nn);
    repeat first [rewrite append_assoc | progress simpl]; auto.
Qed.

Lemma non_pk_names_cons f fields :
  non_pk_names (f :: fields) =
  if pk_flag f then non_pk_names fields else fst f :: non_pk_names fields.
Proof. unfold non_pk_names; simpl. destruct (pk_flag f); reflexivity. Qed.

Lemma primary_key_of_cons f fields :
  primary_key_of (f :: fields) =
  if pk_flag f then Some (fst f) else primary_key_of fields.
Proof. unfold primary_key_of; simpl. destruct (pk_flag f); reflexivity. Qed.

(** After the primary key [q] is known. *)
Lemma add_fields_lines_after t fields q mf sql p' mf' sql' :
  add_fields t fields (Some q, mf, sql) = inr (p', mf', sql') ->
  forallb (fun g => Bool.eqb (py_eq q (fst g)) (pk_flag g)) fields = true ->
  p' = Some q /\
  sql' = sql ++ str_concat (map column_line fields) /\
  mf' = app mf (non_pk_names fields).
Proof.
  revert mf sql; induction fields as [|f fields IH]; intros mf sql H N.
  - simpl in H; injection H as <- <- <-.
    simpl. rewrite append_empty_r, app_nil_r. auto.
  - rewrite add_fields_cons in H.
    destruct (add_field t f (Some q, mf, sql)) as [e|[[p1 mf1] sql1]] eqn:E;
      simpl in H; [discriminate|].
    simpl in N. apply andb_prop in N as [Nf N]. apply Bool.eqb_prop in Nf.
    pose proof (add_field_inv t f _ _ _ _ _ _ E) as [[Hf Ep]|(_ & Hn & _)];
      [subst p1|discriminate].
    destruct (add_field_line t f _ _ _ _ _ _ E Nf) as [Es Em].
    destruct (IH _ _ H N) as (Ep & Es' & Em').
    rewrite Hf in Em. subst.
    rewrite non_pk_names_cons, Hf. cbn [map str_concat]. unfold append.
    rewrite append_assoc, <- app_assoc. auto.
Qed.

(** From the start of the header. *)
Lemma add_fields_lines t fields mf sql p' mf' sql' :
  add_fields t fields (None, mf, sql) = inr (p', mf', sql') ->
  pk_name_is_its_own fields = true ->
  p' = primary_key_of fields /\
  sql' = sql ++ str_concat (map column_line fields) /\
  mf' = app mf (non_pk_names fields).
Proof.
  revert mf sql; induction fields as [|f fields IH]; intros mf sql H N.
  - simpl in H; injection H as <- <- <-.
    simpl. rewrite append_empty_r, app_nil_r. auto.
  - rewrite add_fields_cons in H.
    destruct (add_field t f (None, mf, sql)) as [e|[[p1 mf1] sql1]] eqn:E;
      simpl in H; [discriminate|].
    unfold pk_name_is_its_own in N. rewrite primary_key_of_cons in N. simpl in N.
    rewrite primary_key_of_cons, non_pk_names_cons. cbn [map str_concat].
    pose proof (add_field_inv t f _ _ _ _ _ _ E) as [[Hf Ep]|(Hf & _ & Ep)];
      subst p1; rewrite Hf in N |- *.
    + destruct (add_field_line t f _ _ _ _ _ _ E) as [Es Em];
        [symmetry; exact Hf|]. rewrite Hf in Em.
      destruct (IH _ _ H N) as (Ep & Es' & Em'). subst.
      unfold append. rewrite append_assoc, <- app_assoc. auto.
    + simpl in N. apply andb_prop in N as [Nf N]. apply Bool.eqb_prop in Nf.
      destruct (add_field_line t f _ _ _ _ _ _ E) as [Es Em];
        [exact Nf|]. rewrite Hf in Em.
      destruct (add_fields_lines_after t fields _ _ _ _ _ _ H N) as (Ep & Es' & Em').
      subst. rewrite append_assoc. auto.
Qed.

(** The statement appended by lines 121-153, and [mapping_fields]. *)
Lemma create_table_ddl t fields sql mf sql' :
  create_table t fields sql = inr (mf, sql') ->
  pk_name_is_its_own fields = true ->
  sql' = sql ++ table_ddl t fields /\ mf = non_pk_names fields.
Proof.
  unfold create_table, table_ddl. intros H N.
  destruct (add_fields _ _ _) as [e|[[p1 mf1] sql1]] eqn:E; simpl in H; [discriminate|].
  destruct (add_fields_lines t fields _ _ _ _ _ E N) as (-> & -> & ->).
  destruct (primary_key_of fields) as [p|]; simpl in H; [|discriminate].
  injection H as <- <-. split; [|reflexivity].
  repeat first [rewrite append_assoc | progress simpl]. reflexivity.
Qed.

(** The inserts only append to the script. *)
Lemma insert_records_appends t fields data sql sql' :
  outcome (insert_records cfg t fields data sql) = inr sql' ->
  exists inserts, sql' = sql ++ inserts.
Proof.
  assert (V : forall values column s,
             exists a, add_values values column s = s ++ a).
  { induction values as [|v values IH]; intros column s; simpl.
    - exists "". now rewrite append_empty_r.
    - destruct (IH (S column)
                  ((if (0 <? column)%nat then s ++ "," else s) ++ value_literal v))
        as [a ->].
      destruct (0 <? column)%nat; rewrite ?append_assoc; eauto. }
  revert sql; induction data as [|row data IH]; intros sql H.
  - simpl in H. injection H as <-. exists "". now rewrite append_empty_r.
  - rewrite insert_records_cons in H. destruct (negb _).
    + apply IH, H.
    + rewrite outcome_bind, outcome_lift in H.
      destruct (row_values fields 0 row) as [e|values]; [discriminate|].
      rewrite outcome_bind, outcome_log_record in H.
      apply IH in H as [a ->].
      destruct (V values 0%nat (sql ++ "INSERT INTO " ++ dq ++ t ++ dq ++ " VALUES("))
        as [b ->].
      rewrite !append_assoc. eauto.
Qed.

(** X14.  For a worksheet that is processed to
    the end and in which, from the primary-key field on, no other field's
    name equals the primary key's name: the text added to the script starts
    with the table's CREATE TABLE statement - the table name between double
    quotes, one line per field in header order with the primary key's name
    bare and every other name between double quotes, the declared type,
    [NOT NULL] exactly when the metadata says so, then [PRIMARY KEY (name)]
    with the bare name - followed by the table's inserts.  And the Account
    worksheet yields exactly the statement of the scenario. *)
Theorem create_table_statement :
  (forall twm sheet st st',
      outcome (process_sheet cfg twm sheet st) = inr st' ->
      exists fields final inserts,
        outcome (collect_fields cfg (header_row sheet)) = inr (fields, final) /\
        pk_count fields = 1%nat /\
        (pk_name_is_its_own fields = true ->
         sql_script st' = sql_script st ++ table_ddl (title sheet) fields ++ inserts))
  /\
  (forall sql,
      create_table "Account"
        [(PStr "Id", PDict [("type", VStr "INTEGER"); ("not_null", VBool false);
                            ("pk", VInt 1)]);
         (PStr "Name", DEFAULT_METADATA)] sql
      = inr ([PStr "Name"],
             sql ++ "CREATE TABLE " ++ dq ++ "Account" ++ dq ++ " (" ++ nl
             ++ tab ++ "Id INTEGER," ++ nl
             ++ tab ++ dq ++ "Name" ++ dq ++ " VARCHAR(255)," ++ nl
             ++ "  PRIMARY KEY (Id)" ++ nl
             ++ ");" ++ nl)).
Proof.
  split.
  - intros twm sheet st st' H.
    apply process_sheet_ok in H as (fields & final & mf & sql1 & sql2 & C & T & I & B).
    apply insert_records_appends in I as [inserts ->].
    exists fields, final, inserts. split; [exact C|].
    split; [eapply create_table_inv; eassumption|].
    intros N. destruct (create_table_ddl _ _ _ _ _ T N) as [-> _].
    assert (S : sql_script st'
                = (sql_script st ++ table_ddl (title sheet) fields) ++ inserts).
    { unfold build_mapping in B.
      destruct (dict_get _ _) as [entry|].
      - rewrite outcome_bind, outcome_lift in B.
        destruct (value_setitem _ _ _); [discriminate|].
        simpl in B. injection B as <-. reflexivity.
      - rewrite outcome_bind, outcome_lift in B.
        destruct (value_contains _ _) as [e|[]]; [discriminate| |].
        + simpl in B. injection B as <-. reflexivity.
        + rewrite outcome_bind, outcome_log_warning in B.
          simpl in B. injection B as <-. reflexivity. }
    rewrite S. apply append_assoc.
  - intros sql. unfold create_table; simpl.
    repeat first [rewrite append_assoc | progress simpl]. reflexivity.
Qed.
End CreateTable.

Lemma create_table_statement_witness :
  exists st' inserts,
    outcome (process_sheet (py := Sample.builtins) Sample.defaults Sample.no_tables
               Sample.account Sample.start) = inr st' /\
    sql_script st'
    = sql_script Sample.start
      ++ table_ddl (py := Sample.builtins) "Account" Sample.account_fields ++ inserts.
Proof.
  edestruct (proj1 (create_table_statement (py := Sample.builtins) Sample.defaults)
               Sample.no_tables Sample.account Sample.start)
    as (fields & final & inserts & C & K & D).
  { vm_compute. reflexivity. }
  vm_compute in C. injection C as <- <-.
  eexists. exists inserts. split; [reflexivity|].
  apply D. reflexivity.
Defined.

(** C2.  The header Id (primary key, INTEGER), Id (no comment) passes the
    primary-key validation, and the script writes the second field, whose
    [pk] is 0, without quotes, where a field that is not the primary key
    goes between double quotes.  The same name met before the primary key
    is written between quotes: with the two columns the other way round the
    first line is quoted.  Line 136 tells the primary key by its name, and
    so takes every later field of that name for it. *)
Theorem repeated_key_name_is_written_bare :
  pk_count Sample.twice_id_fields = 1%nat
  /\ map pk_flag Sample.twice_id_fields = [true; false]
  /\ outcome (collect_fields (py := Sample.builtins) Sample.defaults
                (header_row Sample.twice_id))
     = inr (Sample.twice_id_fields, PNone)
  /\ create_table (py := Sample.builtins) "Account" Sample.twice_id_fields ""
     = inr ([], "CREATE TABLE " ++ dq ++ "Account" ++ dq ++ " (" ++ nl
                ++ tab ++ "Id INTEGER," ++ nl
                ++ tab ++ "Id VARCHAR(255)," ++ nl
                ++ "  PRIMARY KEY (Id)" ++ nl
                ++ ");" ++ nl)
  /\ create_table (py := Sample.builtins) "Account" Sample.id_twice_fields ""
     = inr ([PStr "Id"],
            "CREATE TABLE " ++ dq ++ "Account" ++ dq ++ " (" ++ nl
            ++ tab ++ dq ++ "Id" ++ dq ++ " VARCHAR(255)," ++ nl
            ++ tab ++ "Id INTEGER," ++ nl
            ++ "  PRIMARY KEY (Id)" ++ nl
            ++ ");" ++ nl)
  /\ table_ddl (py := Sample.builtins) "Account" Sample.twice_id_fields
     = "CREATE TABLE " ++ dq ++ "Account" ++ dq ++ " (" ++ nl
       ++ tab ++ "Id INTEGER," ++ nl
       ++ tab ++ dq ++ "Id" ++ dq ++ " VARCHAR(255)," ++ nl
       ++ "  PRIMARY KEY (Id)" ++ nl
       ++ ");" ++ nl
  /\ exists st',
       outcome (process_sheet (py := Sample.builtins) Sample.defaults
                  Sample.no_tables Sample.twice_id Sample.start) = inr st'
       /\ sql_script st'
          = sql_script Sample.start
            ++ "CREATE TABLE " ++ dq ++ "Account" ++ dq ++ " (" ++ nl
            ++ tab ++ "Id INTEGER," ++ nl
            ++ tab ++ "Id VARCHAR(255)," ++ nl
            ++ "  PRIMARY KEY (Id)" ++ nl
            ++ ");" ++ nl
       /\ sql_script st'
          <> sql_script Sample.start
             ++ table_ddl (py := Sample.builtins) "Account" Sample.twice_id_fields.
Proof.
  split; [reflexivity|]. split; [reflexivity|]. split; [reflexivity|].
  split; [reflexivity|]. split; [reflexivity|]. split; [reflexivity|].
  eexists. split; [vm_compute; reflexivity|]. split; [reflexivity|].
  vm_compute. discriminate.
Qed.

(* --------------------------------------------------------------------- *)
(** ** What [int] accepts *)
(* --------------------------------------------------------------------- *)

Section Integers.
Lemma is_space_codes c : is_space c = true <-> In (nat_of_ascii c) int_white_codes.
Proof.
  unfold is_space, int_white_codes. cbn [In].
  rewrite !orb_true_iff, !andb_true_iff, !Nat.leb_le, !Nat.eqb_eq. lia.
Qed.

Lemma digit_of_char d :
  (d < 10)%nat -> digit_of (ascii_of_nat (48 + d)) = Some (Z.of_nat d).
Proof. intros H. do 10 (destruct d as [|d]; [reflexivity|]). lia. Qed.

Lemma digit_char_plain d :
  (d < 10)%nat ->
  is_space (ascii_of_nat (48 + d)) = false
  /\ Ascii.eqb (ascii_of_nat (48 + d)) "-" = false
  /\ Ascii.eqb (ascii_of_nat (48 + d)) "+" = false.
Proof. intros H. do 10 (destruct d as [|d]; [now repeat split|]). lia. Qed.

Lemma digit_of_inv c d :
  digit_of c = Some d ->
  exists k, (k < 10)%nat /\ c = ascii_of_nat (48 + k) /\ d = Z.of_nat k.
Proof.
  unfold digit_of. destruct (_ && _)%bool eqn:E; [|discriminate].
  intros [= <-]. apply andb_prop in E as [L U].
  apply Nat.leb_le in L, U. exists (nat_of_ascii c - 48)%nat.
  split; [lia|]. split; [|reflexivity].
  replace (48 + (nat_of_ascii c - 48))%nat with (nat_of_ascii c) by lia.
  now rewrite ascii_nat_embedding.
Qed.

(** *** Stripping *)

Lemma lstrip_cons c s :
  lstrip (String c s) = if is_space c then lstrip s else String c s.
Proof. reflexivity. Qed.

Lemma rstrip_cons c s :
  rstrip (String c s)
  = match rstrip s with
    | EmptyString => if is_space c then EmptyString else String c EmptyString
    | r => String c r
    end.
Proof. reflexivity. Qed.

Lemma parse_digits_cons acc b c s :
  parse_digits acc b (String c s)
  = match digit_of c with
    | Some d => parse_digits (10 * acc + d) true s
    | None => if (Ascii.eqb c "_" && b)%bool then parse_digits acc false s else None
    end.
Proof. reflexivity. Qed.

Lemma count_digits_cons c s :
  count_digits (String c s)
  = match digit_of c with
    | Some _ => S (count_digits s)
    | None => count_digits s
    end.
Proof. reflexivity. Qed.

Lemma lstrip_white ws s : white_text ws -> lstrip (ws ++ s) = lstrip s.
Proof.
  induction ws as [|c ws IH]; intros W; [reflexivity|].
  destruct W as [Wc W]. apply is_space_codes in Wc.
  cbn [String.append]. rewrite lstrip_cons, Wc. now apply IH.
Qed.

Lemma lstrip_split s : exists ws, white_text ws /\ s = ws ++ lstrip s.
Proof.
  induction s as [|c s (ws & W & E)]; [now exists ""|].
  rewrite lstrip_cons. destruct (is_space c) eqn:C.
  - exists (String c ws). split; [split; [now apply is_space_codes | exact W]|].
    cbn [String.append]. now rewrite <- E.
  - now exists "".
Qed.

Lemma rstrip_all_white ws : white_text ws -> rstrip ws = "".
Proof.
  induction ws as [|c ws IH]; intros W; [reflexivity|].
  destruct W as [Wc W]. apply is_space_codes in Wc.
  now rewrite rstrip_cons, (IH W), Wc.
Qed.

Lemma rstrip_white s ws : white_text ws -> rstrip (s ++ ws) = rstrip s.
Proof.
  intros W. induction s as [|c s IH]; [now apply rstrip_all_white|].
  cbn [String.append]. now rewrite !rstrip_cons, IH.
Qed.

Lemma rstrip_split s : exists ws, white_text ws /\ s = rstrip s ++ ws.
Proof.
  induction s as [|c s (ws & W & E)]; [now exists ""|].
  rewrite rstrip_cons. destruct (rstrip s) as [|a r] eqn:R.
  - destruct (is_space c) eqn:C.
    + exists (String c ws). split; [split; [now apply is_space_codes | exact W]|].
      now rewrite E.
    + exists ws. split; [exact W|]. now rewrite E.
  - exists ws. split; [exact W|].
    change (String c s = String c (String a r ++ ws)). now f_equal.
Qed.

(** A text that [rstrip] leaves as it is, after any text. *)
Lemma rstrip_kept a b : b <> "" -> rstrip b = b -> rstrip (a ++ b) = a ++ b.
Proof.
  intros N R. induction a as [|c a IH]; [exact R|].
  cbn [String.append]. rewrite rstrip_cons, IH.
  destruct (a ++ b) as [|x y] eqn:E; [|reflexivity].
  destruct a; [now subst | discriminate].
Qed.

Lemma rstrip_digits g : digit_group g -> rstrip (digit_text g) = digit_text g.
Proof.
  intros [N F]. induction F as [|d g D F IH]; [congruence|].
  cbn [digit_text]. rewrite rstrip_cons. destruct g as [|d' g].
  - cbn [digit_text rstrip]. now rewrite (proj1 (digit_char_plain d D)).
  - rewrite IH by discriminate. reflexivity.
Qed.

Lemma rstrip_groups more g :
  Forall digit_group (g :: more) ->
  rstrip (digit_text g ++ more_groups more) = digit_text g ++ more_groups more.
Proof.
  revert g; induction more as [|h more IH]; intros g F.
  - unfold more_groups. cbn [map str_concat]. rewrite append_empty_r.
    apply rstrip_digits. now inversion F.
  - unfold more_groups. cbn [map str_concat]. fold (more_groups more).
    rewrite append_assoc, <- (append_assoc (digit_text g) "_").
    inversion F as [|? ? G F']; subst.
    apply rstrip_kept; [|now apply IH].
    inversion F' as [|? ? [N _] _]; subst. destruct h; [congruence | discriminate].
Qed.

(** *** Digits *)

Lemma parse_group g : forall acc b rest,
  Forall (fun d => (d < 10)%nat) g ->
  parse_digits acc b (digit_text g ++ rest)
  = parse_digits (decimal_from acc g) (match g with [] => b | _ => true end) rest.
Proof.
  induction g as [|d g IH]; intros acc b rest F; [reflexivity|].
  inversion F as [|? ? D F']; subst.
  cbn [digit_text String.append]. rewrite parse_digits_cons, (digit_of_char d D), IH by exact F'.
  unfold decimal_from. cbn [fold_left]. now destruct g.
Qed.

Lemma parse_more more : forall acc,
  Forall digit_group more ->
  parse_digits acc true (more_groups more) = Some (decimal_from acc (concat more)).
Proof.
  induction more as [|h more IH]; intros acc F; [reflexivity|].
  inversion F as [|? ? [N D] F']; subst.
  unfold more_groups. cbn [map str_concat]. fold (more_groups more).
  rewrite append_assoc. cbn [String.append]. rewrite parse_digits_cons.
  change (digit_of "_") with (@None Z).
  change (Ascii.eqb "_" "_" && true)%bool with true. cbv iota.
  rewrite parse_group by exact D.
  destruct h as [|d h]; [congruence|].
  rewrite IH by exact F'. unfold decimal_from. cbn [concat]. now rewrite fold_left_app.
Qed.

Lemma parse_groups g more :
  Forall digit_group (g :: more) ->
  parse_digits 0 false (digit_text g ++ more_groups more)
  = Some (decimal (g ++ concat more)).
Proof.
  intros F. inversion F as [|? ? [N D] F']; subst.
  rewrite parse_group by exact D. destruct g as [|d g]; [congruence|].
  rewrite parse_more by exact F'. unfold decimal, decimal_from.
  now rewrite fold_left_app.
Qed.

Lemma count_digits_group g rest :
  Forall (fun d => (d < 10)%nat) g ->
  count_digits (digit_text g ++ rest) = (List.length g + count_digits rest)%nat.
Proof.
  induction 1 as [|d g D F IH]; [reflexivity|].
  cbn [digit_text String.append]. rewrite count_digits_cons, (digit_of_char d D), IH.
  reflexivity.
Qed.

Lemma count_digits_more more :
  Forall digit_group more ->
  count_digits (more_groups more) = List.length (concat more).
Proof.
  induction 1 as [|h more [N D] F IH]; [reflexivity|].
  unfold more_groups. cbn [map str_concat]. fold (more_groups more).
  rewrite append_assoc. cbn [String.append]. rewrite count_digits_cons.
  change (digit_of "_") with (@None Z). cbv iota.
  rewrite count_digits_group by exact D. cbn [concat]. now rewrite IH, length_app.
Qed.

Lemma count_digits_groups g more :
  Forall digit_group (g :: more) ->
  count_digits (digit_text g ++ more_groups more) = List.length (g ++ concat more).
Proof.
  intros F. inversion F as [|? ? [N D] F']; subst.
  now rewrite count_digits_group, count_digits_more, length_app.
Qed.

(** What [parse_digits] has read when it gives a number. *)
Lemma parse_digits_groups s : forall acc b v,
  parse_digits acc b s = Some v ->
  exists g more,
    s = digit_text g ++ more_groups more /\
    Forall (fun d => (d < 10)%nat) g /\ (b = false -> g <> []) /\
    Forall digit_group more /\
    v = decimal_from acc (g ++ concat more).
Proof.
  induction s as [|c s IH]; intros acc b v H.
  - cbn [parse_digits] in H. destruct b; [|discriminate]. injection H as <-.
    exists [], [].
    split; [reflexivity|]. split; [constructor|]. split; [discriminate|].
    split; [constructor | reflexivity].
  - rewrite parse_digits_cons in H. destruct (digit_of c) as [d|] eqn:D.
    + apply digit_of_inv in D as (k & K & -> & ->).
      apply IH in H as (g & more & -> & F & _ & M & ->).
      exists (k :: g), more.
      split; [reflexivity|]. split; [now constructor|]. split; [discriminate|].
      split; [exact M | reflexivity].
    + destruct (Ascii.eqb c "_" && b)%bool eqn:U; [|discriminate].
      apply andb_prop in U as [U ->]. apply Ascii.eqb_eq in U as ->.
      apply IH in H as (g & more & -> & F & N & M & ->).
      exists [], (g :: more).
      split; [reflexivity|]. split; [constructor|]. split; [discriminate|].
      split; [|reflexivity].
      constructor; [split; [now apply N | exact F] | exact M].
Qed.

(** *** [int] of a text *)

Lemma int_of_str_literal s z : int_of_str s = Some z <-> int_literal s z.
Proof.
  split.
  - unfold int_of_str. intros H.
    destruct (rstrip_split s) as (ws2 & W2 & E2).
    destruct (lstrip_split (rstrip s)) as (ws1 & W1 & E1).
    assert (E : forall body, lstrip (rstrip s) = body -> s = ws1 ++ body ++ ws2).
    { intros body <-. rewrite <- append_assoc, <- E1. exact E2. }
    destruct (lstrip (rstrip s)) as [|c r] eqn:B.
    + cbn in H. discriminate H.
    + assert (G : forall (negative : bool) (digits : string),
                 (if (int_max_str_digits <? count_digits digits)%nat then None
                  else option_map (fun v : Z => if negative then - v else v)
                                  (parse_digits 0 false digits)) = Some z ->
                 exists g more,
                   digits = digit_text g ++ more_groups more /\
                   Forall digit_group (g :: more) /\
                   (List.length (g ++ concat more) <= 4300)%nat /\
                   z = (if negative then - decimal (g ++ concat more)
                        else decimal (g ++ concat more))).
      { intros negative digits G.
        destruct (Nat.ltb_spec int_max_str_digits (count_digits digits)) as [L|L];
          [discriminate|].
        destruct (parse_digits 0 false digits) as [v|] eqn:P; [|discriminate].
        injection G as <-.
        apply parse_digits_groups in P as (g & more & -> & F & N & M & ->).
        assert (FF : Forall digit_group (g :: more)).
        { constructor; [split; [now apply N | exact F] | exact M]. }
        exists g, more. split; [reflexivity|]. split; [exact FF|].
        split; [|reflexivity].
        rewrite count_digits_groups in L by exact FF. exact L. }
      destruct (Ascii.eqb c "-") eqn:Cm; [|destruct (Ascii.eqb c "+") eqn:Cp].
      * apply Ascii.eqb_eq in Cm as ->.
        apply (G true) in H as (g & more & -> & F & L & ->).
        exists ws1, true, "-", g, more, ws2.
        rewrite (E _ eq_refl). cbn [String.append]. rewrite !append_assoc.
        repeat split; try assumption. right; right. now split.
      * apply Ascii.eqb_eq in Cp as ->.
        apply (G false) in H as (g & more & -> & F & L & ->).
        exists ws1, false, "+", g, more, ws2.
        rewrite (E _ eq_refl). cbn [String.append]. rewrite !append_assoc.
        repeat split; try assumption. right; left. now split.
      * apply (G false) in H as (g & more & D & F & L & ->).
        exists ws1, false, "", g, more, ws2.
        rewrite (E _ eq_refl), D. cbn [String.append]. rewrite !append_assoc.
        repeat split; try assumption. left. now split.
  - intros (ws1 & negative & sign & g & more & ws2 & -> & W1 & W2 & S & F & L & ->).
    assert (N : g <> []) by (inversion F as [|? ? [N _] _]; exact N).
    assert (D : exists d g', g = d :: g' /\ (d < 10)%nat).
    { inversion F as [|? ? [_ D] _]; subst. destruct g as [|d g']; [congruence|].
      exists d, g'. split; [reflexivity | now inversion D]. }
    destruct D as (d & g' & Eg & D).
    pose proof (digit_char_plain d D) as (Ds & Dm & Dp).
    assert (R : rstrip (sign ++ digit_text g ++ more_groups more)
                = sign ++ digit_text g ++ more_groups more).
    { apply rstrip_kept; [|now apply rstrip_groups].
      subst g. discriminate. }
    assert (B : lstrip (rstrip (ws1 ++ sign ++ digit_text g ++ more_groups more ++ ws2))
                = sign ++ digit_text g ++ more_groups more).
    { rewrite <- (append_assoc (digit_text g)), <- (append_assoc sign),
        <- (append_assoc ws1), rstrip_white by exact W2.
      rewrite rstrip_kept; [| |exact R].
      - rewrite lstrip_white by exact W1.
        destruct S as [[-> _]|[[-> _]|[-> _]]]; subst g; cbn [String.append digit_text lstrip];
          [now rewrite Ds | reflexivity | reflexivity].
      - destruct S as [[-> _]|[[-> _]|[-> _]]]; subst g; discriminate. }
    unfold int_of_str. rewrite B.
    assert (C : (int_max_str_digits <? count_digits (digit_text g ++ more_groups more))%nat
                = false).
    { apply Nat.ltb_ge. now rewrite count_digits_groups. }
    destruct S as [[-> ->]|[[-> ->]|[-> ->]]].
    + cbn [String.append]. rewrite Eg. cbn [digit_text String.append]. rewrite Dm, Dp.
      rewrite Eg in C. cbn [digit_text String.append] in C. rewrite C.
      change (String (ascii_of_nat (48 + d)) (digit_text g' ++ more_groups more))
        with (digit_text (d :: g') ++ more_groups more).
      rewrite <- Eg, parse_groups by exact F. reflexivity.
    + cbn [String.append]. change (Ascii.eqb "+" "-") with false.
      change (Ascii.eqb "+" "+") with true. cbv iota.
      rewrite C, parse_groups by exact F. reflexivity.
    + cbn [String.append]. change (Ascii.eqb "-" "-") with true. cbv iota.
      rewrite C, parse_groups by exact F. reflexivity.
Qed.

(** *** [int] of a value *)

Lemma int_of_float_finite x s m e :
  Prim2SF x = S754_finite s m e ->
  int_of_float x = inr (Z.quot (float_numerator s m e) (float_denominator e)).
Proof.
  intros H. unfold int_of_float, float_numerator, float_denominator. rewrite H.
  f_equal. destruct (Z.leb_spec 0 e) as [L|L].
  - rewrite Z.max_l, Z.max_r by lia. rewrite Z.shiftl_mul_pow2 by lia.
    change (2 ^ 0) with 1. rewrite Z.quot_1_r.
    destruct s; [|reflexivity].
    change (Z.neg m) with (- Z.pos m). lia.
  - rewrite Z.max_r, Z.max_l by lia. rewrite Z.shiftr_div_pow2 by lia.
    change (2 ^ 0) with 1. rewrite Z.mul_1_r.
    assert (P : 0 < 2 ^ (- e)) by (apply Z.pow_pos_nonneg; lia).
    destruct s.
    + change (Z.neg m) with (- Z.pos m).
      rewrite Z.quot_opp_l by lia. rewrite Z.quot_div_nonneg by lia. reflexivity.
    + rewrite Z.quot_div_nonneg by lia. reflexivity.
Qed.

Lemma py_int_converts a z : py_int a = inr z <-> int_converts a z.
Proof.
  split.
  - destruct a as [|b|n|x|s]; cbn [py_int]; intros H.
    + discriminate.
    + injection H as <-. destruct b; constructor.
    + injection H as <-. constructor.
    + unfold int_of_float in H. destruct (Prim2SF x) as [sg|sg| |sg m e] eqn:P;
        try discriminate.
      * injection H as <-. now apply converts_zero with sg.
      * pose proof (int_of_float_finite x sg m e P) as I.
        unfold int_of_float in I. rewrite P in I. rewrite I in H.
        injection H as <-. now apply converts_finite.
    + destruct (int_of_str s) as [v|] eqn:I; [|discriminate].
      injection H as <-. constructor. now apply int_of_str_literal.
  - intros C. destruct C as [b|n|x sg P|x sg m e P|s v L]; cbn [py_int].
    + now destruct b.
    + reflexivity.
    + unfold int_of_float. now rewrite P.
    + now apply int_of_float_finite.
    + apply int_of_str_literal in L. now rewrite L.
Qed.

Lemma py_int_raises a e :
  py_int a = inl e <-> e = int_error a /\ forall z, ~ int_converts a z.
Proof.
  split.
  - intros H. split.
    + destruct a as [|b|n|x|s]; cbn [py_int int_error] in *; try congruence.
      * unfold int_of_float in H. destruct (Prim2SF x); congruence.
      * destruct (int_of_str s); congruence.
    + intros z C. apply py_int_converts in C. congruence.
  - intros [-> N]. destruct (py_int a) as [e|z] eqn:P.
    + f_equal. destruct a as [|b|n|x|s]; cbn [py_int int_error] in *; try congruence.
      * unfold int_of_float in P. destruct (Prim2SF x); congruence.
      * destruct (int_of_str s); congruence.
    + exfalso. apply (N z). now apply py_int_converts.
Qed.
End Integers.

(* --------------------------------------------------------------------- *)
(** ** The INSERT statements *)
(* --------------------------------------------------------------------- *)

Section Records.
Context {py : PyBuiltins}.
Variable cfg : config.

(** The value computed for a cell, written as lines 180-181 write it, is the
    cell's literal. *)
Lemma convert_value_literal f raw :
  sql_literal f raw =
  match convert_value (snd f) raw with
  | inl e => inl e
  | inr v => inr (value_literal v)
  end.
Proof.
  unfold sql_literal, convert_value, absent_as_empty.
  destruct (value_getitem (snd f) "type") as [e|ty]; simpl; [reflexivity|].
  destruct (value_eq_str ty "INTEGER"); [|reflexivity].
  destruct (py_int _) as [e|z]; reflexivity.
Qed.

Lemma row_values_literals fields column_index row_obj :
  row_literals fields column_index row_obj =
  match row_values fields column_index row_obj with
  | inl e => inl e
  | inr values => inr (map value_literal values)
  end.
Proof.
  revert column_index; induction fields as [|[name md] fields IH]; intros i.
  - reflexivity.
  - cbn [row_literals row_values]. rewrite convert_value_literal, IH. simpl.
    destruct (convert_value md _) as [e|v]; simpl; [reflexivity|].
    destruct (row_values fields (S i) row_obj) as [e|vs]; reflexivity.
Qed.

Lemma str_join_cons sep x l :
  str_join sep (x :: l) = x ++ str_concat (map (fun y => sep ++ y) l).
Proof.
  revert x; induction l as [|y l IH]; intros x.
  - simpl. now rewrite append_empty_r.
  - change (str_join sep (x :: y :: l)) with (x ++ sep ++ str_join sep (y :: l)).
    rewrite IH. cbn [map str_concat]. now rewrite append_assoc.
Qed.

Lemma add_values_later values column sql :
  add_values values (S column) sql =
  sql ++ str_concat (map (fun y => "," ++ y) (map value_literal values)).
Proof.
  revert column sql; induction values as [|v values IH]; intros column sql.
  - simpl. now rewrite append_empty_r.
  - cbn [add_values map str_concat]. rewrite IH.
    change (0 <? S column)%nat with true. cbv iota.
    now rewrite !append_assoc.
Qed.

(** Lines 178-181 write the literals with a comma between them. *)
Lemma add_values_join values sql :
  add_values values 0 sql = sql ++ str_join "," (map value_literal values).
Proof.
  destruct values as [|v values].
  - simpl. now rewrite append_empty_r.
  - cbn [add_values map]. rewrite add_values_later, str_join_cons.
    change (0 <? 0)%nat with false. cbv iota. now rewrite append_assoc.
Qed.

(** A row with a truthy cell gets its INSERT statement, unless one of its
    cells cannot be converted. *)
Lemma insert_records_retained t fields row_obj data sql :
  existsb (fun c => truthy (value c)) row_obj = true ->
  outcome (insert_records cfg t fields (row_obj :: data) sql) =
  match row_literals fields 0 row_obj with
  | inl e => inl e
  | inr literals =>
      outcome (insert_records cfg t fields data (sql ++ insert_statement t literals))
  end.
Proof.
  intros T. rewrite insert_records_cons, T. cbn [negb].
  rewrite outcome_bind, outcome_lift, row_values_literals.
  destruct (row_values fields 0 row_obj) as [e|values]; [reflexivity|].
  rewrite outcome_bind, outcome_log_record, add_values_join.
  unfold insert_statement. now rewrite !append_assoc.
Qed.

Lemma is_blank_falsy c : is_blank c = true -> truthy (value c) = false.
Proof.
  unfold is_blank. destruct (value c) as [| | | |s]; try discriminate; [reflexivity|].
  simpl. intros ->. reflexivity.
Qed.

(** A row of blank cells is passed over. *)
Lemma insert_records_blank t fields row_obj data sql :
  forallb is_blank row_obj = true ->
  insert_records cfg t fields (row_obj :: data) sql
  = insert_records cfg t fields data sql.
Proof.
  intros B. rewrite insert_records_cons.
  assert (E : existsb (fun c => truthy (value c)) row_obj = false).
  { induction row_obj as [|c row_obj IH]; [reflexivity|].
    simpl in B |- *. apply andb_prop in B as [Bc B].
    rewrite (is_blank_falsy c Bc), (IH B). reflexivity. }
  rewrite E. reflexivity.
Qed.

(** C3.  A retained row - one with a truthy cell - adds to the script the
    INSERT statement of its literals, joined by commas without a space,
    unless the conversion of one of its cells raises, and then the run ends
    with that exception.  The literal of a cell under a field whose declared
    type is exactly "INTEGER" is the decimal text of [int(value)], and the
    exception [int] raises when there is none: there is a literal exactly
    for a [bool], an [int], a finite [float] and a text that is a number
    (white space, an optional sign, digits), and otherwise the conversion
    raises ValueError, or OverflowError on an infinite [float].  Under any
    other declared type the literal is [str(value)] between single quotes,
    as it is.  So "42" under INTEGER gives 42 and True under another type
    gives 'True'. *)
Theorem record_literals t fields row_obj data sql :
  existsb (fun c => truthy (value c)) row_obj = true ->
  outcome (insert_records cfg t fields (row_obj :: data) sql)
  = match row_literals fields 0 row_obj with
    | inl e => inl e
    | inr literals =>
        outcome (insert_records cfg t fields data
                   (sql ++ "INSERT INTO " ++ dq ++ t ++ dq ++ " VALUES("
                        ++ str_join "," literals ++ ");" ++ nl))
    end
  /\ (forall f raw,
         value_getitem (snd f) "type" = inr (VStr "INTEGER") ->
         sql_literal f raw
         = match py_int (absent_as_empty raw) with
           | inl e => inl e
           | inr z => inr (str_of_Z z)
           end)
  /\ (forall f raw type,
         value_getitem (snd f) "type" = inr type -> type <> VStr "INTEGER" ->
         sql_literal f raw = inr ("'" ++ py_str (absent_as_empty raw) ++ "'"))
  /\ (forall f, value_getitem (snd f) "type" = inr (VStr "INTEGER") ->
                sql_literal f (PStr "42") = inr "42")
  /\ (forall f type,
         value_getitem (snd f) "type" = inr type -> type <> VStr "INTEGER" ->
         sql_literal f (PBool true) = inr "'True'")
  /\ (forall f raw,
         value_getitem (snd f) "type" = inr (VStr "INTEGER") ->
         (forall literal,
             sql_literal f raw = inr literal <->
             exists z, int_converts (absent_as_empty raw) z /\ literal = str_of_Z z)
         /\ (forall e,
                sql_literal f raw = inl e <->
                e = int_error (absent_as_empty raw) /\
                forall z, ~ int_converts (absent_as_empty raw) z)
         /\ (forall e,
                sql_literal f raw = inl e -> e = ValueError \/ e = OverflowError)).
Proof.
  intros T.
  assert (I : forall f raw,
             value_getitem (snd f) "type" = inr (VStr "INTEGER") ->
             sql_literal f raw
             = match py_int (absent_as_empty raw) with
               | inl e => inl e
               | inr z => inr (str_of_Z z)
               end).
  { intros f raw H. unfold sql_literal. rewrite H. simpl.
    destruct (py_int _); reflexivity. }
  assert (O : forall f raw type,
             value_getitem (snd f) "type" = inr type -> type <> VStr "INTEGER" ->
             sql_literal f raw = inr ("'" ++ py_str (absent_as_empty raw) ++ "'")).
  { intros f raw type H N. unfold sql_literal. rewrite H. simpl.
    destruct (value_eq_str type "INTEGER") eqn:E; [|reflexivity].
    exfalso; apply N. destruct type as [[| | | |s]| |]; try discriminate.
    simpl in E. apply String.eqb_eq in E. now subst. }
  split; [exact (insert_records_retained t fields row_obj data sql T)|].
  split; [exact I|]. split; [exact O|].
  split; [|split].
  - intros f H. rewrite (I f _ H). reflexivity.
  - intros f type H N. rewrite (O f _ type H N). reflexivity.
  - intros f raw H. rewrite (I f raw H).
    assert (R : forall e,
               match py_int (absent_as_empty raw) with
               | inl e' => inl e'
               | inr z => inr (str_of_Z z)
               end = inl e <->
               e = int_error (absent_as_empty raw) /\
               forall z, ~ int_converts (absent_as_empty raw) z).
    { intros e. rewrite <- py_int_raises.
      destruct (py_int _); split; congruence. }
    split; [|split].
    + intros literal. split.
      * destruct (py_int _) as [e|z] eqn:P; [discriminate|].
        intros [= <-]. exists z. split; [now apply py_int_converts | reflexivity].
      * intros (z & C & ->). apply py_int_converts in C. now rewrite C.
    + exact R.
    + intros e E. apply R in E as [-> _].
      destruct raw as [|b|n|x|text]; cbn [absent_as_empty int_error]; auto.
      destruct (Prim2SF x); auto.
Qed.
End Records.

Lemma record_literals_witness :
  outcome (insert_records (py := Sample.builtins) Sample.defaults "Account"
             Sample.account_fields [[Sample.plain (PInt 1); Sample.plain (PStr "Acme")]]
             "")
  = inr ("INSERT INTO " ++ dq ++ "Account" ++ dq ++ " VALUES(1,'Acme');" ++ nl).
Proof.
  rewrite (proj1 (record_literals (py := Sample.builtins) Sample.defaults "Account"
                    Sample.account_fields
                    [Sample.plain (PInt 1); Sample.plain (PStr "Acme")] [] ""
                    eq_refl)).
  reflexivity.
Defined.

Section EmptyRows.
Context {py : PyBuiltins}.
Variable cfg : config.

(** C4 (amended).  A data row all of whose cells - in every column of the
    worksheet - are absent or hold the empty string is passed over: the run
    goes on as if the row were not there.  A row with a truthy cell in any
    column is retained: it adds its INSERT statement, unless the conversion
    of one of its cells raises.  In a retained row an absent cell counts as
    the empty string: under a declared type other than "INTEGER" its literal
    is [''], under "INTEGER" its conversion raises ValueError. *)
Theorem empty_rows t fields row_obj data sql :
  (forallb is_blank row_obj = true ->
   insert_records cfg t fields (row_obj :: data) sql
   = insert_records cfg t fields data sql)
  /\
  (existsb (fun c => truthy (value c)) row_obj = true ->
   outcome (insert_records cfg t fields (row_obj :: data) sql)
   = match row_literals fields 0 row_obj with
     | inl e => inl e
     | inr literals =>
         outcome (insert_records cfg t fields data
                    (sql ++ insert_statement t literals))
     end)
  /\
  (forall f type,
      value_getitem (snd f) "type" = inr type ->
      sql_literal f PNone
      = if value_eq_str type "INTEGER" then inl ValueError else inr "''").
Proof.
  split; [apply insert_records_blank|].
  split; [apply insert_records_retained|].
  intros f type H. unfold sql_literal. rewrite H. simpl.
  destruct (value_eq_str type "INTEGER"); reflexivity.
Qed.
End EmptyRows.

Lemma empty_rows_witness :
  insert_records (py := Sample.builtins) Sample.defaults "Account"
    Sample.names_fields [Sample.blank_row; Sample.names_row] ""
  = insert_records (py := Sample.builtins) Sample.defaults "Account"
      Sample.names_fields [Sample.names_row] ""
  /\ outcome (insert_records (py := Sample.builtins) Sample.defaults "Account"
                Sample.names_fields [Sample.names_row] "")
     = inr ("INSERT INTO " ++ dq ++ "Account" ++ dq ++ " VALUES(7,'');" ++ nl)
  /\ sql_literal (py := Sample.builtins) (PStr "Age", Sample.int_metadata) PNone
     = inl ValueError.
Proof.
  split; [|split].
  - apply (proj1 (empty_rows (py := Sample.builtins) Sample.defaults "Account"
                    Sample.names_fields Sample.blank_row [Sample.names_row] "")).
    reflexivity.
  - rewrite (proj1 (proj2 (empty_rows (py := Sample.builtins) Sample.defaults
                             "Account" Sample.names_fields Sample.names_row [] "")))
      by reflexivity.
    reflexivity.
  - apply (proj2 (proj2 (empty_rows (py := Sample.builtins) Sample.defaults "Account"
                           Sample.names_fields Sample.names_row [] ""))
             (PStr "Age", Sample.int_metadata) (VStr "INTEGER")).
    reflexivity.
Defined.

(** C4 as stated fails twice.  A row with a non-empty cell and an absent
    cell under an INTEGER column is not included with an empty-string
    literal: the run ends with ValueError.  And a row all of whose cells in
    the table's columns are absent is not skipped when a cell further right
    holds something: it is inserted. *)
Lemma empty_rows_counterexample :
  (value (nth 0 Sample.ages_row empty_cell) = PInt 1
   /\ value (nth 1 Sample.ages_row empty_cell) = PNone
   /\ outcome (insert_records (py := Sample.builtins) Sample.defaults "Ages"
                 Sample.ages_fields [Sample.ages_row] "")
      = inl ValueError)
  /\
  (value (nth 0 Sample.stray_row empty_cell) = PNone
   /\ value (nth 1 Sample.stray_row empty_cell) = PNone
   /\ List.length Sample.text_fields = 2%nat
   /\ outcome (insert_records (py := Sample.builtins) Sample.defaults "Codes"
                 Sample.text_fields [Sample.stray_row] "")
      = inr ("INSERT INTO " ++ dq ++ "Codes" ++ dq ++ " VALUES('','');" ++ nl)).
Proof. repeat split; vm_compute; reflexivity. Qed.

(* --------------------------------------------------------------------- *)
(** ** Numbers under INTEGER *)
(* --------------------------------------------------------------------- *)

Section IntegerCoercion.
Context {py : PyBuiltins}.

End IntegerCoercion.


(* --------------------------------------------------------------------- *)
(** ** Dictionaries *)
(* --------------------------------------------------------------------- *)

Section DictFacts.
Context {V : Type}.
Implicit Types (d : dict V) (k : string) (v : V).

Lemma dict_get_set_same k v d : dict_get k (dict_set k v d) = Some v.
Proof.
  induction d as [|[k' v'] d IH]; simpl.
  - now rewrite String.eqb_refl.
  - destruct (String.eqb k k') eqn:E; simpl; rewrite E; [reflexivity | exact IH].
Qed.

Lemma dict_get_set_other k k' v d :
  k <> k' -> dict_get k' (dict_set k v d) = dict_get k' d.
Proof.
  intros N. induction d as [|[k1 v1] d IH]; simpl.
  - apply String.eqb_neq in N. now rewrite String.eqb_sym, N.
  - destruct (String.eqb k k1) eqn:E; simpl.
    + apply String.eqb_eq in E; subst k1.
      destruct (String.eqb k' k) eqn:E'; [|reflexivity].
      apply String.eqb_eq in E'. congruence.
    + now rewrite IH.
Qed.

Lemma dict_set_set k v v' d : dict_set k v (dict_set k v' d) = dict_set k v d.
Proof.
  induction d as [|[k1 v1] d IH]; simpl.
  - now rewrite String.eqb_refl.
  - destruct (String.eqb k k1) eqn:E; simpl; rewrite E; [reflexivity | now rewrite IH].
Qed.

Lemma dict_keys_set k v d :
  dict_get k d <> None -> dict_keys (dict_set k v d) = dict_keys d.
Proof.
  unfold dict_keys.
  induction d as [|[k1 v1] d IH]; simpl; [congruence|].
  destruct (String.eqb k k1) eqn:E; simpl; [reflexivity|].
  intros H. now rewrite IH.
Qed.

Lemma dict_get_keys k d : In k (dict_keys d) <-> dict_get k d <> None.
Proof.
  induction d as [|[k1 v1] d IH]; simpl; [tauto|].
  destruct (String.eqb_spec k k1) as [->|N].
  - split; [congruence | auto].
  - rewrite <- IH. split; [intros [E|I]; [congruence | exact I] | auto].
Qed.

End DictFacts.

Lemma dict_keys_flags (keys : list string) :
  dict_keys (map (fun block_name => (block_name, false)) keys) = keys.
Proof. unfold dict_keys. rewrite map_map. simpl. apply map_id. Qed.

Lemma block_key_inj a b : block_key a = block_key b -> a = b.
Proof. apply append_inv_l. Qed.

(* --------------------------------------------------------------------- *)
(** ** The new mapping document *)
(* --------------------------------------------------------------------- *)

Section Mapping.
Context {py : PyBuiltins}.
Variable cfg : config.

(** What [build_mapping] leaves, case by case. *)
Lemma build_mapping_outcome twm t mf st :
  outcome (build_mapping cfg twm t mf st) =
  match dict_get (block_key t) (mapping_original st) with
  | Some entry =>
      match value_setitem entry "fields" (fields_value mf) with
      | inl e => inl e
      | inr entry' =>
          inr {| sql_script := sql_script st;
                 mapping_original := dict_set (block_key t) entry' (mapping_original st);
                 table_mappings_preserved :=
                   dict_set (block_key t) true (table_mappings_preserved st);
                 mapping_new := dict_set (block_key t) entry' (mapping_new st) |}
      end
  | None =>
      match value_contains twm t with
      | inl e => inl e
      | inr true => inr st
      | inr false =>
          inr {| sql_script := sql_script st;
                 mapping_original := mapping_original st;
                 table_mappings_preserved := table_mappings_preserved st;
                 mapping_new := dict_set (block_key t) (default_entry t mf)
                                         (mapping_new st) |}
      end
  end.
Proof.
  unfold build_mapping, block_key, fields_value, default_entry.
  destruct (dict_get _ _) as [entry|].
  - rewrite outcome_bind, outcome_lift.
    destruct (value_setitem _ _ _); reflexivity.
  - rewrite outcome_bind, outcome_lift.
    destruct (value_contains _ _) as [e|[]]; try reflexivity.
    rewrite outcome_bind, outcome_log_warning. reflexivity.
Qed.

(** A worksheet touches its own block only. *)
Lemma build_mapping_frame twm t mf st st' k :
  outcome (build_mapping cfg twm t mf st) = inr st' ->
  k <> block_key t ->
  dict_get k (mapping_new st') = dict_get k (mapping_new st) /\
  dict_get k (mapping_original st') = dict_get k (mapping_original st) /\
  dict_get k (table_mappings_preserved st') = dict_get k (table_mappings_preserved st).
Proof.
  rewrite build_mapping_outcome. intros H N.
  destruct (dict_get (block_key t) (mapping_original st)) as [entry|].
  - destruct (value_setitem _ _ _) as [e|entry']; [discriminate|].
    injection H as <-. simpl.
    rewrite !dict_get_set_other by congruence. auto.
  - destruct (value_contains _ _) as [e|[]]; [discriminate| |]; injection H as <-; simpl.
    + auto.
    + rewrite dict_get_set_other by congruence. auto.
Qed.

Lemma process_sheet_frame twm sheet st st' k :
  outcome (process_sheet cfg twm sheet st) = inr st' ->
  k <> block_key (title sheet) ->
  dict_get k (mapping_new st') = dict_get k (mapping_new st) /\
  dict_get k (mapping_original st') = dict_get k (mapping_original st) /\
  dict_get k (table_mappings_preserved st') = dict_get k (table_mappings_preserved st).
Proof.
  intros H N.
  apply process_sheet_ok in H as (fields & final & mf & sql & sql' & _ & _ & _ & B).
  apply (build_mapping_frame _ _ _ _ _ k B N).
Qed.

Lemma process_sheets_frame twm sheets st st' k :
  outcome (process_sheets cfg twm sheets st) = inr st' ->
  (forall sheet, In sheet sheets -> block_key (title sheet) <> k) ->
  dict_get k (mapping_new st') = dict_get k (mapping_new st) /\
  dict_get k (mapping_original st') = dict_get k (mapping_original st) /\
  dict_get k (table_mappings_preserved st') = dict_get k (table_mappings_preserved st).
Proof.
  revert st; induction sheets as [|sheet sheets IH]; intros st H N.
  - simpl in H. injection H as <-. auto.
  - apply process_sheets_ok_cons in H as (st1 & H1 & H2).
    destruct (IH st1 H2) as (A & B & C); [intros s I; apply N; now right|].
    destruct (process_sheet_frame twm sheet st st1 k H1) as (A1 & B1 & C1).
    { intros E. apply (N sheet); [now left | now symmetry]. }
    rewrite A, B, C. auto.
Qed.

(** The flags stay with the keys of the original document. *)
Lemma build_mapping_keys twm t mf st st' :
  outcome (build_mapping cfg twm t mf st) = inr st' ->
  keys_agree st -> keys_agree st'.
Proof.
  rewrite build_mapping_outcome. unfold keys_agree. intros H K.
  destruct (dict_get (block_key t) (mapping_original st)) as [entry|] eqn:G.
  - destruct (value_setitem _ _ _) as [e|entry']; [discriminate|].
    injection H as <-. simpl.
    assert (I : In (block_key t) (dict_keys (mapping_original st)))
      by (apply dict_get_keys; congruence).
    rewrite !dict_keys_set; [exact K | congruence |].
    apply dict_get_keys. now rewrite K.
  - destruct (value_contains _ _) as [e|[]]; [discriminate| |]; injection H as <-;
      exact K.
Qed.

Lemma process_sheets_keys twm sheets st st' :
  outcome (process_sheets cfg twm sheets st) = inr st' ->
  keys_agree st -> keys_agree st'.
Proof.
  revert st; induction sheets as [|sheet sheets IH]; intros st H K.
  - simpl in H. now injection H as <-.
  - apply process_sheets_ok_cons in H as (st1 & H1 & H2).
    apply (IH st1 H2).
    apply process_sheet_ok in H1 as (fields & final & mf & sql & sql' & _ & _ & _ & B).
    apply (build_mapping_keys _ _ _ _ _ B). exact K.
Qed.

Lemma keys_agree_initial mapping : keys_agree (initial_state mapping).
Proof. unfold keys_agree, initial_state; simpl. apply dict_keys_flags. Qed.

(** With the flags in place the closing loop never raises. *)
Lemma warn_unused_succeeds st keys :
  (forall k, In k keys -> dict_get k (table_mappings_preserved st) <> None /\
                          dict_get k (mapping_original st) <> None) ->
  outcome (warn_unused cfg st keys) = inr tt.
Proof.
  induction keys as [|k keys IH]; intros H; [reflexivity|].
  rewrite warn_unused_cons.
  destruct (H k (or_introl eq_refl)) as [P O].
  destruct (dict_get k (table_mappings_preserved st)) as [b|]; [|congruence].
  destruct (dict_get k (mapping_original st)) as [entry|]; [|congruence].
  rewrite outcome_bind. cbn [outcome ret snd].
  destruct b; cbn [negb].
  - rewrite outcome_bind. cbn [outcome ret snd].
    apply IH. intros k' I. apply H. now right.
  - rewrite !outcome_bind. cbn [outcome ret snd]. rewrite outcome_log_warning.
    apply IH. intros k' I. apply H. now right.
Qed.

Lemma warn_unused_agree st :
  keys_agree st ->
  outcome (warn_unused cfg st (dict_keys (mapping_original st))) = inr tt.
Proof.
  intros K. apply warn_unused_succeeds. intros k I. split.
  - apply dict_get_keys. now rewrite K.
  - now apply dict_get_keys.
Qed.

(** The run's outcome, given what it loaded. *)
Lemma convert_outcome wb twm mapping :
  outcome (load_mapping wb) = inr (twm, mapping) ->
  outcome (convert cfg wb) =
  match outcome (process_sheets cfg twm (worksheets wb) (initial_state mapping)) with
  | inl e => inl e
  | inr st => inr (sql_script st ++ "COMMIT;" ++ nl, mapping_new st)
  end.
Proof.
  intros L. unfold convert. rewrite outcome_bind, L, outcome_bind.
  destruct (outcome (process_sheets _ _ _ _)) as [e|st] eqn:P; [reflexivity|].
  rewrite outcome_bind, warn_unused_agree; [reflexivity|].
  apply (process_sheets_keys _ _ _ _ P), keys_agree_initial.
Qed.
End Mapping.

(* --------------------------------------------------------------------- *)
(** ** Entries no worksheet used *)
(* --------------------------------------------------------------------- *)

Section Unused.
Context {py : PyBuiltins}.
Variable cfg : config.

Lemma events_bind_later {A B} (m : M A) (k : A -> M B) a ev :
  outcome m = inr a -> In ev (events (k a)) -> In ev (events (bind m k)).
Proof.
  intros O I. rewrite events_bind, O. apply in_or_app. now right.
Qed.

Lemma events_bind_earlier {A B} (m : M A) (k : A -> M B) ev :
  In ev (events m) -> In ev (events (bind m k)).
Proof.
  intros I. rewrite events_bind.
  destruct (outcome m); [exact I | apply in_or_app; now left].
Qed.



End Unused.


(* --------------------------------------------------------------------- *)
(** ** Entries carried over *)
(* --------------------------------------------------------------------- *)

Section Carried.
Context {py : PyBuiltins}.
Variable cfg : config.

Lemma process_sheets_app twm before after st st' :
  outcome (process_sheets cfg twm (before ++ after)%list st) = inr st' ->
  exists st1, outcome (process_sheets cfg twm before st) = inr st1 /\
              outcome (process_sheets cfg twm after st1) = inr st'.
Proof.
  revert st; induction before as [|sheet before IH]; intros st H.
  - exists st. auto.
  - apply process_sheets_ok_cons in H as (st0 & H0 & H1).
    apply IH in H1 as (st1 & H1 & H2).
    exists st1. split; [|exact H2].
    rewrite process_sheets_cons, outcome_bind, H0. exact H1.
Qed.

(** Worksheets with other titles have other blocks. *)
Lemma other_titles_other_blocks (sheets : list worksheet) t :
  ~ In t (map title sheets) ->
  forall sheet, In sheet sheets -> block_key (title sheet) <> block_key t.
Proof.
  intros N sheet I E. apply block_key_inj in E. apply N.
  rewrite <- E. now apply in_map.
Qed.

(** What a worksheet leaves under its own block when the original document
    has an entry for it. *)
Lemma process_sheet_carries twm sheet st st' entry fields final :
  outcome (process_sheet cfg twm sheet st) = inr st' ->
  dict_get (block_key (title sheet)) (mapping_original st) = Some entry ->
  outcome (collect_fields cfg (header_row sheet)) = inr (fields, final) ->
  pk_name_is_its_own fields = true ->
  exists attributes,
    entry = PDict attributes /\
    dict_get (block_key (title sheet)) (mapping_new st')
    = Some (PDict (dict_set "fields" (fields_value (non_pk_names fields)) attributes)).
Proof.
  intros H G C N.
  apply process_sheet_ok in H as (fields' & final' & mf & sql & sql' & C' & T & _ & B).
  rewrite C in C'. injection C' as <- <-.
  destruct (create_table_ddl _ _ _ _ _ T N) as [_ ->].
  rewrite build_mapping_outcome in B. simpl in B. rewrite G in B.
  destruct entry as [a|l|attributes]; try discriminate.
  simpl in B. injection B as <-. simpl.
  exists attributes. split; [reflexivity | apply dict_get_set_same].
Qed.

(** X15.  After a successful run over
    worksheets of distinct titles: for a worksheet whose block key is in the
    original document, and in which, from the primary-key field on, no other
    field's name equals the primary key's name, the original entry is an
    object, and the new document holds under the same block key that object
    with ["fields"] set to the names of the fields that are not the primary
    key, in header order; every other attribute is as it was. *)
Theorem mapping_entry_carried wb sql document twm mapping sheet entry fields final :
  outcome (convert cfg wb) = inr (sql, document) ->
  outcome (load_mapping wb) = inr (twm, mapping) ->
  NoDup (map title (worksheets wb)) ->
  In sheet (worksheets wb) ->
  dict_get (block_key (title sheet)) mapping = Some entry ->
  outcome (collect_fields cfg (header_row sheet)) = inr (fields, final) ->
  pk_name_is_its_own fields = true ->
  exists attributes carried,
    entry = PDict attributes /\
    dict_get (block_key (title sheet)) document = Some (PDict carried) /\
    dict_get "fields" carried = Some (fields_value (non_pk_names fields)) /\
    (forall k, k <> "fields" -> dict_get k carried = dict_get k attributes) /\
    carried = dict_set "fields" (fields_value (non_pk_names fields)) attributes.
Proof.
  intros H L D I G C N.
  apply convert_ok in H as (twm' & mapping' & st & L' & P & _ & _ & ->).
  rewrite L in L'. injection L' as <- <-.
  apply in_split in I as (before & after & E). rewrite E in P, D.
  rewrite map_app in D. simpl in D.
  apply NoDup_remove_2 in D.
  apply process_sheets_app in P as (st1 & P1 & P2).
  apply process_sheets_ok_cons in P2 as (st2 & P2 & P3).
  destruct (process_sheets_frame cfg twm before _ _ (block_key (title sheet)) P1)
    as (_ & Fo & _).
  { apply other_titles_other_blocks. intros X. apply D, in_or_app. now left. }
  simpl in Fo. rewrite G in Fo.
  destruct (process_sheet_carries twm sheet st1 st2 entry fields final P2 Fo C N)
    as (attributes & -> & S).
  destruct (process_sheets_frame cfg twm after _ _ (block_key (title sheet)) P3)
    as (Fn & _ & _).
  { apply other_titles_other_blocks. intros X. apply D, in_or_app. now right. }
  exists attributes, (dict_set "fields" (fields_value (non_pk_names fields)) attributes).
  split; [reflexivity|]. split; [now rewrite Fn|].
  split; [apply dict_get_set_same|].
  split; [|reflexivity].
  intros k K. apply dict_get_set_other. congruence.
Qed.
End Carried.

Lemma mapping_entry_carried_witness :
  exists attributes carried,
    Sample.account_entry = PDict attributes /\
    dict_get (block_key "Account") Sample.reconciled_mapping = Some (PDict carried) /\
    dict_get "fields" carried = Some (fields_value [PStr "Name"]) /\
    (forall k, k <> "fields" -> dict_get k carried = dict_get k attributes) /\
    carried = dict_set "fields" (fields_value [PStr "Name"]) attributes.
Proof.
  apply (mapping_entry_carried (py := Sample.builtins) Sample.defaults
           Sample.account_workbook
           ("BEGIN TRANSACTION;" ++ nl ++ table_ddl (py := Sample.builtins) "Account"
              Sample.account_fields
            ++ "INSERT INTO " ++ dq ++ "Account" ++ dq ++ " VALUES(1,'Acme');" ++ nl
            ++ "COMMIT;" ++ nl)
           Sample.reconciled_mapping (PList []) Sample.original_mapping
           Sample.account Sample.account_entry Sample.account_fields PNone).
  - vm_compute. reflexivity.
  - vm_compute. reflexivity.
  - repeat constructor. intros [].
  - now left.
  - reflexivity.
  - reflexivity.
  - reflexivity.
Defined.

(** C5.  On the header Id (primary key, INTEGER), Id (no comment) the run
    succeeds, the entry of Account is carried over, and its [fields] is the
    empty list although the table has a field, the second Id, that is not
    its primary key.  The same name met before the primary key is listed:
    with the two columns the other way round [fields] holds it.  Line 136
    tells the primary key by its name, and so leaves every later field of
    that name out of [mapping_fields]. *)
Theorem repeated_key_name_is_left_out_of_fields :
  outcome (collect_fields (py := Sample.builtins) Sample.defaults
             (header_row Sample.twice_id))
  = inr (Sample.twice_id_fields, PNone)
  /\ map pk_flag Sample.twice_id_fields = [true; false]
  /\ non_pk_names Sample.twice_id_fields = [PStr "Id"]
  /\ option_map snd
       (match outcome (convert (py := Sample.builtins) Sample.defaults
                         Sample.twice_id_workbook) with
        | inr r => Some r
        | inl _ => None
        end)
     = Some [("Insert Account",
              PDict [("sf_object", VStr "Account"); ("table", VStr "Account");
                     ("fields", PList [])])]
  /\ option_map snd
       (match outcome (convert (py := Sample.builtins) Sample.defaults
                         Sample.id_twice_workbook) with
        | inr r => Some r
        | inl _ => None
        end)
     = Some [("Insert Account",
              PDict [("sf_object", VStr "Account"); ("table", VStr "Account");
                     ("fields", PList [VStr "Id"])])].
Proof. repeat split; vm_compute; reflexivity. Qed.

(* --------------------------------------------------------------------- *)
(** ** Running again on the document of a first run *)
(* --------------------------------------------------------------------- *)

Section Again.
Context {py : PyBuiltins}.
Variable cfg : config.

Lemma value_setitem_twice entry k x entry' :
  value_setitem entry k x = inr entry' -> value_setitem entry' k x = inr entry'.
Proof.
  destruct entry as [a|l|d]; try discriminate.
  simpl. intros H; injection H as <-. simpl. now rewrite dict_set_set.
Qed.

Lemma value_setitem_default t mf :
  value_setitem (default_entry t mf) "fields" (fields_value mf)
  = inr (default_entry t mf).
Proof. reflexivity. Qed.

(** The second run follows the first, worksheet by worksheet.  [st1] and
    [st2] are the states of the two runs before the worksheets [sheets];
    the second run's original document holds, for each of these worksheets,
    what the first run ends up with under the worksheet's block. *)
Lemma process_sheets_again twm sheets st1 st1' st2 :
  outcome (process_sheets cfg twm sheets st1) = inr st1' ->
  NoDup (map title sheets) ->
  sql_script st2 = sql_script st1 ->
  mapping_new st2 = mapping_new st1 ->
  (forall sheet, In sheet sheets ->
     dict_get (block_key (title sheet)) (mapping_original st2)
     = dict_get (block_key (title sheet)) (mapping_new st1')) ->
  (forall sheet, In sheet sheets ->
     dict_get (block_key (title sheet)) (mapping_new st1) = None) ->
  exists st2',
    outcome (process_sheets cfg twm sheets st2) = inr st2' /\
    sql_script st2' = sql_script st1' /\
    mapping_new st2' = mapping_new st1'.
Proof.
  revert st1 st2; induction sheets as [|sheet sheets IH];
    intros st1 st2 P D Es En Ho Hn.
  - simpl in P. injection P as <-. exists st2. auto.
  - apply process_sheets_ok_cons in P as (st1a & P1 & P2).
    inversion D as [|? ? Dh Dt]; subst.
    pose proof (other_titles_other_blocks sheets (title sheet) Dh) as Other.
    (* what the first run ends up with under this worksheet's block *)
    destruct (process_sheets_frame cfg twm sheets _ _ (block_key (title sheet)) P2 Other)
      as (Fn & _ & _).
    pose proof (Ho sheet (or_introl eq_refl)) as Ho1. rewrite Fn in Ho1.
    pose proof (Hn sheet (or_introl eq_refl)) as Hn1.
    (* the first run on this worksheet *)
    pose proof P1 as Q.
    apply process_sheet_ok in Q as (fields & final & mf & sql & sql' & C & T & I & B).
    rewrite build_mapping_outcome in B. simpl in B.
    (* the second run on this worksheet *)
    assert (S : exists st2a,
               outcome (process_sheet cfg twm sheet st2) = inr st2a /\
               sql_script st2a = sql_script st1a /\
               mapping_new st2a = mapping_new st1a /\
               forall k, k <> block_key (title sheet) ->
                         dict_get k (mapping_original st2a)
                         = dict_get k (mapping_original st2)).
    { rewrite (process_sheet_outcome cfg twm sheet st2 fields final C), Es, T, I.
      rewrite build_mapping_outcome. simpl.
      destruct (dict_get (block_key (title sheet)) (mapping_original st1))
        as [entry|] eqn:G.
      - destruct (value_setitem entry "fields" (fields_value mf)) as [e|entry'] eqn:V;
          [discriminate|].
        injection B as <-. simpl in Ho1. rewrite dict_get_set_same in Ho1.
        rewrite Ho1, (value_setitem_twice _ _ _ _ V).
        eexists. split; [reflexivity|]. simpl. rewrite En.
        repeat split. intros k K. apply dict_get_set_other. congruence.
      - destruct (value_contains twm (title sheet)) as [e|[]] eqn:V; [discriminate| |].
        + injection B as <-. simpl in Ho1. rewrite Hn1 in Ho1. rewrite Ho1.
          eexists. split; [reflexivity|]. simpl. auto.
        + injection B as <-. simpl in Ho1. rewrite dict_get_set_same in Ho1.
          rewrite Ho1, value_setitem_default.
          eexists. split; [reflexivity|]. simpl. rewrite En.
          repeat split. intros k K. apply dict_get_set_other. congruence. }
    destruct S as (st2a & S & Es' & En' & Fo).
    destruct (IH st1a st2a P2 Dt Es' En') as (st2' & R & Rs & Rn).
    + intros s Is. rewrite Fo; [apply Ho; now right|].
      apply (Other s Is).
    + intros s Is.
      destruct (process_sheet_frame cfg twm sheet st1 st1a (block_key (title s)) P1)
        as (Gn & _ & _); [apply (Other s Is)|].
      rewrite Gn. apply Hn. now right.
    + exists st2'. split; [|auto].
      rewrite process_sheets_cons, outcome_bind, S. exact R.
Qed.

(** C6 (amended).  After a successful run over worksheets of distinct
    titles, a second run on the same worksheets whose description gives back
    the first run's new document together with the first run's list of
    tables without mapping data - the list the first run did not write -
    succeeds with the same script and the same new document. *)
Theorem rerun_gives_same_document wb wb' sql document twm mapping :
  outcome (convert cfg wb) = inr (sql, document) ->
  outcome (load_mapping wb) = inr (twm, mapping) ->
  NoDup (map title (worksheets wb)) ->
  worksheets wb' = worksheets wb ->
  outcome (load_mapping wb') = inr (twm, document) ->
  outcome (convert cfg wb') = inr (sql, document).
Proof.
  intros H L D W L'.
  apply convert_ok in H as (twm0 & mapping0 & st & L0 & P & _ & -> & ->).
  rewrite L in L0. injection L0 as <- <-.
  destruct (process_sheets_again twm (worksheets wb) (initial_state mapping) st
              (initial_state (mapping_new st)) P D)
    as (st2 & R & Rs & Rn); try reflexivity.
  rewrite (convert_outcome cfg wb' twm (mapping_new st) L'), W, R, Rs, Rn.
  reflexivity.
Qed.
End Again.

Lemma rerun_gives_same_document_witness :
  exists sql,
    outcome (convert (py := Sample.builtins) Sample.defaults Sample.account_workbook)
    = inr (sql, Sample.reconciled_mapping)
    /\ outcome (convert (py := Sample.builtins) Sample.defaults
                  Sample.account_again_with_list)
       = inr (sql, Sample.reconciled_mapping).
Proof.
  eexists. split.
  - vm_compute. reflexivity.
  - apply (rerun_gives_same_document (py := Sample.builtins) Sample.defaults
             Sample.account_workbook Sample.account_again_with_list _ _
             (PList []) Sample.original_mapping).
    + vm_compute. reflexivity.
    + vm_compute. reflexivity.
    + repeat constructor. intros [].
    + reflexivity.
    + vm_compute. reflexivity.
Defined.

(** C6 as stated fails: the document a run writes has no list of tables
    without mapping data, so a second run given that document as its
    description stops with the XLSXParseError of line 72. *)
Lemma rerun_gives_same_document_counterexample :
  option_map snd
    (match outcome (convert (py := Sample.builtins) Sample.defaults
                      Sample.account_workbook) with
     | inr r => Some r
     | inl _ => None
     end)
  = Some Sample.reconciled_mapping
  /\ json_loads (PyBuiltins := Sample.builtins) Sample.reconciled_text
     = Some (PDict Sample.reconciled_mapping)
  /\ description Sample.account_again = Some Sample.reconciled_text
  /\ worksheets Sample.account_again = worksheets Sample.account_workbook
  /\ outcome (convert (py := Sample.builtins) Sample.defaults Sample.account_again)
     = inl (XLSXParseError
              "Mapping data does not contain list of tables without mapping data (this list must be present even if empty)").
Proof. repeat split; vm_compute; reflexivity. Qed.

(* --------------------------------------------------------------------- *)
(** ** Loading the original document *)
(* --------------------------------------------------------------------- *)

Section Loading.
Context {py : PyBuiltins}.
Variable cfg : config.

Lemma dict_get_remove_other {V} (d : dict V) k k' :
  k <> k' -> dict_get k' (dict_remove k d) = dict_get k' d.
Proof.
  intros N. induction d as [|[k1 v1] d IH]; simpl; [reflexivity|].
  destruct (String.eqb_spec k k1) as [->|N1]; simpl.
  - destruct (String.eqb_spec k' k1); [congruence | reflexivity].
  - now rewrite IH.
Qed.

Lemma dict_get_remove_same {V} (d : dict V) k :
  NoDup (dict_keys d) -> dict_get k (dict_remove k d) = None.
Proof.
  unfold dict_keys. induction d as [|[k1 v1] d IH]; simpl; intros D; [reflexivity|].
  inversion D as [|? ? Dh Dt]; subst.
  destruct (String.eqb_spec k k1) as [->|N1]; simpl.
  - destruct (dict_get k1 d) eqn:G; [|reflexivity].
    exfalso. apply Dh. apply (proj2 (dict_get_keys k1 d)). congruence.
  - destruct (String.eqb_spec k k1); [congruence | now apply IH].
Qed.

(** X1.  When the description decodes to an object: without the reserved
    list of tables, or with [null] for it, the whole run is the
    XLSXParseError of line 72 and nothing else - no worksheet is read, no
    line printed, no file written; with a list, loading gives that list and
    the object without the reserved key, every other block as it was. *)
Theorem load_mapping_needs_tables_list env wb text d :
  description wb = Some text ->
  json_loads text = Some (PDict d) ->
  (dict_get TABLES_KEY d = None \/ dict_get TABLES_KEY d = Some (Scalar PNone) ->
   xlsx_to_sql cfg env wb = ([], inl missing_tables_list))
  /\
  (forall twm,
      dict_get TABLES_KEY d = Some twm -> twm <> Scalar PNone ->
      load_mapping wb = ([], inr (twm, dict_remove TABLES_KEY d)) /\
      (forall k, k <> TABLES_KEY ->
                 dict_get k (dict_remove TABLES_KEY d) = dict_get k d) /\
      (NoDup (dict_keys d) -> dict_get TABLES_KEY (dict_remove TABLES_KEY d) = None)).
Proof.
  intros D J. split.
  - intros H. unfold xlsx_to_sql, convert, load_mapping. rewrite D. simpl.
    rewrite J. simpl. destruct H as [-> | ->]; reflexivity.
  - intros twm G N. split; [|split].
    + unfold load_mapping. rewrite D. simpl. rewrite J. simpl. rewrite G.
      destruct twm as [[]| |]; try reflexivity. congruence.
    + intros k K. apply dict_get_remove_other. congruence.
    + apply dict_get_remove_same.
Qed.
End Loading.

Lemma load_mapping_needs_tables_list_witness :
  xlsx_to_sql (py := Cases.builtins) Sample.defaults Sample.calm Cases.bare_workbook
  = ([], inl missing_tables_list)
  /\ load_mapping (py := Cases.builtins) Cases.listed_workbook
     = ([], inr (PList [VStr "Account"], [])).
Proof.
  split.
  - apply (proj1 (load_mapping_needs_tables_list (py := Cases.builtins) Sample.defaults
                    Sample.calm Cases.bare_workbook Cases.bare_text
                    Cases.bare_document eq_refl eq_refl)).
    left. reflexivity.
  - apply (proj2 (load_mapping_needs_tables_list (py := Cases.builtins) Sample.defaults
                    Sample.calm Cases.listed_workbook Cases.listing_text
                    Cases.listing_document eq_refl eq_refl) (PList [VStr "Account"]));
      [reflexivity | discriminate].
Defined.

(* --------------------------------------------------------------------- *)
(** ** The comment of a header cell *)
(* --------------------------------------------------------------------- *)

Section Comments.
Context {py : PyBuiltins}.
Variable cfg : config.

Lemma str_take_append p s : str_take (String.length p) (p ++ s) = p.
Proof. induction p as [|c p IH]; simpl; [destruct s; reflexivity | now rewrite IH]. Qed.

Lemma str_drop_append p s : str_drop (String.length p) (p ++ s) = s.
Proof. induction p as [|c p IH]; simpl; [reflexivity | exact IH]. Qed.

Lemma str_take_drop n s : str_take n s ++ str_drop n s = s.
Proof.
  revert s; induction n as [|n IH]; intros [|c s]; simpl; try reflexivity.
  now rewrite IH.
Qed.

(** X2.  The metadata of a header cell: a comment that is the tag followed
    by a payload gives the decoded payload, or JSONDecodeError when the
    payload does not decode; a comment that is not the tag followed by
    anything raises the XLSXParseError "Comment verification failed" with
    the comment's text; and a cell without comment gets the default
    metadata, with the warning of line 112 when warnings are displayed. *)
Theorem comment_carries_metadata (c : cell) :
  (forall payload,
      comment c = Some (COMMENT_PREFIX ++ payload) ->
      extract_metadata cfg c
      = ([], match json_loads payload with
             | Some metadata => inr metadata
             | None => inl JSONDecodeError
             end))
  /\
  (forall comment_text,
      comment c = Some comment_text ->
      (forall payload, comment_text <> COMMENT_PREFIX ++ payload) ->
      extract_metadata cfg c = ([], inl (comment_verification_failed comment_text)))
  /\
  (comment c = None ->
   extract_metadata cfg c
   = (if DISPLAY_WARNINGS cfg then [Print (no_comment_warning (value c))] else [],
      inr DEFAULT_METADATA)).
Proof.
  split; [|split].
  - intros payload H. unfold extract_metadata. rewrite H.
    rewrite str_take_append, str_drop_append, String.eqb_refl. simpl.
    destruct (json_loads payload); reflexivity.
  - intros text H N. unfold extract_metadata. rewrite H.
    destruct (String.eqb_spec (str_take (String.length COMMENT_PREFIX) text)
                COMMENT_PREFIX) as [E|E]; [|reflexivity].
    exfalso. apply (N (str_drop (String.length COMMENT_PREFIX) text)).
    pose proof (str_take_drop (String.length COMMENT_PREFIX) text) as T.
    rewrite E in T. now symmetry.
  - intros H. unfold extract_metadata, log_warning, no_comment_warning. rewrite H.
    destruct (DISPLAY_WARNINGS cfg); reflexivity.
Qed.
End Comments.

Lemma comment_carries_metadata_witness :
  extract_metadata (py := Cases.builtins) Sample.defaults
    (Sample.noted (PStr "Id") Sample.id_payload) = ([], inr Sample.id_metadata)
  /\ extract_metadata (py := Cases.builtins) Sample.defaults Cases.edited_cell
     = ([], inl (comment_verification_failed "pk, INTEGER"))
  /\ extract_metadata (py := Cases.builtins) Sample.quiet (Sample.plain (PStr "Name"))
     = ([], inr DEFAULT_METADATA).
Proof.
  split; [|split].
  - apply (proj1 (comment_carries_metadata (py := Cases.builtins) Sample.defaults
                    (Sample.noted (PStr "Id") Sample.id_payload)) Sample.id_payload).
    reflexivity.
  - apply (proj1 (proj2 (comment_carries_metadata (py := Cases.builtins) Sample.defaults
                           Cases.edited_cell)) "pk, INTEGER"); [reflexivity|].
    intros payload H. discriminate H.
  - apply (proj2 (proj2 (comment_carries_metadata (py := Cases.builtins) Sample.quiet
                           (Sample.plain (PStr "Name"))))).
    reflexivity.
Defined.

(* --------------------------------------------------------------------- *)
(** ** What the options change *)
(* --------------------------------------------------------------------- *)

Lemma outcome_ret {A} (a : A) : outcome (ret a) = inr a.
Proof. reflexivity. Qed.

Lemma outcome_raise {A} (e : exn) : outcome (raise e : M A) = inl e.
Proof. reflexivity. Qed.

Ltac outcomes :=
  repeat (rewrite ?outcome_bind, ?outcome_lift, ?outcome_ret, ?outcome_raise,
            ?outcome_log_table_name, ?outcome_log_record, ?outcome_log_field,
            ?outcome_log_warning;
          cbv beta iota).

Section Options.
Context {py : PyBuiltins}.
Variables cfg cfg' : config.








End Options.


(* --------------------------------------------------------------------- *)
(** ** What a run prints and saves *)
(* --------------------------------------------------------------------- *)

Section Prints.
Context {py : PyBuiltins}.
Variable cfg : config.

(** A property of events that the lines of the four logging functions
    have. *)
Variable allowed : event -> bool.
Hypothesis allowed_table_name :
  forall s, forallb allowed (events (log_table_name cfg s)) = true.
Hypothesis allowed_record :
  forall s, forallb allowed (events (log_record cfg s)) = true.
Hypothesis allowed_field :
  forall s, forallb allowed (events (log_field cfg s)) = true.
Hypothesis allowed_warning :
  forall s, forallb allowed (events (log_warning cfg s)) = true.

Lemma allowed_bind {A B} (m : M A) (k : A -> M B) :
  forallb allowed (events m) = true ->
  (forall a, forallb allowed (events (k a)) = true) ->
  forallb allowed (events (bind m k)) = true.
Proof.
  intros Hm Hk. rewrite events_bind.
  destruct (outcome m) as [e|a]; [exact Hm|].
  rewrite forallb_app, Hm, Hk. reflexivity.
Qed.

Ltac allowed_steps tac :=
  repeat first
    [ tac
    | apply allowed_table_name | apply allowed_record
    | apply allowed_field | apply allowed_warning
    | match goal with
      | |- forallb allowed (events (ret _)) = true => reflexivity
      | |- forallb allowed (events (raise _)) = true => reflexivity
      | |- forallb allowed (events (lift _)) = true => reflexivity
      | |- forallb allowed (events (match ?x with _ => _ end)) = true => destruct x
      | |- forallb allowed (events (if ?x then _ else _)) = true => destruct x
      end
    | apply allowed_bind; [|intros] ].

Lemma allowed_load_mapping wb : forallb allowed (events (load_mapping wb)) = true.
Proof. unfold load_mapping. allowed_steps fail. Qed.

Lemma allowed_extract_metadata c :
  forallb allowed (events (extract_metadata cfg c)) = true.
Proof. unfold extract_metadata. allowed_steps fail. Qed.

Lemma allowed_collect_fields header :
  forallb allowed (events (collect_fields cfg header)) = true.
Proof.
  induction header as [|c header IH]; [reflexivity|].
  rewrite collect_fields_cons.
  allowed_steps ltac:(first [apply allowed_extract_metadata | exact IH]).
Qed.

Lemma allowed_insert_records t fields data sql :
  forallb allowed (events (insert_records cfg t fields data sql)) = true.
Proof.
  revert sql; induction data as [|row_obj data IH]; intros sql; [reflexivity|].
  rewrite insert_records_cons. allowed_steps ltac:(apply IH).
Qed.

Lemma allowed_build_mapping twm t mf st :
  forallb allowed (events (build_mapping cfg twm t mf st)) = true.
Proof. unfold build_mapping. allowed_steps fail. Qed.

Lemma allowed_process_sheets twm sheets st :
  forallb allowed (events (process_sheets cfg twm sheets st)) = true.
Proof.
  revert st; induction sheets as [|sheet sheets IH]; intros st; [reflexivity|].
  rewrite process_sheets_cons. apply allowed_bind; [|intros; apply IH].
  unfold process_sheet.
  allowed_steps ltac:(first [ apply allowed_collect_fields
                            | apply allowed_insert_records
                            | apply allowed_build_mapping ]).
Qed.

Lemma allowed_warn_unused st keys :
  forallb allowed (events (warn_unused cfg st keys)) = true.
Proof.
  induction keys as [|k keys IH]; [reflexivity|].
  rewrite warn_unused_cons. allowed_steps ltac:(exact IH).
Qed.

Lemma allowed_convert wb : forallb allowed (events (convert cfg wb)) = true.
Proof.
  unfold convert.
  allowed_steps ltac:(first [ apply allowed_load_mapping
                            | apply allowed_process_sheets
                            | apply allowed_warn_unused ]).
Qed.
End Prints.

Section Saving.
Context {py : PyBuiltins}.
Variable cfg : config.

Lemma convert_only_prints wb : forallb is_print (events (convert cfg wb)) = true.
Proof.
  apply allowed_convert; intros s;
    [ unfold log_table_name; destruct (LOG_TABLE_NAMES cfg)
    | unfold log_record; destruct (LOG_RECORDS cfg)
    | unfold log_field; destruct (LOG_FIELDS cfg)
    | unfold log_warning; destruct (DISPLAY_WARNINGS cfg) ]; reflexivity.
Qed.

Lemma forallb_none (l : list event) : forallb (fun _ => false) l = true -> l = [].
Proof. destruct l; [reflexivity | discriminate]. Qed.

Variable env : outside.

Lemma xlsx_to_sql_saving wb :
  events (xlsx_to_sql cfg env wb)
  = app (events (convert cfg wb))
        match outcome (convert cfg wb) with
        | inl _ => []
        | inr (sql, document) => until_raise env (saving_events cfg sql document)
        end.
Proof.
  rewrite xlsx_to_sql_events.
  destruct (outcome (convert cfg wb)) as [e|[sql document]];
    [now rewrite app_nil_r | reflexivity].
Qed.

Lemma trashed_after_writes sql document path :
  In (SendToTrash path) (until_raise env (saving_events cfg sql document)) <->
  path = INPUT_FILE cfg /\ DELETE_XLSX cfg = true /\
  env (WriteSQL (OUTPUT_SQL_FILE cfg) sql) = None /\
  env (WriteYAML (OUTPUT_YAML_FILE cfg) document) = None.
Proof.
  unfold saving_events. cbn [until_raise].
  destruct (env (WriteSQL _ _)) as [e1|].
  { split; [intros [I|[]]; discriminate I | intros (_ & _ & X & _); discriminate X]. }
  destruct (env (WriteYAML _ _)) as [e2|].
  { split; [intros [I|[I|[]]]; discriminate I | intros (_ & _ & _ & X); discriminate X]. }
  destruct (DELETE_XLSX cfg); cbn [app until_raise].
  - split.
    + intros [I|[I|[I|I]]]; try discriminate I.
      * injection I as <-. now repeat split.
      * destruct (env (SendToTrash _)); [destruct I|].
        destruct (OPEN_FILE cfg); [|destruct I].
        destruct (String.eqb _ _); cbn [until_raise] in I;
          destruct I as [I|I]; try discriminate I; destruct (env _); destruct I.
    + intros (-> & _). right. right. now left.
  - split; [|intros (_ & X & _); discriminate X].
    intros [I|[I|I]]; try discriminate I.
    destruct (OPEN_FILE cfg); [|destruct I].
    destruct (String.eqb _ _); cbn [until_raise] in I;
      destruct I as [I|I]; try discriminate I; destruct (env _); destruct I.
Qed.

(** X4.  Up to the saving steps a run only prints.  [send2trash] is called,
    on the spreadsheet, exactly when deletion is asked for, the worksheets
    have all been processed, and the SQL file and the mapping file have both
    been written without an exception: a run that fails, in a worksheet or
    while writing a file, leaves the spreadsheet where it is.  And a run
    succeeds exactly when the worksheets have all been processed and no call
    of the saving steps raises; it has then written the SQL file, then the
    mapping file, then sent the spreadsheet to the trash if asked to, then
    opened the script if asked to. *)
Theorem saving_comes_last wb :
  forallb is_print (events (convert cfg wb)) = true
  /\ (forall path,
         In (SendToTrash path) (events (xlsx_to_sql cfg env wb)) <->
         path = INPUT_FILE cfg /\ DELETE_XLSX cfg = true /\
         exists sql document,
           outcome (convert cfg wb) = inr (sql, document) /\
           env (WriteSQL (OUTPUT_SQL_FILE cfg) sql) = None /\
           env (WriteYAML (OUTPUT_YAML_FILE cfg) document) = None)
  /\ (outcome (xlsx_to_sql cfg env wb) = inr tt <->
      exists sql document,
        outcome (convert cfg wb) = inr (sql, document) /\
        forall ev, In ev (saving_events cfg sql document) -> env ev = None)
  /\ (outcome (xlsx_to_sql cfg env wb) = inr tt ->
      exists sql document,
        outcome (convert cfg wb) = inr (sql, document) /\
        events (xlsx_to_sql cfg env wb)
        = app (events (convert cfg wb)) (saving_events cfg sql document)).
Proof.
  pose proof (convert_only_prints wb) as P.
  pose proof (xlsx_to_sql_saving wb) as E.
  pose proof (xlsx_to_sql_outcome cfg env wb) as O.
  split; [exact P|]. split; [|split].
  - intros path. rewrite E, in_app_iff. split.
    + intros [I|I].
      * rewrite forallb_forall in P. apply P in I. discriminate I.
      * destruct (outcome (convert cfg wb)) as [e|[sql document]]; [destruct I|].
        apply trashed_after_writes in I as (-> & D & W1 & W2).
        split; [reflexivity|]. split; [exact D|]. now exists sql, document.
    + intros (-> & D & sql & document & R & W1 & W2). right. rewrite R.
      now apply trashed_after_writes.
  - rewrite O. destruct (outcome (convert cfg wb)) as [e|[sql document]].
    + split; [discriminate | intros (? & ? & X & _); discriminate X].
    + split.
      * intros H. exists sql, document. split; [reflexivity|].
        apply first_raise_none. now destruct (first_raise env _).
      * intros (sql' & document' & [= <- <-] & F).
        apply first_raise_none in F. now rewrite F.
  - rewrite O, E. destruct (outcome (convert cfg wb)) as [e|[sql document]];
      [discriminate|].
    intros H. exists sql, document. split; [reflexivity|].
    rewrite until_raise_all; [reflexivity|]. now destruct (first_raise env _).
Qed.

(** X5.  With no logging option and with warnings suppressed, a run prints
    nothing: its only events are the calls of the saving steps, made in
    their order up to the first that raises, and all of them when none
    does. *)
Theorem quiet_run_prints_nothing wb :
  all_quiet cfg = true ->
  events (convert cfg wb) = []
  /\ events (xlsx_to_sql cfg env wb)
     = match outcome (convert cfg wb) with
       | inl _ => []
       | inr (sql, document) => until_raise env (saving_events cfg sql document)
       end
  /\ ((forall ev, env ev = None) ->
      events (xlsx_to_sql cfg env wb)
      = match outcome (convert cfg wb) with
        | inl _ => []
        | inr (sql, document) => saving_events cfg sql document
        end).
Proof.
  unfold all_quiet. intros Q.
  apply andb_prop in Q as [Q Qw]. apply andb_prop in Q as [Q Qf].
  apply andb_prop in Q as [Qt Qr].
  apply negb_true_iff in Qt, Qr, Qf, Qw.
  assert (E : events (convert cfg wb) = []).
  { apply forallb_none. apply allowed_convert; intros s.
    - unfold log_table_name. now rewrite Qt.
    - unfold log_record. now rewrite Qr.
    - unfold log_field. now rewrite Qf.
    - unfold log_warning. now rewrite Qw. }
  split; [exact E|]. rewrite xlsx_to_sql_saving, E. split; [reflexivity|].
  intros N. cbn [app]. destruct (outcome (convert cfg wb)) as [e|[sql document]];
    [reflexivity|].
  apply until_raise_all, first_raise_none. intros ev _. apply N.
Qed.
End Saving.

Lemma saving_comes_last_witness :
  ~ In (SendToTrash (INPUT_FILE Sample.defaults))
       (events (xlsx_to_sql (py := Sample.builtins) Sample.defaults
                  Cases.no_mapping_file Sample.account_workbook))
  /\ In (SendToTrash (INPUT_FILE Sample.defaults))
        (events (xlsx_to_sql (py := Sample.builtins) Sample.defaults Sample.calm
                   Sample.account_workbook)).
Proof.
  split.
  - intros I.
    apply (proj1 (proj1 (proj2 (saving_comes_last (py := Sample.builtins)
                                  Sample.defaults Cases.no_mapping_file
                                  Sample.account_workbook)) _)) in I
      as (_ & _ & sql & document & _ & _ & W).
    discriminate W.
  - apply (proj2 (proj1 (proj2 (saving_comes_last (py := Sample.builtins)
                                  Sample.defaults Sample.calm
                                  Sample.account_workbook)) _)).
    split; [reflexivity|]. split; [reflexivity|].
    eexists _, _. split; [vm_compute; reflexivity|]. now split.
Defined.

Lemma quiet_run_prints_nothing_witness :
  events (convert (py := Sample.builtins) Sample.quiet Sample.account_workbook) = []
  /\ events (xlsx_to_sql (py := Sample.builtins) Sample.quiet Cases.no_mapping_file
               Sample.account_workbook)
     = match outcome (convert (py := Sample.builtins) Sample.quiet Sample.account_workbook) with
       | inl _ => []
       | inr (sql, document) =>
           until_raise Cases.no_mapping_file (saving_events Sample.quiet sql document)
       end
  /\ ((forall ev, Cases.no_mapping_file ev = None) ->
      events (xlsx_to_sql (py := Sample.builtins) Sample.quiet Cases.no_mapping_file
                Sample.account_workbook)
      = match outcome (convert (py := Sample.builtins) Sample.quiet Sample.account_workbook) with
        | inl _ => []
        | inr (sql, document) => saving_events Sample.quiet sql document
        end).
Proof.
  apply (quiet_run_prints_nothing (py := Sample.builtins) Sample.quiet
           Cases.no_mapping_file Sample.account_workbook).
  reflexivity.
Defined.

(* --------------------------------------------------------------------- *)
(** ** The statements of a worksheet and of a run *)
(* --------------------------------------------------------------------- *)

Section Composition.
Context {py : PyBuiltins}.
Variable cfg : config.

(** X6.  The insert loop as a whole: the rows without a truthy cell are left
    out, and the rows kept give one INSERT statement each, appended in row
    order; the loop ends with the exception of the first kept row that has a
    cell which cannot be converted, and then no later row is looked at. *)
Theorem inserts_in_row_order t fields data sql :
  outcome (insert_records cfg t fields data sql) =
  (literals <~ rows_literals fields (filter retained data) ;;
   inr (sql ++ str_concat (map (insert_statement t) literals))).
Proof.
  revert sql; induction data as [|row_obj data IH]; intros sql.
  - simpl. now rewrite append_empty_r.
  - cbn [filter]. destruct (retained row_obj) eqn:R.
    + rewrite insert_records_retained by exact R.
      cbn [rows_literals].
      destruct (row_literals fields 0 row_obj) as [e|literals]; [reflexivity|].
      cbn [rbind]. rewrite IH.
      destruct (rows_literals fields (filter retained data)) as [e|rest];
        [reflexivity|].
      cbn [rbind map str_concat]. now rewrite append_assoc.
    + rewrite insert_records_cons. unfold retained in R. rewrite R.
      cbn [negb]. apply IH.
Qed.

Lemma row_values_agree fields : forall column_index r1 r2,
  (forall i, (column_index <= i < column_index + List.length fields)%nat ->
             value (nth i r1 empty_cell) = value (nth i r2 empty_cell)) ->
  row_values fields column_index r1 = row_values fields column_index r2.
Proof.
  induction fields as [|[name metadata] fields IH]; intros column_index r1 r2 H;
    [reflexivity|].
  cbn [row_values]. rewrite (H column_index) by (simpl; lia).
  rewrite (IH (S column_index) r1 r2); [reflexivity|].
  intros i I. apply H. simpl. lia.
Qed.

(** X7.  A row is read at the columns of the fields only: the cells to the
    right of the last field do not change its values, and a row that is
    shorter than the header gives the values of the row lengthened by empty
    cells. *)
Theorem only_field_columns_are_read fields row_obj n :
  row_values fields 0 (firstn (List.length fields) row_obj)
  = row_values fields 0 row_obj
  /\ row_values fields 0 (app row_obj (padding n)) = row_values fields 0 row_obj.
Proof.
  split; apply row_values_agree; intros i I.
  - rewrite nth_firstn.
    destruct (Nat.ltb_spec i (List.length fields)); [reflexivity | lia].
  - destruct (Nat.lt_ge_cases i (List.length row_obj)) as [L|L].
    + now rewrite app_nth1.
    + rewrite app_nth2 by exact L. rewrite (nth_overflow row_obj) by exact L.
      unfold padding. now rewrite nth_repeat.
Qed.

Lemma add_field_after t f p mf pre sql :
  add_field t f (p, mf, pre ++ sql) =
  match add_field t f (p, mf, sql) with
  | inl e => inl e
  | inr (p', mf', sql') => inr (p', mf', pre ++ sql')
  end.
Proof.
  destruct f as [field_name metadata]. unfold add_field.
  destruct (value_getitem metadata "pk") as [e|pk]; [reflexivity|].
  cbn [rbind].
  destruct (truthy_value pk), p as [q|]; cbn [rbind]; try reflexivity;
    (destruct (value_getitem metadata "type") as [e|type]; [reflexivity|]);
    cbn [rbind];
    (destruct (value_getitem metadata "not_null") as [e|not_null]; [reflexivity|]);
    cbn [rbind];
    repeat match goal with
           | |- context [if ?b then _ else _] => destruct b
           end;
    repeat first [rewrite append_assoc | progress simpl]; reflexivity.
Qed.

Lemma add_fields_after t fields : forall p mf pre sql,
  add_fields t fields (p, mf, pre ++ sql) =
  match add_fields t fields (p, mf, sql) with
  | inl e => inl e
  | inr (p', mf', sql') => inr (p', mf', pre ++ sql')
  end.
Proof.
  induction fields as [|f fields IH]; intros p mf pre sql; [reflexivity|].
  rewrite !add_fields_cons, add_field_after.
  destruct (add_field t f (p, mf, sql)) as [e|[[p' mf'] sql']]; [reflexivity|].
  apply IH.
Qed.

Lemma create_table_after t fields pre sql :
  create_table t fields (pre ++ sql) =
  match create_table t fields sql with
  | inl e => inl e
  | inr (mf, sql') => inr (mf, pre ++ sql')
  end.
Proof.
  unfold create_table. rewrite (append_assoc pre sql), add_fields_after.
  destruct (add_fields t fields _) as [e|[[p mf] sql']]; [reflexivity|].
  cbn [rbind]. destruct p as [p|]; [|reflexivity].
  cbn [rbind]. now rewrite !append_assoc.
Qed.

Lemma insert_records_after t fields data : forall pre sql,
  outcome (insert_records cfg t fields data (pre ++ sql)) =
  match outcome (insert_records cfg t fields data sql) with
  | inl e => inl e
  | inr sql' => inr (pre ++ sql')
  end.
Proof.
  induction data as [|row_obj data IH]; intros pre sql; [reflexivity|].
  destruct (retained row_obj) eqn:R.
  - rewrite !insert_records_retained by exact R.
    destruct (row_literals fields 0 row_obj) as [e|literals]; [reflexivity|].
    rewrite append_assoc. apply IH.
  - rewrite !insert_records_cons. unfold retained in R. rewrite R.
    cbn [negb]. apply IH.
Qed.

Lemma build_mapping_script twm t mf st st' :
  outcome (build_mapping cfg twm t mf st) = inr st' -> sql_script st' = sql_script st.
Proof.
  rewrite build_mapping_outcome.
  destruct (dict_get _ _) as [entry|].
  - destruct (value_setitem _ _ _); [discriminate|]. now intros [= <-].
  - destruct (value_contains twm t) as [e|[]]; [discriminate| |]; now intros [= <-].
Qed.

Lemma process_sheet_script twm sheet st st' :
  outcome (process_sheet cfg twm sheet st) = inr st' ->
  exists s, sheet_script cfg sheet = inr s /\ sql_script st' = sql_script st ++ s.
Proof.
  intros H.
  apply process_sheet_ok in H as (fields & final & mf & sql & sql' & C & T & I & B).
  apply build_mapping_script in B. cbn [with_sql sql_script] in B.
  rewrite <- (append_empty_r (sql_script st)), create_table_after in T.
  unfold sheet_script. rewrite C. cbn [rbind].
  destruct (create_table (title sheet) fields "") as [e|[mf' ddl]]; [discriminate|].
  injection T as <- <-. cbn [rbind].
  rewrite insert_records_after in I.
  destruct (outcome (insert_records cfg (title sheet) fields (data_rows sheet) ddl))
    as [e|inserts]; [discriminate|].
  injection I as <-. exists inserts. split; [reflexivity|]. now rewrite B.
Qed.

Lemma process_sheets_script twm sheets : forall st st',
  outcome (process_sheets cfg twm sheets st) = inr st' ->
  exists body, sheets_script cfg sheets = inr body /\
               sql_script st' = sql_script st ++ body.
Proof.
  induction sheets as [|sheet sheets IH]; intros st st' H.
  - injection H as <-. exists "". now rewrite append_empty_r.
  - apply process_sheets_ok_cons in H as (st1 & H1 & H2).
    apply process_sheet_script in H1 as (s & S & E1).
    apply IH in H2 as (rest & R & E2).
    exists (s ++ rest). cbn [sheets_script]. rewrite S, R. split; [reflexivity|].
    now rewrite E2, E1, append_assoc.
Qed.

(** X8.  The script of a successful run is [BEGIN TRANSACTION;], then for
    each worksheet in the workbook's order the statements of that worksheet
    alone (its CREATE TABLE statement and its INSERT statements, as the
    worksheet gives them on an empty script), then [COMMIT;].  The mapping
    document has no part in it. *)
Theorem script_is_made_of_the_worksheets wb sql document :
  outcome (convert cfg wb) = inr (sql, document) ->
  exists body,
    sheets_script cfg (worksheets wb) = inr body /\
    sql = "BEGIN TRANSACTION;" ++ nl ++ body ++ "COMMIT;" ++ nl.
Proof.
  intros H. apply convert_ok in H as (twm & mapping & st & _ & P & _ & -> & _).
  apply process_sheets_script in P as (body & B & E).
  exists body. split; [exact B|]. rewrite E. cbn [initial_state sql_script].
  now rewrite !append_assoc.
Qed.
End Composition.

Lemma script_is_made_of_the_worksheets_witness :
  exists body,
    sheets_script (py := Sample.builtins) Sample.defaults
      (worksheets Sample.account_workbook) = inr body /\
    "BEGIN TRANSACTION;" ++ nl ++ table_ddl (py := Sample.builtins) "Account"
       Sample.account_fields
    ++ "INSERT INTO " ++ dq ++ "Account" ++ dq ++ " VALUES(1,'Acme');" ++ nl
    ++ "COMMIT;" ++ nl
    = "BEGIN TRANSACTION;" ++ nl ++ body ++ "COMMIT;" ++ nl.
Proof.
  apply (script_is_made_of_the_worksheets (py := Sample.builtins) Sample.defaults
           Sample.account_workbook _ Sample.reconciled_mapping).
  vm_compute. reflexivity.
Defined.

(* --------------------------------------------------------------------- *)
(** ** Tables the original document does not know *)
(* --------------------------------------------------------------------- *)

Section Unknown.
Context {py : PyBuiltins}.
Variable cfg : config.

Lemma build_mapping_warns twm t mf st :
  DISPLAY_WARNINGS cfg = true ->
  dict_get (block_key t) (mapping_original st) = None ->
  value_contains twm t = inr false ->
  In (Print (default_data_warning t)) (events (build_mapping cfg twm t mf st)).
Proof.
  intros D G V. unfold build_mapping, block_key in *. rewrite G.
  eapply events_bind_later; [rewrite outcome_lift; exact V|].
  cbv beta iota. apply events_bind_earlier.
  unfold log_warning. rewrite D. now left.
Qed.

Lemma process_sheet_warns twm sheet st st' :
  DISPLAY_WARNINGS cfg = true ->
  outcome (process_sheet cfg twm sheet st) = inr st' ->
  dict_get (block_key (title sheet)) (mapping_original st) = None ->
  value_contains twm (title sheet) = inr false ->
  In (Print (default_data_warning (title sheet)))
     (events (process_sheet cfg twm sheet st)).
Proof.
  intros D H G V.
  apply process_sheet_ok in H as (fields & final & mf & sql & sql' & C & T & I & B).
  unfold process_sheet.
  eapply events_bind_later; [apply outcome_log_table_name|].
  eapply events_bind_later; [exact C|]. cbv beta iota.
  eapply events_bind_later; [apply outcome_log_field|].
  eapply events_bind_later; [rewrite outcome_lift; exact T|]. cbv beta iota.
  eapply events_bind_later; [exact I|].
  apply build_mapping_warns; assumption.
Qed.

Lemma process_sheets_prints twm before sheet after ev : forall st st1,
  outcome (process_sheets cfg twm before st) = inr st1 ->
  In ev (events (process_sheet cfg twm sheet st1)) ->
  In ev (events (process_sheets cfg twm (before ++ sheet :: after)%list st)).
Proof.
  induction before as [|s before IH]; intros st st1 H I.
  - injection H as <-. cbn [app]. rewrite process_sheets_cons.
    now apply events_bind_earlier.
  - apply process_sheets_ok_cons in H as (st0 & H0 & H1).
    cbn [app]. rewrite process_sheets_cons.
    eapply events_bind_later; [exact H0|]. eapply IH; eassumption.
Qed.

(** X9.  After a successful run over worksheets of distinct titles, for a
    worksheet whose block key is not in the original document: when the
    table is in the list of tables without mapping data, the new document
    has no entry under its block key; otherwise the new document holds
    under it the default entry, made of the table's name and the names of
    the fields that are not the primary key, and the run has printed the
    warning of the added default data if warnings are displayed. *)
Theorem unknown_table_gets_default_entry wb sql document twm mapping sheet fields final :
  outcome (convert cfg wb) = inr (sql, document) ->
  outcome (load_mapping wb) = inr (twm, mapping) ->
  NoDup (map title (worksheets wb)) ->
  In sheet (worksheets wb) ->
  dict_get (block_key (title sheet)) mapping = None ->
  outcome (collect_fields cfg (header_row sheet)) = inr (fields, final) ->
  pk_name_is_its_own fields = true ->
  (value_contains twm (title sheet) = inr true ->
   dict_get (block_key (title sheet)) document = None)
  /\ (value_contains twm (title sheet) = inr false ->
      dict_get (block_key (title sheet)) document
      = Some (default_entry (title sheet) (non_pk_names fields))
      /\ (DISPLAY_WARNINGS cfg = true ->
          In (Print (default_data_warning (title sheet))) (events (convert cfg wb)))).
Proof.
  intros H L D I G C N.
  apply convert_ok in H as (twm' & mapping' & st & L' & P & _ & _ & ->).
  rewrite L in L'. injection L' as <- <-.
  apply in_split in I as (before & after & E). rewrite E in P, D.
  rewrite map_app in D. simpl in D. apply NoDup_remove_2 in D.
  pose proof P as Q.
  apply process_sheets_app in P as (st1 & P1 & P2).
  apply process_sheets_ok_cons in P2 as (st2 & P2 & P3).
  destruct (process_sheets_frame cfg twm before _ _ (block_key (title sheet)) P1)
    as (Fn1 & Fo1 & _).
  { apply other_titles_other_blocks. intros X. apply D, in_or_app. now left. }
  simpl in Fn1, Fo1. rewrite G in Fo1.
  destruct (process_sheets_frame cfg twm after _ _ (block_key (title sheet)) P3)
    as (Fn3 & _ & _).
  { apply other_titles_other_blocks. intros X. apply D, in_or_app. now right. }
  pose proof P2 as W.
  apply process_sheet_ok in P2 as (fields' & final' & mf & s & s' & C' & T & _ & B).
  rewrite C in C'. injection C' as <- <-.
  apply create_table_ddl in T as [_ ->]; [|exact N].
  rewrite build_mapping_outcome in B. cbn [with_sql mapping_original] in B.
  rewrite Fo1 in B. rewrite Fn3.
  split; intros V; rewrite V in B; injection B as <-.
  - exact Fn1.
  - split; [apply dict_get_set_same|].
    intros Dw. unfold convert.
    eapply events_bind_later; [exact L|]. cbv beta iota.
    apply events_bind_earlier. rewrite E.
    eapply process_sheets_prints; [exact P1|].
    eapply process_sheet_warns; eassumption.
Qed.

Lemma dict_mem_set {V} k k' (v : V) d :
  dict_mem k' (dict_set k v d) = String.eqb k k' || dict_mem k' d.
Proof.
  unfold dict_mem. destruct (String.eqb_spec k k') as [->|K].
  - now rewrite dict_get_set_same.
  - now rewrite dict_get_set_other.
Qed.

Lemma process_sheet_blocks twm sheet st st' k :
  outcome (process_sheet cfg twm sheet st) = inr st' ->
  dict_mem k (mapping_original st') = dict_mem k (mapping_original st)
  /\ (dict_mem k (mapping_new st') = true <->
      dict_mem k (mapping_new st) = true \/
      (k = block_key (title sheet) /\
       (dict_mem k (mapping_original st) = true \/
        value_contains twm (title sheet) = inr false))).
Proof.
  intros H.
  apply process_sheet_ok in H as (fields & final & mf & s & s' & _ & _ & _ & B).
  rewrite build_mapping_outcome in B.
  cbn [with_sql mapping_original mapping_new table_mappings_preserved] in B.
  destruct (dict_get (block_key (title sheet)) (mapping_original st)) as [entry|] eqn:G.
  - assert (M : dict_mem (block_key (title sheet)) (mapping_original st) = true)
      by (unfold dict_mem; now rewrite G).
    destruct (value_setitem _ _ _) as [e|entry']; [discriminate|].
    injection B as <-. cbn [mapping_original mapping_new]. rewrite !dict_mem_set.
    destruct (String.eqb_spec (block_key (title sheet)) k) as [<-|K]; cbn [orb].
    + rewrite M. split; [reflexivity|]. split; [|reflexivity].
      intros _. right. split; [reflexivity | now left].
    + split; [reflexivity|]. split; [now left|].
      intros [X|[X _]]; [exact X | congruence].
  - assert (M : forall k', k' = block_key (title sheet) ->
                           dict_mem k' (mapping_original st) = false).
    { intros k' ->. unfold dict_mem. now rewrite G. }
    destruct (value_contains twm (title sheet)) as [e|[]]; [discriminate| |];
      injection B as <-; cbn [mapping_original mapping_new];
      (split; [reflexivity|]).
    + split; [now left|]. intros [X|[X [Y|Y]]]; [exact X | | discriminate].
      rewrite (M k X) in Y. discriminate.
    + rewrite dict_mem_set.
      destruct (String.eqb_spec (block_key (title sheet)) k) as [<-|K]; cbn [orb].
      * split; [|reflexivity]. intros _. right. split; [reflexivity | now right].
      * split; [now left|]. intros [X|[X _]]; [exact X | congruence].
Qed.

Lemma process_sheets_blocks twm sheets k : forall st st',
  outcome (process_sheets cfg twm sheets st) = inr st' ->
  dict_mem k (mapping_original st') = dict_mem k (mapping_original st)
  /\ (dict_mem k (mapping_new st') = true <->
      dict_mem k (mapping_new st) = true \/
      exists sheet, In sheet sheets /\ k = block_key (title sheet) /\
        (dict_mem k (mapping_original st) = true \/
         value_contains twm (title sheet) = inr false)).
Proof.
  induction sheets as [|sheet sheets IH]; intros st st' H.
  - injection H as <-. split; [reflexivity|]. split; [now left|].
    intros [X|(sheet & [] & _)]. exact X.
  - apply process_sheets_ok_cons in H as (st1 & H1 & H2).
    apply (process_sheet_blocks _ _ _ _ k) in H1 as [O1 N1].
    apply IH in H2 as [O2 N2]. split; [congruence|].
    rewrite N2, N1, O1. split.
    + intros [[X|(X & Y)]|(s & I & X & Y)].
      * now left.
      * right. exists sheet. split; [now left | now split].
      * right. exists s. split; [now right | now split].
    + intros [X|(s & [<-|I] & X & Y)].
      * now left; left.
      * now left; right.
      * right. exists s. now repeat split.
Qed.

Lemma block_key_not_reserved t : block_key t <> TABLES_KEY.
Proof. discriminate. Qed.

(** X10.  The new mapping document of a successful run has a block for
    exactly these worksheets: those whose block key is in the original
    document, and those whose table is not in the list of tables without
    mapping data.  It has no other key; in particular it never has the
    reserved key of that list. *)
Theorem document_blocks_are_the_worksheets wb sql document twm mapping :
  outcome (convert cfg wb) = inr (sql, document) ->
  outcome (load_mapping wb) = inr (twm, mapping) ->
  (forall k,
      dict_mem k document = true <->
      exists sheet, In sheet (worksheets wb) /\ k = block_key (title sheet) /\
        (dict_mem k mapping = true \/ value_contains twm (title sheet) = inr false))
  /\ dict_mem TABLES_KEY document = false.
Proof.
  intros H L.
  apply convert_ok in H as (twm' & mapping' & st & L' & P & _ & _ & ->).
  rewrite L in L'. injection L' as <- <-.
  assert (K : forall k,
      dict_mem k (mapping_new st) = true <->
      exists sheet, In sheet (worksheets wb) /\ k = block_key (title sheet) /\
        (dict_mem k mapping = true \/ value_contains twm (title sheet) = inr false)).
  { intros k. destruct (process_sheets_blocks twm _ k _ _ P) as [_ N].
    rewrite N. cbn [initial_state mapping_new mapping_original]. split.
    - intros [X|X]; [discriminate X | exact X].
    - intros X. now right. }
  split; [exact K|].
  destruct (dict_mem TABLES_KEY (mapping_new st)) eqn:X; [|reflexivity].
  apply K in X as (sheet & _ & X & _). symmetry in X.
  now apply block_key_not_reserved in X.
Qed.

Lemma build_mapping_entries twm t mf st st' :
  outcome (build_mapping cfg twm t mf st) = inr st' ->
  (forall k entry, dict_get k (mapping_new st) = Some entry ->
     exists attributes names,
       entry = PDict attributes /\
       dict_get "fields" attributes = Some (fields_value names)) ->
  forall k entry, dict_get k (mapping_new st') = Some entry ->
    exists attributes names,
      entry = PDict attributes /\
      dict_get "fields" attributes = Some (fields_value names).
Proof.
  rewrite build_mapping_outcome. intros B Inv k entry G.
  destruct (dict_get (block_key t) (mapping_original st)) as [old|].
  - destruct old as [a|l|attributes]; try discriminate.
    cbn [value_setitem] in B. injection B as <-. cbn [mapping_new] in G.
    destruct (String.eqb_spec (block_key t) k) as [<-|K].
    + rewrite dict_get_set_same in G. injection G as <-.
      eexists _, mf. split; [reflexivity | apply dict_get_set_same].
    + rewrite dict_get_set_other in G by exact K. eapply Inv, G.
  - destruct (value_contains twm t) as [e|[]]; [discriminate| |]; injection B as <-.
    + eapply Inv, G.
    + cbn [mapping_new] in G.
      destruct (String.eqb_spec (block_key t) k) as [<-|K].
      * rewrite dict_get_set_same in G. injection G as <-.
        eexists _, mf. split; reflexivity.
      * rewrite dict_get_set_other in G by exact K. eapply Inv, G.
Qed.

Lemma process_sheets_entries twm sheets : forall st st',
  outcome (process_sheets cfg twm sheets st) = inr st' ->
  (forall k entry, dict_get k (mapping_new st) = Some entry ->
     exists attributes names,
       entry = PDict attributes /\
       dict_get "fields" attributes = Some (fields_value names)) ->
  forall k entry, dict_get k (mapping_new st') = Some entry ->
    exists attributes names,
      entry = PDict attributes /\
      dict_get "fields" attributes = Some (fields_value names).
Proof.
  induction sheets as [|sheet sheets IH]; intros st st' H Inv.
  - now injection H as <-.
  - apply process_sheets_ok_cons in H as (st1 & H1 & H2).
    apply (IH _ _ H2).
    apply process_sheet_ok in H1 as (fields & final & mf & s & s' & _ & _ & _ & B).
    eapply build_mapping_entries; [exact B | exact Inv].
Qed.

(** X11.  Every block of the new mapping document of a successful run is an
    object whose ["fields"] is a list of field names. *)
Theorem document_entries_list_their_fields wb sql document k entry :
  outcome (convert cfg wb) = inr (sql, document) ->
  dict_get k document = Some entry ->
  exists attributes names,
    entry = PDict attributes /\
    dict_get "fields" attributes = Some (fields_value names).
Proof.
  intros H G.
  apply convert_ok in H as (twm & mapping & st & _ & P & _ & _ & ->).
  eapply process_sheets_entries; [exact P | | exact G].
  intros k' entry' X. discriminate X.
Qed.
End Unknown.

Lemma unknown_table_gets_default_entry_witness :
  (value_contains (PList []) (title Sample.account) = inr true ->
   dict_get (block_key (title Sample.account)) Cases.default_document = None)
  /\ (value_contains (PList []) (title Sample.account) = inr false ->
      dict_get (block_key (title Sample.account)) Cases.default_document
      = Some (default_entry (title Sample.account) (non_pk_names Sample.account_fields))
      /\ (DISPLAY_WARNINGS Sample.defaults = true ->
          In (Print (default_data_warning (title Sample.account)))
             (events (convert (py := Cases.builtins) Sample.defaults
                        Cases.unlisted_workbook)))).
Proof.
  apply (unknown_table_gets_default_entry (py := Cases.builtins) Sample.defaults
           Cases.unlisted_workbook
           ("BEGIN TRANSACTION;" ++ nl ++ table_ddl (py := Cases.builtins) "Account"
              Sample.account_fields
            ++ "INSERT INTO " ++ dq ++ "Account" ++ dq ++ " VALUES(1,'Acme');" ++ nl
            ++ "COMMIT;" ++ nl)
           Cases.default_document (PList []) [] Sample.account
           Sample.account_fields PNone).
  - vm_compute. reflexivity.
  - vm_compute. reflexivity.
  - repeat constructor. intros [].
  - now left.
  - reflexivity.
  - vm_compute. reflexivity.
  - reflexivity.
Defined.

Lemma document_blocks_are_the_worksheets_witness :
  (forall k,
      dict_mem k Sample.reconciled_mapping = true <->
      exists sheet, In sheet (worksheets Sample.account_workbook) /\
        k = block_key (title sheet) /\
        (dict_mem k Sample.original_mapping = true \/
         value_contains (PList []) (title sheet) = inr false))
  /\ dict_mem TABLES_KEY Sample.reconciled_mapping = false.
Proof.
  apply (document_blocks_are_the_worksheets (py := Sample.builtins) Sample.defaults
           Sample.account_workbook
           ("BEGIN TRANSACTION;" ++ nl ++ table_ddl (py := Sample.builtins) "Account"
              Sample.account_fields
            ++ "INSERT INTO " ++ dq ++ "Account" ++ dq ++ " VALUES(1,'Acme');" ++ nl
            ++ "COMMIT;" ++ nl)
           Sample.reconciled_mapping (PList []) Sample.original_mapping).
  - vm_compute. reflexivity.
  - vm_compute. reflexivity.
Defined.

Lemma document_entries_list_their_fields_witness :
  exists attributes names,
    Sample.reconciled_entry = PDict attributes /\
    dict_get "fields" attributes = Some (fields_value names).
Proof.
  apply (document_entries_list_their_fields (py := Sample.builtins) Sample.defaults
           Sample.account_workbook
           ("BEGIN TRANSACTION;" ++ nl ++ table_ddl (py := Sample.builtins) "Account"
              Sample.account_fields
            ++ "INSERT INTO " ++ dq ++ "Account" ++ dq ++ " VALUES(1,'Acme');" ++ nl
            ++ "COMMIT;" ++ nl)
           Sample.reconciled_mapping "Insert Account" Sample.reconciled_entry).
  - vm_compute. reflexivity.
  - reflexivity.
Defined.

(* --------------------------------------------------------------------- *)
(** ** A header without comments *)
(* --------------------------------------------------------------------- *)

Section Uncommented.
Context {py : PyBuiltins}.
Variable cfg : config.

Lemma collect_fields_uncommented header :
  forallb uncommented (truthy_prefix header) = true ->
  exists fields,
    outcome (collect_fields cfg header) = inr (fields, first_falsy header) /\
    forallb has_metadata fields = true /\ pk_count fields = 0%nat.
Proof.
  induction header as [|c header IH]; intros U.
  - exists []. now repeat split.
  - rewrite collect_fields_cons. cbn [truthy_prefix first_falsy] in *.
    destruct (truthy (value c)); [|exists []; now repeat split].
    cbn [forallb] in U. apply andb_prop in U as [Uc U].
    destruct (IH U) as (fields & C & M & K).
    exists ((value c, DEFAULT_METADATA) :: fields).
    unfold uncommented in Uc. unfold extract_metadata.
    destruct (comment c); [discriminate|].
    outcomes. rewrite C.
    split; [reflexivity|]. split.
    + cbn [forallb]. now rewrite M.
    + exact K.
Qed.

(** X12.  A worksheet whose header cells carry no comment, as a worksheet
    typed in by hand has them, cannot be converted: each of its fields gets
    the default metadata, none is a primary key, and the worksheet ends in
    the exception of the missing primary key; a run over a workbook that has
    such a worksheet fails. *)
Theorem uncommented_header_has_no_primary_key wb twm sheet st :
  forallb uncommented (truthy_prefix (header_row sheet)) = true ->
  outcome (process_sheet cfg twm sheet st) = inl (no_primary_key (title sheet))
  /\ (In sheet (worksheets wb) -> exists e, outcome (convert cfg wb) = inl e).
Proof.
  intros U.
  assert (F : forall twm' st',
             outcome (process_sheet cfg twm' sheet st')
             = inl (no_primary_key (title sheet))).
  { intros twm' st'.
    destruct (collect_fields_uncommented _ U) as (fields & C & M & K).
    rewrite (process_sheet_outcome cfg twm' sheet st' fields _ C).
    now rewrite create_table_no_key. }
  split; [apply F|]. intros I.
  destruct (outcome (convert cfg wb)) as [e|[sql document]] eqn:H; [now exists e|].
  apply convert_ok in H as (twm' & mapping & st' & _ & P & _).
  apply process_sheets_each in P. rewrite Forall_forall in P.
  destruct (P sheet I) as (st1 & st2 & X). rewrite F in X. discriminate X.
Qed.
End Uncommented.

Lemma uncommented_header_has_no_primary_key_witness :
  outcome (process_sheet (py := Sample.builtins) Sample.defaults Sample.no_tables
             Sample.no_key Sample.start)
  = inl (no_primary_key (title Sample.no_key))
  /\ (In Sample.no_key (worksheets Cases.loose_workbook) ->
      exists e, outcome (convert (py := Sample.builtins) Sample.defaults
                           Cases.loose_workbook) = inl e).
Proof.
  apply (uncommented_header_has_no_primary_key (py := Sample.builtins)
           Sample.defaults Cases.loose_workbook Sample.no_tables Sample.no_key
           Sample.start).
  reflexivity.
Defined.

(* --------------------------------------------------------------------- *)
(** ** The warnings of the closing loop *)
(* --------------------------------------------------------------------- *)

Section Closing.
Context {py : PyBuiltins}.
Variable cfg : config.










End Closing.

